(** * ZyperPanel daemon: instance lifecycle, console streaming and helpers

    A shallow embedding of [src/server.js]: the runtime matrix and
    [getRequiredJavaVersion], [authMiddleware], the path handling of the
    file endpoints, and the event-loop state machine formed by the
    start / stop / restart / delete handlers, the pty callbacks and the
    [join-server] socket handler. *)

From Stdlib Require Import ZArith String List Ascii Lia Bool Sorted DecimalString.
From stdpp Require Import gmap strings list fin_maps.

Local Open Scope Z_scope.

(* ===================================================================== *)
(** ** Strings *)
(* ===================================================================== *)

Module Str.

(** [s.startsWith(p)] of JavaScript, on byte strings. *)
Definition startsWith (s p : string) : bool := String.prefix p s.

(** [p] is a string prefix of [s]. *)
Definition is_prefix (p s : string) : Prop := exists r, s = p +:+ r.

End Str.

(* ===================================================================== *)
(** ** Runtime matrix: [JAVA_VERSION_MAP] and [getRequiredJavaVersion] *)
(* ===================================================================== *)

Module Java.

(** [Object.entries(JAVA_VERSION_MAP)]. The numeric literal keys of the
    object ([1.21], [1.19], ...) are property names ["1.21"], ["1.19"],
    ...; none is an array index, so the entries come in the order in
    which the literal lists them. *)
Definition JAVA_VERSION_MAP : list (string * Z) :=
  [ ("1.21", 21); ("1.20.5", 21); ("1.20.4", 17); ("1.20", 17);
    ("1.19", 17); ("1.18", 17); ("1.17", 17); ("1.16", 11);
    ("1.15", 11); ("1.14", 11); ("1.13", 11); ("1.12", 8) ].

(** The [for ... of] loop of [getRequiredJavaVersion] over a list of
    entries: the first entry whose key the version starts with decides;
    the fall-through is the default 17. *)
Fixpoint for_entries (entries : list (string * Z)) (mcVersion : string) : Z :=
  match entries with
  | [] => 17
  | (version, javaVer) :: rest =>
      if Str.startsWith mcVersion version then javaVer
      else for_entries rest mcVersion
  end.

Definition getRequiredJavaVersion (mcVersion : string) : Z :=
  for_entries JAVA_VERSION_MAP mcVersion.

(** The spec's reading: [k] (with value [j]) is a key of the table that
    is a prefix of [v], and no key that is a prefix of [v] is longer. *)
Definition longest_prefix_key (table : list (string * Z))
    (v k : string) (j : Z) : Prop :=
  In (k, j) table /\ Str.is_prefix k v /\
  forall k' j', In (k', j') table -> Str.is_prefix k' v ->
                (String.length k' <= String.length k)%nat.

(** The same, as a check that evaluates. *)
Definition longest_prefix_keyb (table : list (string * Z))
    (v k : string) (j : Z) : bool :=
  existsb (fun e => String.eqb (fst e) k && Z.eqb (snd e) j) table
  && Str.startsWith v k
  && forallb (fun e => implb (Str.startsWith v (fst e))
                         (String.length (fst e) <=? String.length k)%nat) table.

(** The spec's longest-prefix lookup, written from its words: keep the
    longest key seen so far that is a prefix of the version. *)
Fixpoint longest_match (table : list (string * Z)) (v : string)
    (best : option (string * Z)) : option (string * Z) :=
  match table with
  | [] => best
  | (k, j) :: rest =>
      if Str.startsWith v k then
        match best with
        | Some (kb, _) =>
            if (String.length kb <? String.length k)%nat
            then longest_match rest v (Some (k, j))
            else longest_match rest v best
        | None => longest_match rest v (Some (k, j))
        end
      else longest_match rest v best
  end.

Definition spec_required_java (v : string) : Z :=
  match longest_match JAVA_VERSION_MAP v None with
  | Some (_, j) => j
  | None => 17
  end.

(** No key of the table is a proper prefix of a key listed after it:
    the order in which the literal is written makes the first match the
    longest one. *)
Fixpoint prefix_ordered (table : list (string * Z)) : bool :=
  match table with
  | [] => true
  | (k, _) :: rest =>
      forallb (fun e => negb (Str.startsWith (fst e) k
                              && (String.length k <? String.length (fst e))%nat)) rest
      && prefix_ordered rest
  end.

(** Keys are not repeated with different values. *)
Fixpoint functional (table : list (string * Z)) : bool :=
  match table with
  | [] => true
  | (k, j) :: rest =>
      forallb (fun e => implb (String.eqb (fst e) k) (Z.eqb (snd e) j)) rest
      && functional rest
  end.

End Java.

(* ===================================================================== *)
(** ** [authMiddleware] *)
(* ===================================================================== *)

Module Auth.

(** The two request headers the middleware reads; [None] is
    [undefined]. *)
Record Headers := mkHeaders {
  authorization : option string;
  x_api_key : option string
}.

(** What the middleware does with the request. *)
Inductive Outcome :=
| Next                (* next() *)
| Unauthorized.       (* res.status(401).json({ error: "Unauthorized" }) *)

(** [!config.nodeKey]: the key is absent or the empty string. *)
Definition falsy (nodeKey : option string) : bool :=
  match nodeKey with
  | None => true
  | Some k => String.eqb k ""
  end.

(** [a === b] between a header ([undefined] or a string) and a string. *)
Definition strict_eq (a : option string) (b : string) : bool :=
  match a with
  | None => false
  | Some s => String.eqb s b
  end.

Definition authMiddleware (nodeKey : option string) (req : Headers) : Outcome :=
  let authHeader := authorization req in
  let apiKey := x_api_key req in
  if falsy nodeKey then Next
  else
    let key := default "" nodeKey in
    if strict_eq authHeader ("Bearer " +:+ key) || strict_eq apiKey key
    then Next
    else Unauthorized.

(** The request carries the configured key in one of the two headers. *)
Definition carries_key (key : string) (req : Headers) : Prop :=
  authorization req = Some ("Bearer " +:+ key) \/ x_api_key req = Some key.

End Auth.

(* ===================================================================== *)
(** ** The instance registry and its event loop *)
(* ===================================================================== *)

Module Daemon.

(** Signals handed to [tree-kill]. *)
Inductive Signal := SIGTERM | SIGKILL.

(** One element of [serverProcess.logs]: [{ time, data }]. *)
Record LogEntry := mkLog { time : Z; data : string }.

(** The function given to [ptyProcess.onData]: the closure of the start
    handler (lines 798-809) or the one of the restart handler (lines
    1069-1075). *)
Inductive DataHandler := OnDataStart | OnDataRestart.

(** A [serverProcess] object together with its pty. The callbacks close
    over the object itself and over [serverId] ([owner]); [onExit]
    tells whether a function was given to [ptyProcess.onExit] (only the
    start handler gives one); [alive] is the operating system's side:
    the process has not exited yet. *)
Record ServerProcess := mkProc {
  owner : string;
  pid : Z;
  startTime : Z;
  logs : list LogEntry;
  onData : DataHandler;
  onExit : bool;
  alive : bool
}.

(** The fields of an entry of [config.servers] that the lifecycle
    handlers read or write. Timestamps ([Date.now()], and the instant
    behind [new Date().toISOString()]) are milliseconds. *)
Record ServerConfig := mkConfig {
  name : string;
  directory : string;
  version : string;
  lastStarted : option Z
}.

(** Payloads sent over socket.io: event ["console-output"] with
    [{ message, type, timestamp }] (absent fields are [None]) and event
    ["server_stopped"] with [{ exitCode, signal }]. *)
Inductive Message :=
| ConsoleOutput (message : string) (type : option string) (timestamp : option Z)
| ServerStopped (exitCode : Z) (signal : option Z).

(** JSON bodies of the HTTP responses. *)
Inductive Body :=
| SuccessPid (p : Z)                 (* { success: true, pid } *)
| SuccessOnly                        (* { success: true } *)
| ErrorBody (error : string)         (* { error } *)
| InstanceBody (status : string) (p : option Z) (uptime_ms : Z)
| Unhandled (thrown : string).       (* the page of Express's own error handler *)

(** What a handler does to the outside world. *)
Inductive Effect :=
| Respond (req : nat) (status : Z) (body : Body)
| RoomEmit (room : string) (m : Message)       (* io.to(room).emit(...) *)
| SocketEmit (socket : nat) (m : Message)      (* socket.emit(...) *)
| TreeKill (p : Z) (sig : Signal).             (* kill(pid, signal, ...) *)

(** Callbacks waiting in the event loop. *)
Inductive Task :=
| StopKilled (serverId : string)                        (* lines 1017-1022 *)
| RestartKilled (req : nat) (serverId : string)         (* lines 1038-1041 *)
| RestartSettled (req : nat) (serverId : string) (due : Z). (* line 1044 *)

(** What the environment answers to [pty.spawn] and to the synchronous
    [fs] calls: a result, or an exception with its message. *)
Inductive SpawnResult := Spawned (p : Z) | SpawnThrows (msg : string).
Inductive WriteResult := Written | WriteThrows (msg : string).

(** The state of the daemon. [now] is the clock ([Date.now()]);
    [servers] are the entries that the object [config.servers] has of
    its own (the handlers of this module are the handlers past a lookup
    [config.servers[serverId]] that gave such an entry or nothing; what
    they do for a name that the object inherits, and without
    [config.servers], is in [Node] below); [disk] is the [servers] part of
    [node.json] as last written; [heap] holds every [serverProcess]
    object created so far, a reference being its index; [activeServers]
    is the [Map] from instance identifier to such an object; [tasks] are
    the callbacks waiting in the event loop; [rooms] are the socket.io
    rooms; [nextReq] numbers the requests. *)
Record State := mkState {
  now : Z;
  servers : gmap string ServerConfig;
  disk : gmap string ServerConfig;
  heap : list ServerProcess;
  activeServers : gmap string nat;
  tasks : list Task;
  rooms : gmap string (gset nat);
  nextReq : nat
}.

Definition with_now (v : Z) (s : State) : State :=
  mkState v (servers s) (disk s) (heap s) (activeServers s) (tasks s) (rooms s) (nextReq s).
Definition with_servers (v : gmap string ServerConfig) (s : State) : State :=
  mkState (now s) v (disk s) (heap s) (activeServers s) (tasks s) (rooms s) (nextReq s).
Definition with_disk (v : gmap string ServerConfig) (s : State) : State :=
  mkState (now s) (servers s) v (heap s) (activeServers s) (tasks s) (rooms s) (nextReq s).
Definition with_heap (v : list ServerProcess) (s : State) : State :=
  mkState (now s) (servers s) (disk s) v (activeServers s) (tasks s) (rooms s) (nextReq s).
Definition with_active (v : gmap string nat) (s : State) : State :=
  mkState (now s) (servers s) (disk s) (heap s) v (tasks s) (rooms s) (nextReq s).
Definition with_tasks (v : list Task) (s : State) : State :=
  mkState (now s) (servers s) (disk s) (heap s) (activeServers s) v (rooms s) (nextReq s).
Definition with_rooms (v : gmap string (gset nat)) (s : State) : State :=
  mkState (now s) (servers s) (disk s) (heap s) (activeServers s) (tasks s) v (nextReq s).

(** A new request: its identity is the current counter. *)
Definition accept (s : State) : State :=
  mkState (now s) (servers s) (disk s) (heap s) (activeServers s) (tasks s) (rooms s)
          (S (nextReq s)).

Definition set_logs (l : list LogEntry) (p : ServerProcess) : ServerProcess :=
  mkProc (owner p) (pid p) (startTime p) l (onData p) (onExit p) (alive p).
Definition set_alive (b : bool) (p : ServerProcess) : ServerProcess :=
  mkProc (owner p) (pid p) (startTime p) (logs p) (onData p) (onExit p) b.
Definition set_lastStarted (t : option Z) (c : ServerConfig) : ServerConfig :=
  mkConfig (name c) (directory c) (version c) t.
Definition set_version (v : string) (c : ServerConfig) : ServerConfig :=
  mkConfig (name c) (directory c) v (lastStarted c).

(** [`server-${serverId}`] *)
Definition room_of (serverId : string) : string := "server-" +:+ serverId.

(** [activeServers.get(serverId)], followed to the object. *)
Definition running (s : State) (serverId : string) : option ServerProcess :=
  match activeServers s !! serverId with
  | Some ref => heap s !! ref
  | None => None
  end.

(** [saveConfig()]: the write replaces the document, or throws. *)
Definition saveConfig (wr : WriteResult) (s : State) : State :=
  match wr with
  | Written => with_disk (servers s) s
  | WriteThrows _ => s
  end.

(** *** POST /instances/:id/start (lines 768-827) *)
Definition start_handler (serverId : string) (sp : SpawnResult) (wr : WriteResult)
    (s : State) : list Effect * State :=
  let req := nextReq s in
  let s := accept s in
  match servers s !! serverId with
  | None => ([Respond req 404 (ErrorBody "Server not found")], s)
  | Some server =>
      match activeServers s !! serverId with
      | Some _ => ([Respond req 400 (ErrorBody "Server already running")], s)
      | None =>
          match sp with
          | SpawnThrows msg => ([Respond req 500 (ErrorBody msg)], s)
          | Spawned p =>
              let serverProcess := mkProc serverId p (now s) [] OnDataStart true true in
              let ref := length (heap s) in
              let s := with_heap (heap s ++ [serverProcess]) s in
              let s := with_active (<[serverId := ref]> (activeServers s)) s in
              let s := with_servers
                         (<[serverId := set_lastStarted (Some (now s)) server]> (servers s)) s in
              match wr with
              | WriteThrows msg => ([Respond req 500 (ErrorBody msg)], s)
              | Written => ([Respond req 200 (SuccessPid p)], saveConfig Written s)
              end
          end
      end
  end.

(** *** The callbacks of a pty *)

(** [ptyProcess.onData] fires with a chunk. Both closures push onto the
    [logs] of the object they captured; only the start handler's one
    shifts when the length has passed 1000, and only it tags the
    message with [type: "log"]. *)
Definition on_data (ref : nat) (chunk : string) (s : State)
    : option (list Effect * State) :=
  match heap s !! ref with
  | Some p =>
      if alive p then
        let pushed := logs p ++ [mkLog (now s) chunk] in
        match onData p with
        | OnDataStart =>
            let kept := if (1000 <? length pushed)%nat then tail pushed else pushed in
            Some ([RoomEmit (room_of (owner p))
                     (ConsoleOutput chunk (Some "log") (Some (now s)))],
                  with_heap (<[ref := set_logs kept p]> (heap s)) s)
        | OnDataRestart =>
            Some ([RoomEmit (room_of (owner p))
                     (ConsoleOutput chunk None (Some (now s)))],
                  with_heap (<[ref := set_logs pushed p]> (heap s)) s)
        end
      else None
  | None => None
  end.

(** The process exits. If a function was given to [ptyProcess.onExit]
    (lines 811-815) it deletes the entry of [serverId] and emits
    ["server_stopped"]; otherwise nothing in the daemon runs. *)
Definition on_exit (ref : nat) (exitCode : Z) (signal : option Z) (s : State)
    : option (list Effect * State) :=
  match heap s !! ref with
  | Some p =>
      if alive p then
        let s := with_heap (<[ref := set_alive false p]> (heap s)) s in
        if onExit p then
          Some ([RoomEmit (room_of (owner p)) (ServerStopped exitCode signal)],
                with_active (delete (owner p) (activeServers s)) s)
        else Some ([], s)
      else None
  | None => None
  end.

(** *** POST /instances/:id/stop (lines 1008-1028) *)
Definition stop_handler (serverId : string) (s : State) : option (list Effect * State) :=
  let req := nextReq s in
  let s := accept s in
  match activeServers s !! serverId with
  | None => Some ([Respond req 400 (ErrorBody "Server not running")], s)
  | Some ref =>
      p ← heap s !! ref;
      Some ([TreeKill (pid p) SIGTERM; Respond req 200 SuccessOnly],
            with_tasks (tasks s ++ [StopKilled serverId]) s)
  end.

(** *** POST /instances/:id/restart (lines 1031-1083) *)

(** Lines 1047-1079: what the handler does once it is past the [if]. *)
Definition restart_spawn (req : nat) (serverId : string) (sp : SpawnResult)
    (s : State) : list Effect * State :=
  match servers s !! serverId with
  | None => ([Respond req 404 (ErrorBody "Server not found")], s)
  | Some server =>
      match sp with
      | SpawnThrows msg => ([Respond req 500 (ErrorBody msg)], s)
      | Spawned p =>
          let newServerProcess := mkProc serverId p (now s) [] OnDataRestart false true in
          let ref := length (heap s) in
          let s := with_heap (heap s ++ [newServerProcess]) s in
          let s := with_active (<[serverId := ref]> (activeServers s)) s in
          ([Respond req 200 (SuccessPid p)], s)
      end
  end.

(** The settle delay of line 1044, in milliseconds. *)
Definition settle_delay : Z := 2000.

(** Lines 1033-1045 up to the first [await]: with a process registered
    the handler calls [kill] and suspends; without one it runs on. *)
Definition restart_handler (serverId : string) (sp : SpawnResult) (s : State)
    : option (list Effect * State) :=
  let req := nextReq s in
  let s := accept s in
  match activeServers s !! serverId with
  | Some ref =>
      p ← heap s !! ref;
      Some ([TreeKill (pid p) SIGTERM],
            with_tasks (tasks s ++ [RestartKilled req serverId]) s)
  | None => Some (restart_spawn req serverId sp s)
  end.

(** A waiting callback runs. The callback of the stop handler deletes
    the entry; the one of the restart handler deletes the entry and the
    handler goes on to [setTimeout(r, 2000)]; when that timer is due the
    handler goes on to lines 1047-1079. A timer that is not yet due
    cannot run. *)
Definition run_task (n : nat) (sp : SpawnResult) (s : State)
    : option (list Effect * State) :=
  t ← tasks s !! n;
  let s' := with_tasks (delete n (tasks s)) s in
  match t with
  | StopKilled serverId =>
      Some ([], with_active (delete serverId (activeServers s')) s')
  | RestartKilled req serverId =>
      let s' := with_active (delete serverId (activeServers s')) s' in
      Some ([], with_tasks (tasks s' ++ [RestartSettled req serverId (now s' + settle_delay)]) s')
  | RestartSettled req serverId due =>
      if due <=? now s then Some (restart_spawn req serverId sp s') else None
  end.

(** *** DELETE /instances/:id (lines 1086-1112) *)
Definition delete_handler (serverId : string) (rm wr : WriteResult) (s : State)
    : option (list Effect * State) :=
  let req := nextReq s in
  let s := accept s in
  match servers s !! serverId with
  | None => Some ([Respond req 404 (ErrorBody "Server not found")], s)
  | Some server =>
      '(killed, s) ←
        match activeServers s !! serverId with
        | Some ref =>
            p ← heap s !! ref;
            Some ([TreeKill (pid p) SIGKILL],
                  with_active (delete serverId (activeServers s)) s)
        | None => Some ([], s)
        end;
      match rm with
      | WriteThrows msg => Some (killed ++ [Respond req 500 (ErrorBody msg)], s)
      | Written =>
          let s := with_servers (delete serverId (servers s)) s in
          match wr with
          | WriteThrows msg => Some (killed ++ [Respond req 500 (ErrorBody msg)], s)
          | Written => Some (killed ++ [Respond req 200 SuccessOnly], saveConfig Written s)
          end
      end
  end.

(** *** POST /instances/:id/change-version (lines 946-1005), as far as
    the registry and the configuration go: the running process is
    killed and its entry deleted, the version is replaced, the script
    is rewritten ([fsr]) and the configuration saved. *)
Definition change_version_handler (serverId newVersion : string) (fsr wr : WriteResult)
    (s : State) : option (list Effect * State) :=
  let req := nextReq s in
  let s := accept s in
  match servers s !! serverId with
  | None => Some ([Respond req 404 (ErrorBody "Server not found")], s)
  | Some server =>
      '(killed, s) ←
        match activeServers s !! serverId with
        | Some ref =>
            p ← heap s !! ref;
            Some ([TreeKill (pid p) SIGTERM],
                  with_active (delete serverId (activeServers s)) s)
        | None => Some ([], s)
        end;
      let s := with_servers (<[serverId := set_version newVersion server]> (servers s)) s in
      match fsr with
      | WriteThrows msg => Some (killed ++ [Respond req 500 (ErrorBody msg)], s)
      | Written =>
          match wr with
          | WriteThrows msg => Some (killed ++ [Respond req 500 (ErrorBody msg)], s)
          | Written => Some (killed ++ [Respond req 200 SuccessOnly], saveConfig Written s)
          end
      end
  end.

(** *** POST /instances/create (lines 655-765), as far as the
    configuration goes: [serverId] is the fresh uuid, [mk] the outcome
    of what comes before line 743 (creating the directory, generating
    the script), [wr] the outcome of [saveConfig()], [fw] the outcome
    of writing the script and the configuration files afterwards (lines
    747-754). *)
Definition create_handler (serverId : string) (serverConfig : ServerConfig)
    (mk wr fw : WriteResult) (s : State) : list Effect * State :=
  let req := nextReq s in
  let s := accept s in
  match mk with
  | WriteThrows msg => ([Respond req 500 (ErrorBody msg)], s)
  | Written =>
      let s := with_servers
                 (<[serverId := set_lastStarted None serverConfig]> (servers s)) s in
      match wr with
      | WriteThrows msg => ([Respond req 500 (ErrorBody msg)], s)
      | Written =>
          match fw with
          | WriteThrows msg => ([Respond req 500 (ErrorBody msg)], saveConfig Written s)
          | Written => ([Respond req 200 SuccessOnly], saveConfig Written s)
          end
      end
  end.

(** *** GET /instances/:id (lines 182-197): the status of an instance.
    The uptime is kept in milliseconds ([Date.now() - startTime]). *)
Definition get_instance (serverId : string) (s : State) : Z * Body :=
  match servers s !! serverId with
  | None => (404, ErrorBody "Server not found")
  | Some server =>
      match running s serverId with
      | Some serverProcess =>
          (200, InstanceBody "running" (Some (pid serverProcess))
                  (now s - startTime serverProcess))
      | None => (200, InstanceBody "stopped" None 0)
      end
  end.

Definition get_instance_handler (serverId : string) (s : State) : list Effect * State :=
  let '(status, body) := get_instance serverId s in
  ([Respond (nextReq s) status body], accept s).

(** *** socket.on("join-server") (lines 1602-1627) *)

(** [logs.slice(-n)]: the last [n] elements, all of them when there are
    fewer. *)
Definition slice_last {A} (n : nat) (l : list A) : list A :=
  drop (length l - n) l.

Definition LF : string := String (ascii_of_nat 10) EmptyString.

Definition live_message : Message :=
  ConsoleOutput ("✅ Connected to server console (Real-time)" +:+ LF) (Some "system") None.
Definition offline_message : Message :=
  ConsoleOutput ("⚠️ Server is not running. Start it to see live logs." +:+ LF)
                (Some "system") None.

(** The message that replays one buffered record. *)
Definition replay (log : LogEntry) : Message :=
  ConsoleOutput (data log) (Some "log") (Some (time log)).

Definition join_server (socket : nat) (serverId : string) (s : State)
    : list Effect * State :=
  let room := room_of serverId in
  let s := with_rooms (<[room := {[socket]} ∪ default ∅ (rooms s !! room)]> (rooms s)) s in
  match running s serverId with
  | Some serverProcess =>
      let recentLogs := slice_last 50 (logs serverProcess) in
      (map (fun log => SocketEmit socket (replay log)) recentLogs
         ++ [SocketEmit socket live_message], s)
  | None => ([SocketEmit socket offline_message], s)
  end.

(** *** The event loop *)

(** What can happen next: time passes, a request or a socket message
    arrives, a waiting callback runs, a pty delivers output or exits,
    the periodic statistics timer (lines 102-105) saves the
    configuration (an exception there is caught by nobody and ends the
    daemon: it is no turn of this loop). Each carries what the
    environment answers. The handlers that only read the registry or
    write to a pty (command, logs, stats, console-command, detach) change
    none of this state and are left out. *)
Inductive Event :=
| Tick (d : N)
| PostCreate (serverId : string) (serverConfig : ServerConfig) (mk wr fw : WriteResult)
| PostStart (serverId : string) (sp : SpawnResult) (wr : WriteResult)
| PostStop (serverId : string)
| PostRestart (serverId : string) (sp : SpawnResult)
| PostChangeVersion (serverId newVersion : string) (fsr wr : WriteResult)
| DeleteInstance (serverId : string) (rm wr : WriteResult)
| GetInstance (serverId : string)
| RunTask (n : nat) (sp : SpawnResult)
| PtyData (ref : nat) (chunk : string)
| PtyExit (ref : nat) (exitCode : Z) (signal : option Z)
| JoinServer (socket : nat) (serverId : string)
| StatsTimer (wr : WriteResult).

(** One turn of the event loop; [None] when the event cannot happen in
    this state. *)
Definition step (s : State) (e : Event) : option (list Effect * State) :=
  match e with
  | Tick d => Some ([], with_now (now s + Z.of_N d) s)
  | PostCreate serverId serverConfig mk wr fw =>
      Some (create_handler serverId serverConfig mk wr fw s)
  | PostStart serverId sp wr => Some (start_handler serverId sp wr s)
  | PostStop serverId => stop_handler serverId s
  | PostRestart serverId sp => restart_handler serverId sp s
  | PostChangeVersion serverId v fsr wr => change_version_handler serverId v fsr wr s
  | DeleteInstance serverId rm wr => delete_handler serverId rm wr s
  | GetInstance serverId => Some (get_instance_handler serverId s)
  | RunTask n sp => run_task n sp s
  | PtyData ref chunk => on_data ref chunk s
  | PtyExit ref exitCode signal => on_exit ref exitCode signal s
  | JoinServer socket serverId => Some (join_server socket serverId s)
  | StatsTimer wr =>
      match wr with
      | Written => Some ([], saveConfig Written s)
      | WriteThrows _ => None
      end
  end.

(** A sequence of turns, with the effects in order. *)
Fixpoint run (s : State) (es : list Event) : option (list Effect * State) :=
  match es with
  | [] => Some ([], s)
  | e :: es =>
      '(eff, s1) ← step s e;
      '(eff', s2) ← run s1 es;
      Some (eff ++ eff', s2)
  end.

(** The daemon as it comes up over a document with these instances:
    nothing running, nothing waiting. The load of any document, with
    [servers] or without, is [Node.boot] below. *)
Definition boot (t0 : Z) (cfg : gmap string ServerConfig) : State :=
  mkState t0 cfg cfg [] ∅ [] ∅ 0.

Inductive reachable : State -> Prop :=
| reachable_boot t0 cfg : reachable (boot t0 cfg)
| reachable_step s e eff s' :
    reachable s -> step s e = Some (eff, s') -> reachable s'.

(** *** Properties of states *)

(** The processes created for [serverId] that have not exited. *)
Definition live_processes (s : State) (serverId : string) : list ServerProcess :=
  filter (fun p => owner p = serverId ∧ alive p = true) (heap s).

(** Every registered identifier is a configured one. *)
Definition running_configured (s : State) : Prop :=
  forall serverId ref, activeServers s !! serverId = Some ref ->
                       is_Some (servers s !! serverId).

(** A waiting callback belongs to a request accepted before [bound]. *)
Definition task_before (bound : nat) (t : Task) : Prop :=
  match t with
  | StopKilled _ => True
  | RestartKilled req _ | RestartSettled req _ _ => (req < bound)%nat
  end.

(** The buffer of a process fed by the start handler's closure holds at
    most 1000 records. *)
Definition capped (p : ServerProcess) : Prop :=
  onData p = OnDataStart -> (length (logs p) <= 1000)%nat.

(** The invariants of reachable states: references point into the
    heap, at an object created for that identifier; every registered
    identifier is configured; nothing started in the future; waiting
    callbacks belong to requests already accepted; buffers fed by the
    start handler's closure are capped. *)
Record wf (s : State) : Prop := mkWf {
  wf_ref : forall serverId ref, activeServers s !! serverId = Some ref ->
             exists p, heap s !! ref = Some p /\ owner p = serverId;
  wf_configured : running_configured s;
  wf_started : Forall (fun p => startTime p <= now s) (heap s);
  wf_tasks : Forall (task_before (nextReq s)) (tasks s);
  wf_capped : Forall capped (heap s)
}.

(** While the restart request [req] of [serverId] is under way: its
    callbacks carry its identifier, and its settle timer, once armed,
    is due no earlier than [settle_delay] after the instant [t]. *)
Definition restart_pending (req : nat) (serverId : string) (t : Z) (s : State) : Prop :=
  t <= now s /\ (req < nextReq s)%nat /\
  Forall (fun task =>
            match task with
            | StopKilled _ => True
            | RestartKilled req' serverId' => req' = req -> serverId' = serverId
            | RestartSettled req' serverId' due =>
                req' = req -> serverId' = serverId /\ t + settle_delay <= due
            end) (tasks s).

(** The responses given to request [req] among some effects. *)
Definition responses (req : nat) (eff : list Effect) : list (Z * Body) :=
  omap (fun e => match e with
                 | Respond r st b => if decide (r = req) then Some (st, b) else None
                 | _ => None
                 end) eff.

(** The terminal events published to the room of [serverId]. *)
Definition terminal_events (serverId : string) (eff : list Effect) : list Message :=
  omap (fun e => match e with
                 | RoomEmit room (ServerStopped c sg) =>
                     if decide (room = room_of serverId)
                     then Some (ServerStopped c sg) else None
                 | _ => None
                 end) eff.

(** What one turn can do to the queue of callbacks: nothing, queue the
    callback of a stop or of a restart, run a callback, or run the
    restart's kill callback, which arms the settle timer. *)
Inductive queue_change (s s' : State) : Prop :=
| queue_same : tasks s' = tasks s -> queue_change s s'
| queue_stop serverId : tasks s' = tasks s ++ [StopKilled serverId] -> queue_change s s'
| queue_restart serverId :
    tasks s' = tasks s ++ [RestartKilled (nextReq s) serverId] -> queue_change s s'
| queue_ran n t : tasks s !! n = Some t -> tasks s' = delete n (tasks s) ->
    queue_change s s'
| queue_killed n req serverId :
    tasks s !! n = Some (RestartKilled req serverId) ->
    tasks s' = delete n (tasks s) ++ [RestartSettled req serverId (now s + settle_delay)] ->
    queue_change s s'.

(** Nothing but the request counter differs between [s] and [s']. *)
Definition same_registry (s s' : State) : Prop :=
  now s' = now s /\ servers s' = servers s /\ disk s' = disk s /\
  heap s' = heap s /\ activeServers s' = activeServers s /\ tasks s' = tasks s.

(** Restart of an instance whose process [old] is registered, request
    [nextReq s]: the turn of the request sends SIGTERM and queues the
    callback of kill, creating nothing. Whenever later that callback is
    in the queue it can run, and it arms the settle timer [settle_delay]
    ahead, creating nothing. Whenever later that timer is in the queue,
    it cannot run before it is due; once due it can run, and on a
    configured instance with a successful spawn the new process is then
    registered, started at that instant. *)
Definition restart_when_running (s : State) (serverId : string)
    (old : ServerProcess) (sp : SpawnResult) : Prop :=
  let req := nextReq s in
  exists s1,
    step s (PostRestart serverId sp) = Some ([TreeKill (pid old) SIGTERM], s1) /\
    now s1 = now s /\ heap s1 = heap s /\ activeServers s1 = activeServers s /\
    tasks s1 = tasks s ++ [RestartKilled req serverId] /\
    forall es eff s2 n sp',
      run s1 es = Some (eff, s2) ->
      (forall serverId', tasks s2 !! n = Some (RestartKilled req serverId') ->
         serverId' = serverId /\
         exists s3,
           step s2 (RunTask n sp') = Some ([], s3) /\ heap s3 = heap s2 /\
           tasks s3 = delete n (tasks s2)
                        ++ [RestartSettled req serverId (now s2 + settle_delay)]) /\
      (forall serverId' due, tasks s2 !! n = Some (RestartSettled req serverId' due) ->
         serverId' = serverId /\ startTime old + settle_delay <= due /\
         (now s2 < due -> step s2 (RunTask n sp') = None) /\
         (due <= now s2 ->
          exists eff' s3,
            step s2 (RunTask n sp') = Some (eff', s3) /\
            forall p, sp' = Spawned p -> is_Some (servers s2 !! serverId) ->
              eff' = [Respond req 200 (SuccessPid p)] /\
              exists new, running s3 serverId = Some new /\ pid new = p /\
                          startTime new = now s2 /\ startTime old < startTime new)).

(** Restart of an instance with no process registered: no signal, no
    callback or timer queued, and on a configured instance with a
    successful spawn the new process is registered in the same turn. *)
Definition restart_when_stopped (s : State) (serverId : string) (sp : SpawnResult) : Prop :=
  let req := nextReq s in
  exists eff s1,
    step s (PostRestart serverId sp) = Some (eff, s1) /\
    (forall p sig, ~ In (TreeKill p sig) eff) /\ tasks s1 = tasks s /\ now s1 = now s /\
    forall p, sp = Spawned p -> is_Some (servers s !! serverId) ->
      eff = [Respond req 200 (SuccessPid p)] /\
      exists new, running s1 serverId = Some new /\ pid new = p /\ startTime new = now s.

End Daemon.

(* ===================================================================== *)
(** ** Paths and the file endpoints *)
(* ===================================================================== *)

Module Path.

Definition slash : ascii := "/"%char.

(** [s.split("/")]. *)
Fixpoint segments (s : string) : list string :=
  match s with
  | EmptyString => [EmptyString]
  | String c s' =>
      if Ascii.eqb c slash then EmptyString :: segments s'
      else match segments s' with
           | seg :: rest => String c seg :: rest
           | [] => [String c EmptyString]
           end
  end.

(** [segs.join("/")]. *)
Fixpoint join_slash (segs : list string) : string :=
  match segs with
  | [] => EmptyString
  | [seg] => seg
  | seg :: rest => seg +:+ "/" +:+ join_slash rest
  end.

(** Node's [normalizeString]: empty and ["."] segments are dropped, a
    [".."] removes the segment before it; where there is none to remove
    it is kept only when [allowAboveRoot]. [acc] is the result so far,
    last segment first. *)
Fixpoint normalize_segments (allowAboveRoot : bool) (segs acc : list string)
    : list string :=
  match segs with
  | [] => rev acc
  | seg :: rest =>
      if String.eqb seg "" || String.eqb seg "." then
        normalize_segments allowAboveRoot rest acc
      else if String.eqb seg ".." then
        match acc with
        | last :: acc' =>
            if String.eqb last ".." then
              normalize_segments allowAboveRoot rest
                (if allowAboveRoot then seg :: acc else acc)
            else normalize_segments allowAboveRoot rest acc'
        | [] =>
            normalize_segments allowAboveRoot rest
              (if allowAboveRoot then [seg] else [])
        end
      else normalize_segments allowAboveRoot rest (seg :: acc)
  end.

Definition isAbsolute (p : string) : bool := Str.startsWith p "/".

Definition endsWithSlash (p : string) : bool :=
  match rev (segments p) with
  | last :: _ :: _ => String.eqb last ""
  | _ => false
  end.

(** [path.posix.normalize]. *)
Definition normalize (p : string) : string :=
  if String.eqb p "" then "."
  else
    let body := join_slash (normalize_segments (negb (isAbsolute p)) (segments p) []) in
    if String.eqb body "" then
      if isAbsolute p then "/" else if endsWithSlash p then "./" else "."
    else
      let body := if endsWithSlash p then body +:+ "/" else body in
      if isAbsolute p then "/" +:+ body else body.

(** [path.posix.join(a, b)]. *)
Definition join (a b : string) : string :=
  if String.eqb a "" then (if String.eqb b "" then "." else normalize b)
  else if String.eqb b "" then normalize a
  else normalize (a +:+ "/" +:+ b).

(** [path.posix.resolve(p)] in a process whose working directory is the
    absolute path [cwd]. *)
Definition resolve (cwd p : string) : string :=
  let full := if isAbsolute p then p else cwd +:+ "/" +:+ p in
  "/" +:+ join_slash (normalize_segments false (segments full) []).

(** The resolved path [p] is the directory [dir] or lies below it. *)
Definition inside (dir p : string) : Prop :=
  p = dir \/ Str.is_prefix (dir +:+ "/") p.

Definition insideb (dir p : string) : bool :=
  String.eqb p dir || Str.startsWith p (dir +:+ "/").

End Path.

Module Files.

Import Daemon.

(** The file system as the handlers see it: the regular files, by
    normalized absolute path; a directory is there when a file lies
    below it. Directories that are empty, and paths that end in a
    slash, are followed in [Tree] below. *)
Definition below (dir file : string) : bool := Str.startsWith file (dir +:+ "/").

Definition isDirectory (fs : gmap string string) (p : string) : bool :=
  bool_decide (Exists (fun kv => below p kv.1 = true) (map_to_list fs)).

Definition existsSync (fs : gmap string string) (p : string) : bool :=
  bool_decide (is_Some (fs !! p)) || isDirectory fs p.

(** *** POST /instances/:id/files/write (lines 1402-1424) *)
Definition files_write (servers : gmap string ServerConfig)
    (serverId filePath content : string) (wr : WriteResult)
    (fs : gmap string string) : (Z * Body) * gmap string string :=
  match servers !! serverId with
  | None => ((404, ErrorBody "Server not found"), fs)
  | Some server =>
      let fullPath := Path.join (directory server) filePath in
      match wr with
      | WriteThrows msg => ((500, ErrorBody msg), fs)
      | Written => ((200, SuccessOnly), <[fullPath := content]> fs)
      end
  end.

(** *** POST /instances/:id/files/delete (lines 1428-1494) *)
Definition files_delete (cwd : string) (servers : gmap string ServerConfig)
    (serverId filePath : string) (force : bool) (rm : WriteResult)
    (fs : gmap string string) : (Z * Body) * gmap string string :=
  match servers !! serverId with
  | None => ((404, ErrorBody "Server not found"), fs)
  | Some server =>
      let fullPath := Path.join (directory server) filePath in
      let serverDir := Path.resolve cwd (directory server) in
      let requestedPath := Path.resolve cwd fullPath in
      if negb (Str.startsWith requestedPath serverDir) then
        ((403, ErrorBody "Access denied"), fs)
      else if negb (existsSync fs fullPath) then
        ((404, ErrorBody "File not found"), fs)
      else if isDirectory fs fullPath && negb force then
        ((400, ErrorBody "Directory is not empty"), fs)
      else
        match rm with
        | WriteThrows msg => ((500, ErrorBody msg), fs)
        | Written =>
            ((200, SuccessOnly),
             filter (fun kv => kv.1 ≠ fullPath ∧ below fullPath kv.1 = false) fs)
        end
  end.

End Files.

(* ===================================================================== *)
(** ** Concrete runs *)
(* ===================================================================== *)

Module Scenario.

Import Daemon.

(** One configured instance, never started. *)
Definition config_A : gmap string ServerConfig :=
  {[ "A" := mkConfig "survival" "/srv/a" "1.20.1" None ]}.

Definition booted : State := boot 1000 config_A.

(** The instance started once (pid 100). *)
Definition started : State := (start_handler "A" (Spawned 100) Written booted).2.

(** A restart overlapped by a start. Request 0 starts the instance;
    request 1 restarts it: SIGTERM is sent, the callback of kill deletes
    the entry and the settle timer is armed, the old process exits;
    request 2, a start, arrives within the delay and registers pid 200;
    the timer falls due and the restart spawns pid 300. *)
Definition overlap : list Event :=
  [ PostStart "A" (Spawned 100) Written;
    Tick 5;
    PostRestart "A" (Spawned 0);
    RunTask 0 (Spawned 0);
    PtyExit 0 0 (Some 15);
    Tick 10;
    PostStart "A" (Spawned 200) Written;
    Tick 2000;
    RunTask 0 (Spawned 300) ].

(** A restart of the stopped instance, then [n] chunks of output of the
    process it created. *)
Definition restart_then_output (n : nat) : list Event :=
  PostRestart "A" (Spawned 100) :: repeat (PtyData 0 "x") n.

(** A start of the stopped instance, then [n] chunks of output. *)
Definition start_then_output (n : nat) : list Event :=
  PostStart "A" (Spawned 100) Written :: repeat (PtyData 0 "x") n.

(** A restart of the stopped instance; its process exits with code 1;
    the status is asked. *)
Definition restart_then_exit : list Event :=
  [ PostRestart "A" (Spawned 100); Tick 500; PtyExit 0 1 None; GetInstance "A" ].

(** The same with a start in place of the restart. *)
Definition start_then_exit : list Event :=
  [ PostStart "A" (Spawned 100) Written; Tick 500; PtyExit 0 1 None; GetInstance "A" ].

(** A restart of the running instance, turn by turn: the request, the
    callback of kill, the old process exiting, the settle delay, the
    timer. *)
Definition restart_running : list Event :=
  [ Tick 5; PostRestart "A" (Spawned 0); RunTask 0 (Spawned 0);
    PtyExit 0 0 (Some 15); Tick 2000; RunTask 0 (Spawned 300) ].

(** The same with the timer asked to run one millisecond early. *)
Definition restart_too_early : list Event :=
  [ Tick 5; PostRestart "A" (Spawned 0); RunTask 0 (Spawned 0);
    PtyExit 0 0 (Some 15); Tick 1999; RunTask 0 (Spawned 300) ].

(** A file system with a file next to the instance directory, in a
    directory whose name begins with the instance directory's. *)
Definition disk_files : gmap string string :=
  {[ "/srv/ab/x" := "data"; "/srv/a/start.sh" := "#!/bin/bash" ]}.

End Scenario.

(* ===================================================================== *)
(** ** The registry between turns *)
(* ===================================================================== *)

Module Registry.

Import Daemon.

(** What one turn can do to the process objects and to the registry:
    nothing; delete the entry of an identifier; create an object and
    register it; replace the buffer of an object; mark an object as
    exited, deleting the entry of its identifier when it was given an
    exit callback. *)
Inductive registry_change (s s' : State) : Prop :=
| registry_same :
    heap s' = heap s -> activeServers s' = activeServers s -> registry_change s s'
| registry_deleted serverId :
    heap s' = heap s -> activeServers s' = delete serverId (activeServers s) ->
    registry_change s s'
| registry_registered serverId p :
    owner p = serverId -> alive p = true ->
    heap s' = heap s ++ [p] ->
    activeServers s' = <[serverId := length (heap s)]> (activeServers s) ->
    registry_change s s'
| registry_output ref p l :
    heap s !! ref = Some p ->
    heap s' = <[ref := set_logs l p]> (heap s) ->
    activeServers s' = activeServers s ->
    registry_change s s'
| registry_exited ref p :
    heap s !! ref = Some p ->
    heap s' = <[ref := set_alive false p]> (heap s) ->
    activeServers s' = (if onExit p then delete (owner p) (activeServers s)
                        else activeServers s) ->
    registry_change s s'.

(** A registered process that was given an exit callback has not
    exited. *)
Definition start_alive (s : State) : Prop :=
  forall serverId ref p,
    activeServers s !! serverId = Some ref -> heap s !! ref = Some p ->
    onExit p = true -> alive p = true.

(** The first start of the instance, then a restart run to its end
    while the first process is still alive: pid 300 is registered, pid
    100 has not exited. *)
Definition replaced : State :=
  match run Scenario.started
          [ PostRestart "A" (Spawned 0); RunTask 0 (Spawned 0);
            Tick 2000; RunTask 0 (Spawned 300) ] with
  | Some (_, s) => s
  | None => Scenario.started
  end.

End Registry.

(* ===================================================================== *)
(** ** Counting, listening and reading the buffer *)
(* ===================================================================== *)

Module Views.

Import Daemon.

(** *** GET /instances (lines 165-180) and GET /stats (lines 145-161) *)

(** [activeServers.has(id) ? "running" : "stopped"] *)
Definition status_of (s : State) (id : string) : string :=
  if bool_decide (is_Some (activeServers s !! id)) then "running" else "stopped".

(** The [status] that the listing gives for each entry of
    [config.servers], by identifier (the order of the array is not kept
    here). *)
Definition instances (s : State) : gmap string string :=
  map_imap (fun id _ => Some (status_of s id)) (servers s).

(** The [servers] part of the statistics: [total], [running] and
    [stopped], the last being their difference. *)
Record ServerCounts := mkCounts { total : Z; running_count : Z; stopped : Z }.

Definition stats_servers (s : State) : ServerCounts :=
  let total := Z.of_nat (size (servers s)) in
  let running := Z.of_nat (size (activeServers s)) in
  mkCounts total running (total - running).

(** How many entries of the listing carry the status [st]. *)
Definition listed (st : string) (s : State) : Z :=
  Z.of_nat (size (filter (fun kv => kv.2 = st) (instances s))).

(** *** Rooms *)

(** The sockets in a room. *)
Definition members (s : State) (room : string) : gset nat :=
  default ∅ (rooms s !! room).

(** socket.on("detach") (lines 1651-1654): [socket.leave(room)]. *)
Definition detach_server (socket : nat) (serverId : string) (s : State) : State :=
  let room := room_of serverId in
  with_rooms (<[room := members s room ∖ {[socket]}]> (rooms s)) s.

(** What socket.io hands to [socket] out of the effects of a turn taken
    with the rooms of [s]: what was emitted to the socket itself and
    what was emitted to a room it is in. *)
Definition delivered (s : State) (socket : nat) (eff : list Effect) : list Message :=
  omap (fun e => match e with
                 | SocketEmit k m => if bool_decide (k = socket) then Some m else None
                 | RoomEmit room m =>
                     if bool_decide (socket ∈ members s room) then Some m else None
                 | _ => None
                 end) eff.

(** *** GET /instances/:id/logs (lines 1115-1137) *)

(** [l.slice(start)] of JavaScript for a number [start], [None] being
    NaN: a negative start counts from the end, and both ends are
    clamped. *)
Definition js_slice_from {A} (start : option Z) (l : list A) : list A :=
  match start with
  | None => l
  | Some k =>
      let len := Z.of_nat (length l) in
      if k <? 0 then drop (Z.to_nat (Z.max (len + k) 0)) l
      else drop (Z.to_nat (Z.min k len)) l
  end.

(** The body: [{ success: true, logs, count }], [count] being absent
    when no process is registered. *)
Record LogsBody := mkLogsBody { logs_text : string; logs_count : option nat }.

Fixpoint join_chunks (chunks : list string) : string :=
  match chunks with
  | [] => ""
  | c :: rest => c +:+ join_chunks rest
  end.

(** [tail] is the value of [parseInt(tail)], [None] being NaN; the
    query's default is 100. *)
Definition get_logs (tail : option Z) (serverId : string) (s : State) : LogsBody :=
  match running s serverId with
  | None => mkLogsBody "Server is not running. Start it to see logs." None
  | Some serverProcess =>
      let logs := js_slice_from (Z.opp <$> tail) (logs serverProcess) in
      mkLogsBody (join_chunks (map data logs)) (Some (length logs))
  end.

End Views.

(* ===================================================================== *)
(** ** Version listings *)
(* ===================================================================== *)

Module Versions.

(** [s.toLowerCase()] of a string that is all ASCII: the letters A to Z
    are lowered, nothing else changes. On other strings the function
    of JavaScript lowers further letters, which this one leaves. *)
Definition lower (c : ascii) : ascii :=
  let n := nat_of_ascii c in
  if (65 <=? n)%nat && (n <=? 90)%nat then ascii_of_nat (n + 32) else c.

Fixpoint toLowerCase (s : string) : string :=
  match s with
  | EmptyString => EmptyString
  | String c s' => String (lower c) (toLowerCase s')
  end.

(** What a call to a third-party API gives the helper: the list it
    reads out of the answer, or an exception (no network, a status
    outside 2xx, a field that is not there). *)
Inductive Fetch (A : Type) :=
| Fetched (a : A)
| FetchThrows.
Arguments Fetched {A} a.
Arguments FetchThrows {A}.

Definition fallback_versions : list string := ["1.20.4"; "1.20.1"; "1.19.4"; "1.18.2"].

(** [getPaperVersions] (lines 871-880): [response.data.versions.reverse()]. *)
Definition getPaperVersions (api : Fetch (list string)) : list string :=
  match api with
  | Fetched versions => rev versions
  | FetchThrows => fallback_versions
  end.

(** [getPurpurVersions] (lines 882-889); [api] is
    [Object.keys(response.data.versions)]. *)
Definition getPurpurVersions (api : Fetch (list string)) : list string :=
  match api with
  | Fetched keys => rev keys
  | FetchThrows => fallback_versions
  end.

(** [getSpigotVersions] (lines 891-893). *)
Definition getSpigotVersions : list string :=
  ["1.20.4"; "1.20.1"; "1.19.4"; "1.18.2"; "1.17.1"; "1.16.5"].

(** An entry of the manifest of Mojang: [{ id, type, ... }]. *)
Record ManifestEntry := mkEntry { id : string; type : string }.

(** [getVanillaVersions] (lines 895-907): the releases, their ids, the
    first 20. *)
Definition getVanillaVersions (api : Fetch (list ManifestEntry)) : list string :=
  match api with
  | Fetched versions =>
      take 20 (map id (filter (fun v => type v = "release") versions))
  | FetchThrows => fallback_versions
  end.

(** [getVelocityVersions] (lines 909-918). *)
Definition getVelocityVersions (api : Fetch (list string)) : list string :=
  match api with
  | Fetched versions => rev versions
  | FetchThrows => ["3.3.0"; "3.2.0"]
  end.

(** The answers of the four APIs; a request consults the one of its
    type. *)
Record Apis := mkApis {
  paper : Fetch (list string);
  purpur : Fetch (list string);
  vanilla : Fetch (list ManifestEntry);
  velocity : Fetch (list string)
}.

(** [{ success: true, type, versions, default }]; [default] is
    [versions[0]], absent on an empty list. *)
Record VersionsBody := mkVersions {
  v_type : string;
  v_versions : list string;
  v_default : option string
}.

(** The string has ASCII characters only. *)
Fixpoint ascii_only (s : string) : bool :=
  match s with
  | EmptyString => true
  | String c s' => (nat_of_ascii c <? 128)%nat && ascii_only s'
  end.

(** GET /versions/:type (lines 830-868). [lowercase] is
    [String.prototype.toLowerCase], which on strings that are all ASCII
    is [toLowerCase] above. *)
Definition versions_handler (lowercase : string -> string) (type : string)
    (apis : Apis) : VersionsBody :=
  let serverType := lowercase type in
  let versions :=
    if String.eqb serverType "paper" then getPaperVersions (paper apis)
    else if String.eqb serverType "purpur" then getPurpurVersions (purpur apis)
    else if String.eqb serverType "spigot" then getSpigotVersions
    else if String.eqb serverType "vanilla" then getVanillaVersions (vanilla apis)
    else if String.eqb serverType "bungee" then ["latest"]
    else if String.eqb serverType "velocity" then getVelocityVersions (velocity apis)
    else ["1.20.4"; "1.20.1"; "1.19.4"; "1.18.2"; "1.17.1"; "1.16.5"] in
  mkVersions serverType versions (head versions).

(** *** GET /versions/paper/:version/builds (lines 921-941) *)

(** The answer of the API: an exception (from axios, or from reading a
    [builds] that is not there), no body, or the [builds] array. *)
Inductive BuildsApi :=
| BuildsThrows (msg : string)
| BuildsNoData
| BuildsData (builds : list Z).

Inductive BuildsAnswer :=
| BuildsError (status : Z) (error : string)
| BuildsListed (version : string) (builds : list Z) (latest : option Z).

(** [builds: response.data.builds.reverse()] reverses the array where it
    is and gives it back; [latest] is then read at the last index of
    that same array. *)
Definition paper_builds (version : string) (api : BuildsApi) : BuildsAnswer :=
  match api with
  | BuildsThrows msg => BuildsError 500 msg
  | BuildsNoData => BuildsError 404 "Version not found"
  | BuildsData builds =>
      let reversed := rev builds in
      BuildsListed version reversed (last reversed)
  end.

End Versions.

(* ===================================================================== *)
(** ** The configuration of a new instance *)
(* ===================================================================== *)

Module Create.

(** [s.split(sep)] for a separator of one character. *)
Fixpoint split_on (sep : ascii) (s : string) : list string :=
  match s with
  | EmptyString => [EmptyString]
  | String c s' =>
      if Ascii.eqb c sep then EmptyString :: split_on sep s'
      else match split_on sep s' with
           | seg :: rest => String c seg :: rest
           | [] => [String c EmptyString]
           end
  end.

(** The character [c] occurs in [s]. *)
Fixpoint has_char (c : ascii) (s : string) : bool :=
  match s with
  | EmptyString => false
  | String d s' => Ascii.eqb d c || has_char c s'
  end.

(** [s.includes(sub)]. *)
Fixpoint includes (s sub : string) : bool :=
  Str.startsWith s sub ||
  match s with
  | EmptyString => false
  | String _ s' => includes s' sub
  end.

(** A value of the [environment] object: a string or a number. *)
Inductive EnvValue := EnvStr (v : string) | EnvNum (n : Z).

(** [a || b] on strings that may be absent: the first that is there and
    not empty. *)
Definition or_str (a : option string) (b : string) : string :=
  match a with
  | Some s => if String.eqb s "" then b else s
  | None => b
  end.

(** [a || b] on numbers that may be absent (or NaN): the first that is
    there and not zero. *)
Definition or_num (a : option Z) (b : Z) : Z :=
  match a with
  | Some n => if Z.eqb n 0 then b else n
  | None => b
  end.

(** One turn of the [forEach] over [env] (lines 677-680):
    [const [key, value] = envVar.split("="); if (key) environment[key] =
    value || ""]. An assignment to [__proto__] creates no property. *)
Definition add_env (environment : gmap string EnvValue) (envVar : string)
    : gmap string EnvValue :=
  let parts := split_on "="%char envVar in
  let key := default "" (parts !! 0%nat) in
  let value := parts !! 1%nat in
  if String.eqb key "" then environment
  else if String.eqb key "__proto__" then environment
  else <[key := EnvStr (or_str value "")]> environment.

(** Lines 675-681; [env] is [None] when the field is not an array. *)
Definition parse_env (env : option (list string)) : gmap string EnvValue :=
  match env with
  | Some entries => fold_left add_env entries ∅
  | None => ∅
  end.

(** [environment.VERSION] read as a string that may be absent. *)
Definition env_string (environment : gmap string EnvValue) (key : string) : option string :=
  match environment !! key with
  | Some (EnvStr v) => Some v
  | _ => None
  end.

(** The fields of the request body that the handler reads; [memory] and
    [cpu] stand for [parseInt(memory)] and [parseInt(cpu)], [None]
    being NaN; [port] is a number. *)
Record Body := mkBody {
  b_name : option string;
  b_image : option string;
  b_memory : option Z;
  b_cpu : option Z;
  b_port : option Z;
  b_env : option (list string);
  b_serverType : option string;
  b_version : option string;
  b_build : option string
}.

(** [image && image.includes(kind)] *)
Definition image_has (image : option string) (kind : string) : bool :=
  match image with
  | Some i => negb (String.eqb i "") && includes i kind
  | None => false
  end.

(** Lines 685-697. *)
Definition actualServerType (b : Body) : string :=
  or_str (b_serverType b)
    (if image_has (b_image b) "paper" then "paper"
     else if image_has (b_image b) "spigot" then "spigot"
     else if image_has (b_image b) "purpur" then "purpur"
     else if image_has (b_image b) "bungee" then "bungee"
     else if image_has (b_image b) "velocity" then "velocity"
     else "vanilla").

(** The port of a type when the request names none (lines 712-718 and
    727-733). *)
Definition default_port (type : string) : Z :=
  if String.eqb type "bungee" then 25577
  else if String.eqb type "velocity" then 25578
  else 25565.

(** The decimal writing of a number, as a template literal prints it. *)
Definition decimal (n : Z) : string := NilEmpty.string_of_int (Z.to_int n).

(** The [serverConfig] object of lines 708-741, without the text of the
    startup script. *)
Record ServerConfig := mkServerConfig {
  c_id : string;
  c_name : string;
  c_type : string;
  c_port : Z;
  c_memory : Z;
  c_cpu : Z;
  c_environment : gmap string EnvValue;
  c_directory : string;
  c_created : Z;
  c_lastStarted : option Z;
  c_image : string;
  c_version : string;
  c_build : string
}.

(** Lines 657-741: [serverId] is the uuid, [dirname] is [__dirname],
    [now] the clock. *)
Definition build_config (b : Body) (serverId dirname : string) (now : Z) : ServerConfig :=
  let serverDir :=
    Path.normalize (dirname +:+ "/" +:+ "../servers" +:+ "/" +:+ "minecraft"
                              +:+ "/" +:+ serverId) in
  let environment := parse_env (b_env b) in
  let serverVersion := or_str (b_version b) (or_str (env_string environment "VERSION") "1.20.1") in
  let memoryMB := or_num (b_memory b) 1024 in
  let type := actualServerType b in
  let port := or_num (b_port b) (default_port type) in
  mkServerConfig
    serverId
    (or_str (b_name b) (type +:+ "-" +:+ decimal now))
    type
    port
    memoryMB
    (or_num (b_cpu b) 100)
    (<["PORT" := EnvNum port]>
       (<["MEMORY" := EnvNum memoryMB]>
          (<["VERSION" := EnvStr serverVersion]> environment)))
    serverDir
    now
    None
    (or_str (b_image b) "itzg/minecraft-server")
    serverVersion
    (or_str (b_build b) "latest").

End Create.

(* ===================================================================== *)
(** ** configure.js and the load of node.json *)
(* ===================================================================== *)

Module Configure.

Import Daemon.

(** [args.indexOf(x)], [None] being -1. *)
Fixpoint indexOf (args : list string) (x : string) : option nat :=
  match args with
  | [] => None
  | a :: rest => if String.eqb a x then Some 0%nat else S <$> indexOf rest x
  end.

(** [getArg] (configure.js lines 8-11): the argument after the first
    [--name]; [None] stands for [null] (no such flag) and for
    [undefined] (the flag is the last argument). *)
Definition getArg (args : list string) (name : string) : option string :=
  match indexOf args ("--" +:+ name) with
  | Some index => args !! S index
  | None => None
  end.

(** The document [node.json], with the fields the two programs read or
    write; a field that is not in the document is [None]. *)
Record NodeConfig := mkNode {
  nodeId : option string;
  nodeKey : option string;
  panelUrl : option string;
  panelKey : option string;
  nodeName : option string;
  location : option string;
  port : option Z;
  configured : bool;
  configuredAt : option Z;
  servers : option (gmap string ServerConfig)
}.

(** [{}] *)
Definition empty_document : NodeConfig :=
  mkNode None None None None None None None false None None.

(** A string that is there and not empty. *)
Definition truthy (o : option string) : bool :=
  match o with
  | Some s => negb (String.eqb s "")
  | None => false
  end.

Definition hex_digit (n : N) : ascii :=
  match n with
  | 0 => "0" | 1 => "1" | 2 => "2" | 3 => "3" | 4 => "4" | 5 => "5" | 6 => "6"
  | 7 => "7" | 8 => "8" | 9 => "9" | 10 => "a" | 11 => "b" | 12 => "c"
  | 13 => "d" | 14 => "e" | _ => "f"
  end%N%char.

(** [buffer.toString('hex')] *)
Fixpoint toHex (bytes : list Byte.byte) : string :=
  match bytes with
  | [] => EmptyString
  | b :: rest =>
      let n := Byte.to_N b in
      String (hex_digit (n / 16)) (String (hex_digit (n mod 16)) (toHex rest))
  end.

(** How the program ends: [process.exit(1)] after the usage message, or
    the document it writes. *)
Inductive Outcome :=
| Usage
| Saved (document : NodeConfig).

(** configure.js over a [node.json] that holds an object: [args] are the
    arguments, [existing] that object ([None] when there is no file or
    it does not parse), [uuid] and [keyBytes] what [randomUUID()] and
    [randomBytes(32)] give, [now] the clock. A file that holds another
    JSON value is followed in [Documents] below. *)
Definition configure (args : list string) (existing : option NodeConfig)
    (uuid : string) (keyBytes : list Byte.byte) (now : Z) : Outcome :=
  let panelUrl := getArg args "panel" in
  let panelKey := getArg args "key" in
  let nodeName := getArg args "name" in
  let location := getArg args "location" in
  if negb (truthy panelUrl) || negb (truthy panelKey) then Usage
  else
    let config := default empty_document existing in
    Saved (mkNode
             (if truthy (Configure.nodeId config) then Configure.nodeId config
              else Some uuid)
             (if truthy (Configure.nodeKey config) then Configure.nodeKey config
              else Some (toHex keyBytes))
             panelUrl
             panelKey
             (Some (Create.or_str nodeName
                      (Create.or_str (Configure.nodeName config)
                         ("codesandbox-" +:+ Create.decimal now))))
             (Some (Create.or_str location
                      (Create.or_str (Configure.location config) "CodeSandbox")))
             (Some 8080)
             true
             (Some now)
             (Configure.servers config)).

(** The same document written at another instant. *)
Definition written_at (now : Z) (c : NodeConfig) : NodeConfig :=
  mkNode (Configure.nodeId c) (Configure.nodeKey c) (panelUrl c) (panelKey c)
         (nodeName c) (location c) (port c) (configured c) (Some now)
         (Configure.servers c).

(** server.js lines 41-50: [config] after the load of a [node.json]
    that holds an object. The default [{ servers: {}, stats: {} }]
    stays when there is no file or it does not parse; a document that
    parses replaces it whole. *)
Definition load (file : option NodeConfig) : NodeConfig :=
  match file with
  | Some document => document
  | None => mkNode None None None None None None None false None (Some ∅)
  end.

End Configure.

(* ===================================================================== *)
(** ** Reading a file back *)
(* ===================================================================== *)

Module FilesRead.

Import Daemon Files.


(** [s.endsWith(suffix)]: [s] itself, or what is left of it after some
    first characters, is [suffix]. *)
Fixpoint endsWith (s suffix : string) : bool :=
  String.eqb s suffix ||
  match s with
  | EmptyString => false
  | String _ s' => endsWith s' suffix
  end.







End FilesRead.

(* ===================================================================== *)
(** ** What the containment test of the delete endpoint secures *)
(* ===================================================================== *)

Module Confine.

(** A segment of a normalized path: not empty, not a dot segment, and
    without a slash. *)
Definition plain (seg : string) : Prop :=
  seg <> "" /\ seg <> "." /\ seg <> ".." /\ Create.has_char Path.slash seg = false.

End Confine.

(* ===================================================================== *)
(** ** Uptime, commands, the files of a new instance, forced delete *)
(* ===================================================================== *)

Module Status.

Import Daemon.

(** GET /instances/:id/stats (lines 1158-1177). The figures are fixed
    numbers; the uptime is kept in milliseconds ([Date.now() -
    startTime]) and is absent when no process is registered. *)
Record InstanceStats := mkInstanceStats {
  cpu : Z;
  memory : Z;
  disk_usage : Z;
  rx : Z;
  tx : Z;
  uptime_ms : option Z
}.

Definition instance_stats (serverId : string) (s : State) : InstanceStats :=
  match running s serverId with
  | None => mkInstanceStats 0 0 0 0 0 None
  | Some serverProcess =>
      mkInstanceStats 10 512 1024 100 50 (Some (now s - startTime serverProcess))
  end.

End Status.

Module Commands.

Import Daemon.

(** What a handler wrote to a pty: the process object, by reference,
    and the data. *)
Definition PtyWrite : Type := option (nat * string).

Inductive CommandAnswer :=
| CommandSent                                   (* { success: true, output: "Command sent" } *)
| CommandRefused (status : Z) (error : string). (* { error } *)

(** POST /instances/:id/command (lines 1140-1155); [ptyw] tells whether
    [pty.write] throws. *)
Definition post_command (serverId command : string) (ptyw : WriteResult) (s : State)
    : PtyWrite * CommandAnswer :=
  match activeServers s !! serverId with
  | None => (None, CommandRefused 400 "Server not running")
  | Some ref =>
      match ptyw with
      | Written => (Some (ref, command +:+ LF), CommandSent)
      | WriteThrows msg => (None, CommandRefused 500 msg)
      end
  end.

Definition echo_message (command : string) : Message :=
  ConsoleOutput ("> " +:+ command +:+ LF) (Some "command") None.

Definition refused_message : Message :=
  ConsoleOutput ("❌ Server is not running. Start it first." +:+ LF) (Some "error") None.

(** socket.on("console-command") (lines 1629-1649), [pty.write]
    succeeding. *)
Definition console_command (socket : nat) (serverId command : string) (s : State)
    : PtyWrite * list Effect :=
  match activeServers s !! serverId with
  | Some ref =>
      (Some (ref, command +:+ LF), [RoomEmit (room_of serverId) (echo_message command)])
  | None => (None, [SocketEmit socket refused_message])
  end.

End Commands.

Module CreateFiles.

Import Daemon Files.

(** The branches of the [switch (serverType.toLowerCase())] of
    [generateStartupScript] (lines 354-515). *)
Inductive ScriptKind := Paper | Purpur | Spigot | Bungee | Velocity | Vanilla.

Definition script_kind (serverType : string) : ScriptKind :=
  let t := Versions.toLowerCase serverType in
  if String.eqb t "paper" then Paper
  else if String.eqb t "purpur" then Purpur
  else if String.eqb t "spigot" then Spigot
  else if String.eqb t "bungee" then Bungee
  else if String.eqb t "velocity" then Velocity
  else Vanilla.

Definition proxy_script (k : ScriptKind) : bool :=
  match k with
  | Bungee | Velocity => true
  | _ => false
  end.

(** The [filename] of what [generateStartupScript] returns (line 625). *)
Definition script_filename : string := "start.sh".

(** [type !== "bungee" && type !== "velocity"] (line 634). *)
Definition game_server (type : string) : bool :=
  negb (String.eqb type "bungee") && negb (String.eqb type "velocity").

(** The text of [server.properties] (lines 636-646). *)
Definition properties (serverConfig : Create.ServerConfig) : string :=
  "server-port=" +:+ Create.decimal (Create.c_port serverConfig) +:+ LF +:+
  "max-players=20" +:+ LF +:+
  "view-distance=10" +:+ LF +:+
  "online-mode=false" +:+ LF +:+
  "level-name=world" +:+ LF +:+
  "motd=" +:+ Create.c_name serverConfig +:+ LF +:+
  "pvp=true" +:+ LF +:+
  "difficulty=normal" +:+ LF +:+
  "gamemode=survival" +:+ LF +:+
  "enable-command-block=true" +:+ LF.

Definition eula : string := "eula=true" +:+ LF.

(** [createServerConfigFiles] (lines 631-652): the files it writes, in
    order, each with its content. *)
Definition createServerConfigFiles (serverDir : string)
    (serverConfig : Create.ServerConfig) : list (string * string) :=
  (if game_server (Create.c_type serverConfig)
   then [(Path.join serverDir "server.properties", properties serverConfig)]
   else [])
  ++ [(Path.join serverDir "eula.txt", eula)].

(** Lines 747-754 of the create handler: the script, with the [content]
    that [generateStartupScript] returned, the configuration files, and
    the eula once more. *)
Definition create_writes (serverDir content : string)
    (serverConfig : Create.ServerConfig) : list (string * string) :=
  [(Path.join serverDir script_filename, content)]
  ++ createServerConfigFiles serverDir serverConfig
  ++ [(Path.join serverDir "eula.txt", eula)].

(** [fs.writeFileSync] for each, in order. *)
Definition write_files (fs : gmap string string) (writes : list (string * string))
    : gmap string string :=
  foldl (fun fs w => <[w.1 := w.2]> fs) fs writes.

(** The script that the start handler and the restart handler hand to
    bash (lines 781 and 1052). *)
Definition startScript (server : ServerConfig) : string :=
  Path.join (directory server) "start.sh".

End CreateFiles.

Module DeleteForce.

Import Daemon Files.

(** POST /instances/:id/files/delete-force (lines 1497-1558). *)
Definition files_delete_force (cwd : string) (servers : gmap string ServerConfig)
    (serverId filePath : string) (rm : WriteResult)
    (fs : gmap string string) : (Z * Body) * gmap string string :=
  match servers !! serverId with
  | None => ((404, ErrorBody "Server not found"), fs)
  | Some server =>
      let fullPath := Path.join (directory server) filePath in
      let serverDir := Path.resolve cwd (directory server) in
      let requestedPath := Path.resolve cwd fullPath in
      if negb (Str.startsWith requestedPath serverDir) then
        ((403, ErrorBody "Access denied - path traversal attempt"), fs)
      else if negb (existsSync fs fullPath) then
        ((404, ErrorBody "File or directory not found"), fs)
      else
        match rm with
        | WriteThrows msg => ((500, ErrorBody msg), fs)
        | Written =>
            ((200, SuccessOnly),
             filter (fun kv => kv.1 ≠ fullPath ∧ below fullPath kv.1 = false) fs)
        end
  end.

End DeleteForce.

(* ===================================================================== *)
(** ** More concrete runs *)
(* ===================================================================== *)

Module Runs.

Import Daemon.

(** [n] chunks of output of the first process, one millisecond apart,
    the chunk numbered [i] being the decimal writing of [i]. *)
Definition chatter (n : nat) : list Event :=
  flat_map (fun i => [Tick 1; PtyData 0 (Create.decimal (Z.of_nat i))]) (seq 0 n).

(** The records these chunks leave in a buffer that began empty at
    instant 1000. *)
Definition chatter_logs (n : nat) : list LogEntry :=
  map (fun i => mkLog (1001 + Z.of_nat i) (Create.decimal (Z.of_nat i))) (seq 0 n).

(** The instance started, its process having written 60 chunks. *)
Definition chatty : State :=
  match run Scenario.started (chatter 60) with
  | Some (_, s) => s
  | None => Scenario.started
  end.

End Runs.

(* ===================================================================== *)
(** ** The daemon and the lookups in [config.servers] *)
(* ===================================================================== *)

Module Node.

Import Daemon.

(** The names of the properties that a plain object inherits from
    [Object.prototype]. The value of each is truthy (a function; for
    [__proto__] the prototype itself) and has neither a [directory] nor
    an [environment]. *)
Definition Object_prototype : list string :=
  ["constructor"; "__defineGetter__"; "__defineSetter__"; "hasOwnProperty";
   "__lookupGetter__"; "__lookupSetter__"; "isPrototypeOf"; "propertyIsEnumerable";
   "toString"; "valueOf"; "__proto__"; "toLocaleString"].

Definition inherited (name : string) : bool :=
  existsb (String.eqb name) Object_prototype.

(** The daemon together with its [config] object. [has_servers] tells
    whether [config.servers] is there. When it is, it is a plain object
    and [servers daemon] are its own entries; when it is not, [servers
    daemon] is empty. The handlers of [Daemon] are the handlers past a
    lookup that gave an entry of the object's own or nothing. *)
Record Process := mkProcess {
  has_servers : bool;
  daemon : State
}.

(** What [config.servers[serverId]] gives. *)
Inductive Read :=
| ReadThrows                        (* [config.servers] is undefined: a TypeError *)
| ReadUndefined                     (* no such property *)
| ReadOwn (server : ServerConfig)   (* an entry of the object's own *)
| ReadInherited.                    (* a value inherited from [Object.prototype] *)

Definition read (n : Process) (serverId : string) : Read :=
  if has_servers n then
    match servers (daemon n) !! serverId with
    | Some server => ReadOwn server
    | None => if inherited serverId then ReadInherited else ReadUndefined
    end
  else ReadThrows.

(** The daemon as it comes up (lines 41-50): over no document, or one
    that does not parse, [config] is [{ servers: {}, stats: {} }]; a
    document that parses replaces it whole, with its [servers] or
    without. The document holds a JSON object. *)
Definition boot (t0 : Z) (file : option Configure.NodeConfig) : Process :=
  let config := Configure.load file in
  mkProcess (bool_decide (is_Some (Configure.servers config)))
            (Daemon.boot t0 (default ∅ (Configure.servers config))).

(** A request answered in one turn, nothing else changing. *)
Definition answer (status : Z) (body : Body) (n : Process) : list Effect * Process :=
  ([Respond (nextReq (daemon n)) status body],
   mkProcess (has_servers n) (accept (daemon n))).

Definition lift (n : Process) (r : list Effect * State) : list Effect * Process :=
  (r.1, mkProcess (has_servers n) r.2).

(** In the handlers below [thrown] is the message of the TypeError that
    the runtime throws where the handler reads a property of
    [undefined] or hands [undefined] to [path.join]. *)

(** *** POST /instances/:id/start (lines 768-827). With an inherited
    value for [server] the handler passes the test of line 773, and
    [path.join(server.directory, "start.sh")] throws at line 781. *)
Definition start (serverId : string) (sp : SpawnResult) (wr : WriteResult)
    (thrown : string) (n : Process) : list Effect * Process :=
  match read n serverId with
  | ReadThrows => answer 500 (ErrorBody thrown) n
  | ReadInherited =>
      match activeServers (daemon n) !! serverId with
      | Some _ => answer 400 (ErrorBody "Server already running") n
      | None => answer 500 (ErrorBody thrown) n
      end
  | ReadUndefined | ReadOwn _ => lift n (start_handler serverId sp wr (daemon n))
  end.

(** *** POST /instances/:id/restart (lines 1031-1083). The lookup is at
    line 1047, after the waits; [path.join] throws at line 1052. *)
Definition restart (serverId : string) (sp : SpawnResult) (thrown : string)
    (n : Process) : option (list Effect * Process) :=
  match activeServers (daemon n) !! serverId with
  | Some _ => lift n <$> restart_handler serverId sp (daemon n)
  | None =>
      match read n serverId with
      | ReadThrows | ReadInherited => Some (answer 500 (ErrorBody thrown) n)
      | ReadUndefined | ReadOwn _ => lift n <$> restart_handler serverId sp (daemon n)
      end
  end.

(** A waiting callback runs; the settle timer of a restart goes on to
    the lookup of line 1047. *)
Definition run_task (k : nat) (sp : SpawnResult) (thrown : string) (n : Process)
    : option (list Effect * Process) :=
  match tasks (daemon n) !! k with
  | Some (RestartSettled req serverId due) =>
      match read n serverId with
      | ReadThrows | ReadInherited =>
          if due <=? now (daemon n) then
            Some ([Respond req 500 (ErrorBody thrown)],
                  mkProcess (has_servers n)
                    (with_tasks (delete k (tasks (daemon n))) (daemon n)))
          else None
      | ReadUndefined | ReadOwn _ => lift n <$> Daemon.run_task k sp (daemon n)
      end
  | _ => lift n <$> Daemon.run_task k sp (daemon n)
  end.

(** [if (serverProcess) { kill(serverProcess.pid, sig);
    activeServers.delete(serverId); }] *)
Definition kill_entry (sig : Signal) (serverId : string) (s : State)
    : option (list Effect * State) :=
  match activeServers s !! serverId with
  | Some ref =>
      p ← heap s !! ref;
      Some ([TreeKill (pid p) sig], with_active (delete serverId (activeServers s)) s)
  | None => Some ([], s)
  end.

(** *** DELETE /instances/:id (lines 1086-1112). With an inherited value
    for [server], [fs.existsSync(undefined)] is false and nothing is
    removed, [delete config.servers[serverId]] finds no property of the
    object's own, and the handler goes on to [saveConfig()]. *)
Definition delete_instance (serverId : string) (rm wr : WriteResult) (thrown : string)
    (n : Process) : option (list Effect * Process) :=
  match read n serverId with
  | ReadThrows => Some (answer 500 (ErrorBody thrown) n)
  | ReadInherited =>
      let req := nextReq (daemon n) in
      '(killed, s) ← kill_entry SIGKILL serverId (accept (daemon n));
      match wr with
      | WriteThrows msg =>
          Some (killed ++ [Respond req 500 (ErrorBody msg)], mkProcess (has_servers n) s)
      | Written =>
          Some (killed ++ [Respond req 200 SuccessOnly],
                mkProcess (has_servers n) (saveConfig Written s))
      end
  | ReadUndefined | ReadOwn _ => lift n <$> delete_handler serverId rm wr (daemon n)
  end.

(** *** POST /instances/:id/change-version (lines 946-1005). With an
    inherited value for [server] the handler writes [version], [type]
    and [build] onto that value and throws at line 965, where
    [server.environment] is undefined. For [__proto__] the value
    written onto is [Object.prototype] itself, and every object of the
    process inherits the three properties from then on: that turn is
    not followed here. *)
Definition change_version (serverId newVersion : string) (fsr wr : WriteResult)
    (thrown : string) (n : Process) : option (list Effect * Process) :=
  match read n serverId with
  | ReadThrows => Some (answer 500 (ErrorBody thrown) n)
  | ReadInherited =>
      if String.eqb serverId "__proto__" then None
      else
        let req := nextReq (daemon n) in
        '(killed, s) ← kill_entry SIGTERM serverId (accept (daemon n));
        Some (killed ++ [Respond req 500 (ErrorBody thrown)], mkProcess (has_servers n) s)
  | ReadUndefined | ReadOwn _ =>
      lift n <$> change_version_handler serverId newVersion fsr wr (daemon n)
  end.

(** *** GET /instances/:id (lines 182-197). The handler has no [try]:
    the TypeError of the lookup goes to the error handler of Express,
    which answers 500. An inherited value is spread into the answer,
    [status], [pid] and [uptime] being set after it. *)
Definition get_instance (serverId : string) (thrown : string) (n : Process) : Z * Body :=
  match read n serverId with
  | ReadThrows => (500, Unhandled thrown)
  | ReadInherited =>
      match running (daemon n) serverId with
      | Some serverProcess =>
          (200, InstanceBody "running" (Some (pid serverProcess))
                  (now (daemon n) - startTime serverProcess))
      | None => (200, InstanceBody "stopped" None 0)
      end
  | ReadUndefined | ReadOwn _ => Daemon.get_instance serverId (daemon n)
  end.

Definition get_instance_handler (serverId : string) (thrown : string) (n : Process)
    : list Effect * Process :=
  let '(status, body) := get_instance serverId thrown n in
  answer status body n.

(** *** POST /instances/create (lines 655-765). Line 743, [config.servers
    = config.servers || {}], comes after the directory was made. *)
Definition create (serverId : string) (serverConfig : ServerConfig)
    (mk wr fw : WriteResult) (n : Process) : list Effect * Process :=
  let r := create_handler serverId serverConfig mk wr fw (daemon n) in
  (r.1, mkProcess (match mk with
                   | Written => true
                   | WriteThrows _ => has_servers n
                   end) r.2).

(** One turn of the event loop. *)
Definition step (n : Process) (e : Event) (thrown : string)
    : option (list Effect * Process) :=
  match e with
  | PostCreate serverId serverConfig mk wr fw =>
      Some (create serverId serverConfig mk wr fw n)
  | PostStart serverId sp wr => Some (start serverId sp wr thrown n)
  | PostRestart serverId sp => restart serverId sp thrown n
  | PostChangeVersion serverId v fsr wr => change_version serverId v fsr wr thrown n
  | DeleteInstance serverId rm wr => delete_instance serverId rm wr thrown n
  | GetInstance serverId => Some (get_instance_handler serverId thrown n)
  | RunTask k sp => run_task k sp thrown n
  | Tick _ | PostStop _ | PtyData _ _ | PtyExit _ _ _ | JoinServer _ _ | StatsTimer _ =>
      lift n <$> Daemon.step (daemon n) e
  end.

Inductive reachable : Process -> Prop :=
| reachable_boot t0 file : reachable (boot t0 file)
| reachable_step n e thrown eff n' :
    reachable n -> step n e thrown = Some (eff, n') -> reachable n'.

(** What the states of the daemon with its [config] keep: the daemon's
    part is a state of [Daemon], and without [config.servers] there are
    no entries. *)
Definition inv (n : Process) : Prop :=
  Daemon.reachable (daemon n) /\ (has_servers n = false -> servers (daemon n) = ∅).

(** A sequence of turns, with the effects in order. *)
Fixpoint run (n : Process) (es : list Event) (thrown : string)
    : option (list Effect * Process) :=
  match es with
  | [] => Some ([], n)
  | e :: es =>
      '(eff, n1) ← step n e thrown;
      '(eff', n2) ← run n1 es thrown;
      Some (eff ++ eff', n2)
  end.

(** The node that [configure.js] leaves behind where there was no
    document: the daemon loaded over what it wrote. *)
Definition fresh_document : Configure.NodeConfig :=
  Configure.mkNode (Some "3e0c") (Some "0aff") (Some "http://localhost:3000")
    (Some "k1") (Some "codesandbox-5") (Some "CodeSandbox") (Some 8080) true (Some 5)
    None.

Definition fresh : Process := boot 1000 (Some fresh_document).

(** The daemon loaded over a document with the one instance [A]. *)
Definition document_A : Configure.NodeConfig :=
  Configure.mkNode (Some "3e0c") (Some "0aff") (Some "http://localhost:3000")
    (Some "k1") (Some "codesandbox-5") (Some "CodeSandbox") (Some 8080) true (Some 5)
    (Some Scenario.config_A).

Definition configured : Process := boot 1000 (Some document_A).

(** The instance [A] started, five seconds ago. *)
Definition up_five_seconds : Process :=
  match run configured [PostStart "A" (Spawned 100) Written; Tick 5000] "" with
  | Some (_, n) => n
  | None => configured
  end.

End Node.

(* ===================================================================== *)
(** ** node.json, whatever it holds *)
(* ===================================================================== *)

Module Documents.

Import Configure.







End Documents.

(* ===================================================================== *)
(** ** The delete endpoint over files and directories *)
(* ===================================================================== *)

Module Tree.

Import Daemon.

(** The file system with directories of their own: the regular files
    with their content and the directories, each by its normalized
    absolute path, which has no final slash; the root is always a
    directory. *)
Record Fs := mkFs {
  files : gmap string string;
  dirs : gset string
}.

(** [p] without its final slash, if it has one. *)
Fixpoint strip (p : string) : string :=
  match p with
  | EmptyString => EmptyString
  | String c rest =>
      match rest with
      | EmptyString => if Ascii.eqb c Path.slash then EmptyString else p
      | String _ _ => String c (strip rest)
      end
  end.

(** The last character of [p] is a slash. *)
Fixpoint ends_slash (p : string) : bool :=
  match p with
  | EmptyString => false
  | String c rest =>
      match rest with
      | EmptyString => Ascii.eqb c Path.slash
      | String _ _ => ends_slash rest
      end
  end.

(** The entry that a normalized absolute path names: a final slash
    asks for a directory. *)
Definition entry_path (p : string) : string :=
  if String.eqb p "/" then "/" else strip p.

Inductive Entry := IsFile | IsDir | Missing.

Definition stat (fs : Fs) (p : string) : Entry :=
  let q := entry_path p in
  if String.eqb q "/" || bool_decide (q ∈ dirs fs) then IsDir
  else if bool_decide (is_Some (files fs !! q)) then
         if ends_slash p then Missing else IsFile
  else Missing.

(** [k] is the entry [q] or lies below it. *)
Definition under (q k : string) : bool :=
  String.eqb k q || Str.startsWith k (if String.eqb q "/" then "/" else q +:+ "/").

(** [fs.readdirSync(q).length > 0] *)
Definition has_items (fs : Fs) (q : string) : bool :=
  bool_decide (set_Exists (fun k => k <> q /\ under q k = true)
                          (dom (files fs) ∪ dirs fs)).

(** The file system without the entries that [gone] names. *)
Definition without (gone : string -> bool) (fs : Fs) : Fs :=
  mkFs (filter (fun kv => gone kv.1 = false) (files fs))
       (filter (fun k => gone k = false) (dirs fs)).

(** What a removal does: it goes through, or it throws; a recursive
    removal that throws has by then removed [gone] of the tree. *)
Inductive Removal :=
| Removed
| RemovalThrows (msg : string) (gone : string -> bool).

(** POST /instances/:id/files/delete (lines 1428-1494). *)
Definition files_delete (cwd : string) (servers : gmap string ServerConfig)
    (serverId filePath : string) (force : bool) (rm : Removal)
    (fs : Fs) : (Z * Body) * Fs :=
  match servers !! serverId with
  | None => ((404, ErrorBody "Server not found"), fs)
  | Some server =>
      let fullPath := Path.join (directory server) filePath in
      let serverDir := Path.resolve cwd (directory server) in
      let requestedPath := Path.resolve cwd fullPath in
      if negb (Str.startsWith requestedPath serverDir) then
        ((403, ErrorBody "Access denied"), fs)
      else
        let q := entry_path fullPath in
        match stat fs fullPath with
        | Missing => ((404, ErrorBody "File not found"), fs)
        | IsDir =>
            if has_items fs q && negb force then
              ((400, ErrorBody "Directory is not empty"), fs)
            else
              match rm with
              | Removed => ((200, SuccessOnly), without (under q) fs)
              | RemovalThrows msg gone =>
                  ((500, ErrorBody msg), without (fun k => under q k && gone k) fs)
              end
        | IsFile =>
            match rm with
            | Removed => ((200, SuccessOnly), without (String.eqb q) fs)
            | RemovalThrows msg _ => ((500, ErrorBody msg), fs)
            end
        end
  end.

(** The entries that a change of the file system touched. *)
Definition touched (fs fs' : Fs) (k : string) : Prop :=
  files fs !! k <> files fs' !! k \/ ~ (k ∈ dirs fs <-> k ∈ dirs fs').

(** A file system with an empty directory in the instance directory. *)
Definition with_empty_dir : Fs :=
  mkFs {[ "/srv/a/start.sh" := "#!/bin/bash"; "/srv/ab/x" := "data" ]}
       {[ "/srv"; "/srv/a"; "/srv/ab"; "/srv/a/plugins" ]}.

End Tree.

(* ===================================================================== *)
(** ** Facts about string prefixes *)
(* ===================================================================== *)

Section StrFacts.

Import Str.

Lemma append_cons (c : ascii) (a b : string) :
  String c a +:+ b = String c (a +:+ b).
Proof. reflexivity. Qed.

Lemma append_nil (b : string) : "" +:+ b = b.
Proof. reflexivity. Qed.

Lemma startsWith_spec (s p : string) :
  startsWith s p = true <-> is_prefix p s.
Proof.
  unfold startsWith, is_prefix. revert s.
  induction p as [|c p IH]; intros s.
  - split; [intros _; exists s; reflexivity | intros _; destruct s; reflexivity].
  - destruct s as [|d s]; simpl.
    + split; [discriminate | intros [r Hr]; rewrite append_cons in Hr; discriminate].
    + destruct (Ascii.ascii_dec c d) as [->|Hne].
      * rewrite IH. split; intros [r Hr]; exists r; rewrite append_cons in *; congruence.
      * split; [discriminate | intros [r Hr]; rewrite append_cons in Hr; congruence].
Qed.

Lemma string_length_app (a b : string) :
  String.length (a +:+ b) = (String.length a + String.length b)%nat.
Proof.
  induction a as [|c a IH]; [reflexivity|].
  rewrite append_cons. simpl. now rewrite IH.
Qed.

(** Two prefixes of one string: the shorter is a prefix of the longer. *)
Lemma is_prefix_chain (p q s : string) :
  is_prefix p s -> is_prefix q s ->
  (String.length p <= String.length q)%nat -> is_prefix p q.
Proof.
  revert q s. induction p as [|c p IH]; intros q s Hp Hq Hlen.
  - exists q. reflexivity.
  - destruct q as [|d q]; [simpl in Hlen; lia|].
    destruct Hp as [r Hr], Hq as [r' Hr']. subst s.
    rewrite !append_cons in Hr'. injection Hr' as -> Hrest.
    destruct (IH q (p +:+ r)) as [t Ht].
    + exists r; reflexivity.
    + exists r'; assumption.
    + simpl in Hlen; lia.
    + exists t. rewrite append_cons. now rewrite Ht.
Qed.

Lemma is_prefix_same_length (p q : string) :
  is_prefix p q -> String.length p = String.length q -> p = q.
Proof.
  intros [r ->] Hlen. rewrite string_length_app in Hlen.
  destruct r; [| simpl in Hlen; lia].
  clear Hlen. induction p as [|c p IH]; [reflexivity|].
  rewrite append_cons. now rewrite <- IH.
Qed.

End StrFacts.

(* ===================================================================== *)
(** ** The runtime matrix *)
(* ===================================================================== *)

Section JavaFacts.

Import Java.

Lemma longest_prefix_keyb_sound (table : list (string * Z)) (v k : string) (j : Z) :
  longest_prefix_keyb table v k j = true -> longest_prefix_key table v k j.
Proof.
  unfold longest_prefix_keyb, longest_prefix_key.
  rewrite !andb_true_iff. intros [[Hin Hpre] Hall].
  split; [|split].
  - apply existsb_exists in Hin as [[k0 j0] [Hin Heq]]. simpl in Heq.
    apply andb_true_iff in Heq as [Hk Hj].
    apply String.eqb_eq in Hk. apply Z.eqb_eq in Hj. now subst.
  - now apply startsWith_spec.
  - intros k' j' Hin' Hp'. rewrite forallb_forall in Hall.
    specialize (Hall _ Hin'). simpl in Hall.
    apply startsWith_spec in Hp'. rewrite Hp' in Hall. simpl in Hall.
    now apply Nat.leb_le.
Qed.

(** The loop returns the value of the first entry whose key is a
    prefix; on a table in which no key is a proper prefix of a later
    one that entry is the longest match. *)
Lemma for_entries_longest (table : list (string * Z)) (v k : string) (j : Z) :
  prefix_ordered table = true -> functional table = true ->
  longest_prefix_key table v k j -> for_entries table v = j.
Proof.
  induction table as [|[k0 j0] rest IH]; intros Hord Hfun (Hin & Hpre & Hmax).
  - destruct Hin.
  - simpl in Hord, Hfun. apply andb_true_iff in Hord as [Hord0 Hord].
    apply andb_true_iff in Hfun as [Hfun0 Hfun].
    rewrite forallb_forall in Hord0, Hfun0.
    simpl. destruct (Str.startsWith v k0) eqn:Hk0.
    + apply startsWith_spec in Hk0.
      destruct Hin as [Heq | Hin]; [congruence|].
      assert (Hle : (String.length k0 <= String.length k)%nat)
        by (eapply (Hmax k0 j0); [now left | assumption]).
      pose proof (is_prefix_chain _ _ _ Hk0 Hpre Hle) as Hchain.
      specialize (Hord0 _ Hin). specialize (Hfun0 _ Hin). simpl in Hord0, Hfun0.
      apply startsWith_spec in Hchain. rewrite Hchain in Hord0. simpl in Hord0.
      apply negb_true_iff, Nat.ltb_ge in Hord0.
      apply startsWith_spec in Hchain.
      assert (k0 = k) by (apply is_prefix_same_length; [assumption | lia]).
      subst k0. rewrite String.eqb_refl in Hfun0. simpl in Hfun0.
      apply Z.eqb_eq in Hfun0. congruence.
    + destruct Hin as [Heq | Hin].
      * injection Heq as -> ->. apply startsWith_spec in Hpre. congruence.
      * apply IH; [assumption | assumption |].
        split; [assumption | split; [assumption |]].
        intros k' j' Hin' Hp'. apply (Hmax k' j'); [now right | assumption].
Qed.

Lemma for_entries_default (table : list (string * Z)) (v : string) :
  (forall k j, In (k, j) table -> ~ Str.is_prefix k v) -> for_entries table v = 17.
Proof.
  induction table as [|[k0 j0] rest IH]; intros Hnone; simpl; [reflexivity|].
  destruct (Str.startsWith v k0) eqn:Hk0.
  - apply startsWith_spec in Hk0. exfalso. apply (Hnone k0 j0); [now left | assumption].
  - apply IH. intros k j Hin. apply (Hnone k j). now right.
Qed.

(** What [longest_match] computes, for any accumulator. *)
Lemma longest_match_some (table : list (string * Z)) (v : string) kb jb :
  Str.is_prefix kb v ->
  exists k j, longest_match table v (Some (kb, jb)) = Some (k, j) /\
    Str.is_prefix k v /\ (In (k, j) table \/ (k, j) = (kb, jb)) /\
    (String.length kb <= String.length k)%nat /\
    forall k' j', In (k', j') table -> Str.is_prefix k' v ->
                  (String.length k' <= String.length k)%nat.
Proof.
  revert kb jb. induction table as [|[k0 j0] rest IH]; intros kb jb Hb; simpl.
  - exists kb, jb. repeat split; auto. intros ? ? [].
  - destruct (Str.startsWith v k0) eqn:Hk0.
    + destruct (String.length kb <? String.length k0)%nat eqn:Hlt.
      * apply Nat.ltb_lt in Hlt. apply startsWith_spec in Hk0.
        destruct (IH k0 j0 Hk0) as (k & j & Hm & Hp & Hin & Hlen & Hmax).
        exists k, j. repeat split; try assumption.
        -- destruct Hin as [Hin | Heq]; [left; now right | left; left; congruence].
        -- lia.
        -- intros k' j' [Heq | Hin'] Hp'; [injection Heq as <- <-; assumption|].
           now apply (Hmax k' j').
      * apply Nat.ltb_ge in Hlt.
        destruct (IH kb jb Hb) as (k & j & Hm & Hp & Hin & Hlen & Hmax).
        exists k, j. repeat split; try assumption.
        -- destruct Hin as [Hin | Heq]; [left; now right | now right].
        -- intros k' j' [Heq | Hin'] Hp'; [injection Heq as <- <-; lia|].
           now apply (Hmax k' j').
    + destruct (IH kb jb Hb) as (k & j & Hm & Hp & Hin & Hlen & Hmax).
      exists k, j. repeat split; try assumption.
      * destruct Hin as [Hin | Heq]; [left; now right | now right].
      * intros k' j' [Heq | Hin'] Hp'.
        -- injection Heq as <- <-. apply startsWith_spec in Hp'. congruence.
        -- now apply (Hmax k' j').
Qed.

Lemma longest_match_none (table : list (string * Z)) (v : string) :
  match longest_match table v None with
  | Some (k, j) => longest_prefix_key table v k j
  | None => forall k j, In (k, j) table -> ~ Str.is_prefix k v
  end.
Proof.
  induction table as [|[k0 j0] rest IH]; simpl.
  - intros ? ? [].
  - destruct (Str.startsWith v k0) eqn:Hk0.
    + apply startsWith_spec in Hk0.
      destruct (longest_match_some rest v k0 j0 Hk0)
        as (k & j & -> & Hp & Hin & Hlen & Hmax).
      split; [|split; [assumption|]].
      * destruct Hin as [Hin | Heq]; [now right | left; congruence].
      * intros k' j' [Heq | Hin'] Hp'; [injection Heq as <- <-; assumption|].
        now apply (Hmax k' j').
    + destruct (longest_match rest v None) as [[k j]|].
      * destruct IH as (Hin & Hp & Hmax). split; [now right | split; [assumption|]].
        intros k' j' [Heq | Hin'] Hp'.
        -- injection Heq as <- <-. apply startsWith_spec in Hp'. congruence.
        -- now apply (Hmax k' j').
      * intros k j [Heq | Hin].
        -- injection Heq as <- <-. intros Hp. apply startsWith_spec in Hp. congruence.
        -- now apply (IH k j).
Qed.

(** The code's first-match loop and the spec's longest-prefix lookup
    agree on every version string. *)
Lemma getRequiredJavaVersion_refines (v : string) :
  getRequiredJavaVersion v = spec_required_java v.
Proof.
  unfold getRequiredJavaVersion, spec_required_java.
  pose proof (longest_match_none JAVA_VERSION_MAP v) as H.
  destruct (longest_match JAVA_VERSION_MAP v None) as [[k j]|].
  - now apply (for_entries_longest _ v k j).
  - now apply for_entries_default.
Qed.

(** Every version string has a longest matching key or none at all. *)
Lemma longest_prefix_key_total (v : string) :
  (exists k j, longest_prefix_key JAVA_VERSION_MAP v k j) \/
  (forall k j, In (k, j) JAVA_VERSION_MAP -> ~ Str.is_prefix k v).
Proof.
  pose proof (longest_match_none JAVA_VERSION_MAP v) as H.
  destruct (longest_match JAVA_VERSION_MAP v None) as [[k j]|]; eauto.
Qed.

(** C8. For every runtime version string the required Java version is
    the value of the longest key of the runtime matrix that is a prefix
    of the version, and the baseline 17 when no key is a prefix; the
    matrix maps 1.21 and 1.20.5 to 21, 1.20.4, 1.20, 1.19, 1.18 and
    1.17 to 17, 1.16 to 1.13 to 11, and 1.12 to 8. *)
Theorem getRequiredJavaVersion_longest_prefix (v : string) :
  (forall k j, longest_prefix_key JAVA_VERSION_MAP v k j ->
               getRequiredJavaVersion v = j) /\
  ((forall k j, In (k, j) JAVA_VERSION_MAP -> ~ Str.is_prefix k v) ->
   getRequiredJavaVersion v = 17) /\
  (forall k j, In (k, j) JAVA_VERSION_MAP <->
     (j = 21 /\ In k ["1.21"; "1.20.5"]) \/
     (j = 17 /\ In k ["1.20.4"; "1.20"; "1.19"; "1.18"; "1.17"]) \/
     (j = 11 /\ In k ["1.16"; "1.15"; "1.14"; "1.13"]) \/
     (j = 8 /\ k = "1.12")).
Proof.
  split; [|split].
  - intros k j H. now apply (for_entries_longest _ v k j).
  - apply for_entries_default.
  - intros k j. unfold JAVA_VERSION_MAP. simpl. split.
    + intros H. repeat (destruct H as [H | H]; [injection H as <- <-; tauto|]).
      destruct H.
    + intros H.
      repeat match goal with
             | H : _ \/ _ |- _ => destruct H
             | H : _ /\ _ |- _ => destruct H
             | H : False |- _ => destruct H
             end; subst; tauto.
Qed.

Lemma getRequiredJavaVersion_longest_prefix_witness :
  longest_prefix_key JAVA_VERSION_MAP "1.20.5" "1.20.5" 21 /\
  getRequiredJavaVersion "1.20.5" = 21.
Proof.
  assert (H : longest_prefix_key JAVA_VERSION_MAP "1.20.5" "1.20.5" 21)
    by (apply longest_prefix_keyb_sound; vm_compute; reflexivity).
  split; [exact H |].
  exact (proj1 (getRequiredJavaVersion_longest_prefix "1.20.5") "1.20.5" 21 H).
Defined.

End JavaFacts.

(* ===================================================================== *)
(** ** Authentication *)
(* ===================================================================== *)

Section AuthFacts.

Import Auth.

Lemma strict_eq_spec (a : option string) (b : string) :
  strict_eq a b = true <-> a = Some b.
Proof.
  destruct a as [s|]; simpl; [|split; discriminate].
  rewrite String.eqb_eq. split; congruence.
Qed.

Lemma falsy_spec (nodeKey : option string) :
  falsy nodeKey = true <-> nodeKey = None \/ nodeKey = Some "".
Proof.
  destruct nodeKey as [k|]; simpl.
  - rewrite String.eqb_eq. split; [intros ->; now right | intros [H|H]; congruence].
  - split; [now left | reflexivity].
Qed.

(** C9. With the node key absent or empty the middleware admits every
    request whatever its headers; a request is rejected as Unauthorized
    exactly when a non-empty key is configured and neither header
    carries it. *)
Theorem authMiddleware_open_without_key (nodeKey : option string) (req : Headers) :
  (nodeKey = None \/ nodeKey = Some "" -> authMiddleware nodeKey req = Next) /\
  (authMiddleware nodeKey req = Unauthorized <->
   exists key, nodeKey = Some key /\ key <> "" /\ ~ carries_key key req).
Proof.
  unfold authMiddleware, carries_key. split.
  - intros H. apply falsy_spec in H. now rewrite H.
  - destruct (falsy nodeKey) eqn:Hf.
    + split; [discriminate|]. intros (key & -> & Hne & _).
      simpl in Hf. apply String.eqb_eq in Hf. contradiction.
    + destruct nodeKey as [key|]; [|discriminate]. simpl in *.
      apply String.eqb_neq in Hf.
      destruct (strict_eq (authorization req) ("Bearer " +:+ key)) eqn:Ha;
        destruct (strict_eq (x_api_key req) key) eqn:Hx; simpl;
        try (split; [discriminate|]; intros (key' & Hk & _ & Hn); injection Hk as <-;
             exfalso; apply Hn;
             first [ left; now apply strict_eq_spec | right; now apply strict_eq_spec ]).
      split; [|reflexivity]. intros _. exists key. repeat split; try assumption.
      intros [H | H]; apply strict_eq_spec in H; congruence.
Qed.

Lemma authMiddleware_open_without_key_witness :
  authMiddleware None (mkHeaders (Some "Bearer wrong") None) = Next.
Proof.
  apply (proj1 (authMiddleware_open_without_key None (mkHeaders (Some "Bearer wrong") None))).
  left. reflexivity.
Defined.

End AuthFacts.

(* ===================================================================== *)
(** ** The event loop: invariants *)
(* ===================================================================== *)

Section DaemonInvariants.

Import Daemon.

Lemma task_before_S (n : nat) (t : Task) : task_before n t -> task_before (S n) t.
Proof. destruct t; simpl; lia. Qed.

Lemma wf_boot (t0 : Z) (cfg : gmap string ServerConfig) : wf (boot t0 cfg).
Proof.
  split; simpl; try constructor.
  - intros serverId ref H. rewrite lookup_empty in H. discriminate.
  - intros serverId ref H. simpl in H. rewrite lookup_empty in H. discriminate.
Qed.

Lemma wf_accept (s : State) : wf s -> wf (accept s).
Proof.
  intros [H1 H2 H3 H4 H5]. split; simpl; try assumption.
  eapply Forall_impl; [exact H4 | apply task_before_S].
Qed.

Lemma wf_with_now (s : State) (v : Z) : now s <= v -> wf s -> wf (with_now v s).
Proof.
  intros Hle [H1 H2 H3 H4 H5]. split; simpl; try assumption.
  eapply Forall_impl; [exact H3 | simpl; intros; lia].
Qed.

Lemma wf_with_disk (s : State) (d : gmap string ServerConfig) : wf s -> wf (with_disk d s).
Proof. intros [H1 H2 H3 H4 H5]. split; simpl; assumption. Qed.

Lemma wf_with_rooms (s : State) (r : gmap string (gset nat)) : wf s -> wf (with_rooms r s).
Proof. intros [H1 H2 H3 H4 H5]. split; simpl; assumption. Qed.

Lemma wf_saveConfig (wr : WriteResult) (s : State) : wf s -> wf (saveConfig wr s).
Proof. destruct wr; simpl; [apply wf_with_disk | trivial]. Qed.

Lemma wf_with_servers_insert (s : State) (m : gmap string ServerConfig)
    (serverId : string) (c : ServerConfig) :
  m = servers s -> wf s -> wf (with_servers (<[serverId := c]> m) s).
Proof.
  intros -> [H1 H2 H3 H4 H5]. split; simpl; try assumption.
  intros i ref Hi. simpl in Hi. specialize (H2 i ref Hi). simpl.
  destruct (decide (serverId = i)) as [->|Hne].
  - rewrite lookup_insert_eq. eauto.
  - now rewrite lookup_insert_ne.
Qed.

Lemma wf_with_servers_delete (s : State) (m : gmap string ServerConfig)
    (serverId : string) :
  m = servers s -> activeServers s !! serverId = None -> wf s ->
  wf (with_servers (delete serverId m) s).
Proof.
  intros -> Hnone [H1 H2 H3 H4 H5]. split; simpl; try assumption.
  intros i ref Hi. simpl in Hi. specialize (H2 i ref Hi). simpl.
  destruct (decide (serverId = i)) as [->|Hne]; [congruence|].
  now rewrite lookup_delete_ne.
Qed.

Lemma wf_with_active_delete (s : State) (m : gmap string nat) (serverId : string) :
  m = activeServers s -> wf s -> wf (with_active (delete serverId m) s).
Proof.
  intros -> [H1 H2 H3 H4 H5]. split; simpl; try assumption.
  - intros i ref Hi. apply lookup_delete_Some in Hi as [_ Hi]. now apply H1.
  - intros i ref Hi. simpl in Hi. apply lookup_delete_Some in Hi as [_ Hi].
    now apply (H2 i ref).
Qed.

Lemma wf_alloc (s : State) (h : list ServerProcess) (p : ServerProcess) :
  h = heap s -> startTime p <= now s -> capped p -> wf s -> wf (with_heap (h ++ [p]) s).
Proof.
  intros -> Ht Hc [H1 H2 H3 H4 H5]. split; simpl; try assumption.
  - intros i ref Hi. destruct (H1 i ref Hi) as (q & Hq & Ho).
    exists q. split; [|assumption]. now apply lookup_app_l_Some.
  - apply Forall_app. split; [assumption | now constructor].
  - apply Forall_app. split; [assumption | now constructor].
Qed.

Lemma wf_with_active_insert (s : State) (m : gmap string nat) (serverId : string)
    (ref : nat) (p : ServerProcess) :
  m = activeServers s -> heap s !! ref = Some p -> owner p = serverId ->
  is_Some (servers s !! serverId) -> wf s ->
  wf (with_active (<[serverId := ref]> m) s).
Proof.
  intros -> Hp Ho Hc [H1 H2 H3 H4 H5]. split; simpl; try assumption.
  - intros i r Hi. destruct (decide (serverId = i)) as [->|Hne].
    + rewrite lookup_insert_eq in Hi. injection Hi as <-. eauto.
    + rewrite lookup_insert_ne in Hi by assumption. now apply H1.
  - intros i r Hi. simpl in *. destruct (decide (serverId = i)) as [->|Hne].
    + assumption.
    + rewrite lookup_insert_ne in Hi by assumption. now apply (H2 i r).
Qed.

Lemma wf_update (s : State) (h : list ServerProcess) (ref : nat) (p p' : ServerProcess) :
  h = heap s -> heap s !! ref = Some p -> owner p' = owner p ->
  startTime p' = startTime p -> capped p' -> wf s ->
  wf (with_heap (<[ref := p']> h) s).
Proof.
  intros -> Hp Ho Ht Hc [H1 H2 H3 H4 H5]. split; simpl; try assumption.
  - intros i r Hi. destruct (H1 i r Hi) as (q & Hq & Hoq).
    destruct (decide (ref = r)) as [->|Hne].
    + exists p'. split; [|congruence].
      apply list_lookup_insert_eq. now apply lookup_lt_Some in Hq.
    + exists q. split; [|assumption]. now rewrite list_lookup_insert_ne.
  - apply Forall_insert; [assumption|]. rewrite Ht.
    rewrite Forall_lookup in H3. now apply (H3 ref p).
  - now apply Forall_insert.
Qed.

Lemma wf_push_task (s : State) (l : list Task) (t : Task) :
  l = tasks s -> task_before (nextReq s) t -> wf s -> wf (with_tasks (l ++ [t]) s).
Proof.
  intros -> Ht [H1 H2 H3 H4 H5]. split; simpl; try assumption.
  apply Forall_app. split; [assumption | now constructor].
Qed.

Lemma wf_delete_task (s : State) (l : list Task) (n : nat) :
  l = tasks s -> wf s -> wf (with_tasks (delete n l) s).
Proof.
  intros -> [H1 H2 H3 H4 H5]. split; simpl; try assumption.
  now apply Forall_delete.
Qed.

Lemma capped_nil (serverId : string) (p t : Z) (h : DataHandler) (x a : bool) :
  capped (mkProc serverId p t [] h x a).
Proof. intros _. simpl. lia. Qed.

Lemma capped_push (p : ServerProcess) (e : LogEntry) :
  capped p ->
  capped (set_logs (if (1000 <? length (logs p ++ [e]))%nat
                    then tail (logs p ++ [e]) else logs p ++ [e]) p).
Proof.
  intros Hc Hd. simpl in *. specialize (Hc Hd).
  assert (Hlen : length (logs p ++ [e]) = S (length (logs p)))
    by (rewrite length_app; simpl; lia).
  destruct (1000 <? length (logs p ++ [e]))%nat eqn:Hlt.
  - destruct (logs p ++ [e]); simpl in *; lia.
  - apply Nat.ltb_ge in Hlt. assumption.
Qed.

Lemma wf_restart_spawn (req : nat) (serverId : string) (sp : SpawnResult) (s : State) :
  wf s -> wf (restart_spawn req serverId sp s).2.
Proof.
  intros Hwf. unfold restart_spawn.
  destruct (servers s !! serverId) as [server|] eqn:Hs; [|assumption].
  destruct sp as [p|msg]; [|assumption]. simpl.
  eapply wf_with_active_insert; [reflexivity | | | | ].
  - simpl. apply list_lookup_middle. reflexivity.
  - reflexivity.
  - simpl. rewrite Hs. eauto.
  - apply wf_alloc; [reflexivity | simpl; lia | apply capped_nil | assumption].
Qed.

Lemma wf_start_handler (serverId : string) (sp : SpawnResult) (wr : WriteResult)
    (s : State) :
  wf s -> wf (start_handler serverId sp wr s).2.
Proof.
  intros Hwf%wf_accept. unfold start_handler.
  destruct (servers (accept s) !! serverId) as [server|] eqn:Hs; [|assumption].
  destruct (activeServers (accept s) !! serverId) eqn:Ha; [assumption|].
  destruct sp as [p|msg]; [|assumption].
  match goal with
  | |- wf (match wr with Written => (_, saveConfig Written ?x) | WriteThrows _ => _ end).2 =>
      assert (Hx : wf x)
  end.
  { apply wf_with_servers_insert; [reflexivity|].
    eapply wf_with_active_insert; [reflexivity | | | | ].
    - simpl. apply list_lookup_middle. reflexivity.
    - reflexivity.
    - simpl in *. rewrite Hs. eauto.
    - apply wf_alloc; [reflexivity | simpl; lia | apply capped_nil | assumption]. }
  destruct wr; simpl; [apply wf_with_disk|]; exact Hx.
Qed.

Lemma wf_on_data (ref : nat) (chunk : string) (s : State) eff s' :
  wf s -> on_data ref chunk s = Some (eff, s') -> wf s'.
Proof.
  intros Hwf. unfold on_data.
  destruct (heap s !! ref) as [p|] eqn:Hp; [|discriminate].
  destruct (alive p); [|discriminate].
  assert (Hc : capped p).
  { destruct Hwf as [_ _ _ _ H5]. rewrite Forall_lookup in H5. now apply (H5 ref p). }
  destruct (onData p) eqn:Hd; intros [= <- <-].
  - eapply wf_update; [reflexivity | exact Hp | reflexivity | reflexivity | | assumption].
    now apply capped_push.
  - eapply wf_update; [reflexivity | exact Hp | reflexivity | reflexivity | | assumption].
    intros Hd'. simpl in Hd'. congruence.
Qed.

Lemma wf_on_exit (ref : nat) (exitCode : Z) (signal : option Z) (s : State) eff s' :
  wf s -> on_exit ref exitCode signal s = Some (eff, s') -> wf s'.
Proof.
  intros Hwf. unfold on_exit.
  destruct (heap s !! ref) as [p|] eqn:Hp; [|discriminate].
  destruct (alive p); [|discriminate].
  assert (Hc : capped p).
  { destruct Hwf as [_ _ _ _ H5]. rewrite Forall_lookup in H5. now apply (H5 ref p). }
  assert (Hu : wf (with_heap (<[ref := set_alive false p]> (heap s)) s)).
  { eapply wf_update; [reflexivity | exact Hp | reflexivity | reflexivity | | assumption].
    exact Hc. }
  destruct (onExit p); intros [= <- <-]; [|exact Hu].
  apply wf_with_active_delete; [reflexivity | exact Hu].
Qed.

Lemma wf_stop_handler (serverId : string) (s : State) eff s' :
  wf s -> stop_handler serverId s = Some (eff, s') -> wf s'.
Proof.
  intros Hwf%wf_accept. unfold stop_handler.
  destruct (activeServers (accept s) !! serverId) as [ref|]; [|now intros [= <- <-]].
  destruct (heap (accept s) !! ref) as [p|]; simpl; [|discriminate].
  intros [= <- <-]. apply wf_push_task; [reflexivity | exact I | assumption].
Qed.

Lemma wf_restart_handler (serverId : string) (sp : SpawnResult) (s : State) eff s' :
  wf s -> restart_handler serverId sp s = Some (eff, s') -> wf s'.
Proof.
  intros Hwf%wf_accept. unfold restart_handler.
  destruct (activeServers (accept s) !! serverId) as [ref|].
  - destruct (heap (accept s) !! ref) as [p|]; simpl; [|discriminate].
    intros [= <- <-]. apply wf_push_task; [reflexivity | simpl; lia | assumption].
  - intros [= H]. pose proof (wf_restart_spawn (nextReq s) serverId sp _ Hwf) as Hw.
    rewrite H in Hw. exact Hw.
Qed.

Lemma wf_run_task (n : nat) (sp : SpawnResult) (s : State) eff s' :
  wf s -> run_task n sp s = Some (eff, s') -> wf s'.
Proof.
  intros Hwf. unfold run_task.
  destruct (tasks s !! n) as [t|] eqn:Ht; simpl; [|discriminate].
  assert (Hb : task_before (nextReq s) t).
  { destruct Hwf as [_ _ _ H4 _]. rewrite Forall_lookup in H4. now apply (H4 n t). }
  assert (Hd : wf (with_tasks (delete n (tasks s)) s))
    by (apply wf_delete_task; [reflexivity | assumption]).
  destruct t as [serverId | req serverId | req serverId due].
  - intros [= <- <-]. apply wf_with_active_delete; [reflexivity | assumption].
  - intros [= <- <-]. apply wf_push_task; [reflexivity | exact Hb |].
    apply wf_with_active_delete; [reflexivity | assumption].
  - destruct (due <=? now s); [|discriminate]. intros [= H].
    pose proof (wf_restart_spawn req serverId sp _ Hd) as Hw.
    rewrite H in Hw. exact Hw.
Qed.

(** Killing the registered process, if any, and deleting its entry: the
    common opening of the delete and change-version handlers. *)
Lemma wf_kill_registered (sig : Signal) (serverId : string) (s : State) killed s1 :
  wf s ->
  match activeServers s !! serverId with
  | Some ref =>
      p ← heap s !! ref;
      Some ([TreeKill (pid p) sig], with_active (delete serverId (activeServers s)) s)
  | None => Some ([], s)
  end = Some (killed, s1) ->
  wf s1 /\ activeServers s1 !! serverId = None /\ servers s1 = servers s.
Proof.
  intros Hwf. destruct (activeServers s !! serverId) as [ref|] eqn:Ha.
  - destruct (heap s !! ref) as [p|]; simpl; [|discriminate]. intros [= <- <-].
    split; [apply wf_with_active_delete; [reflexivity | assumption]|].
    split; [simpl; apply lookup_delete_eq | reflexivity].
  - intros [= <- <-]. auto.
Qed.

Lemma wf_delete_handler (serverId : string) (rm wr : WriteResult) (s : State) eff s' :
  wf s -> delete_handler serverId rm wr s = Some (eff, s') -> wf s'.
Proof.
  intros Hwf%wf_accept. unfold delete_handler.
  destruct (servers (accept s) !! serverId) as [server|]; [|now intros [= <- <-]].
  match goal with
  | |- context [mbind _ ?m] => destruct m as [[killed s1]|] eqn:Hk; simpl; [|discriminate]
  end.
  destruct (wf_kill_registered _ _ _ _ _ Hwf Hk) as (Hw1 & Hnone & Hsrv).
  destruct rm; [|now intros [= <- <-]].
  assert (Hd : wf (with_servers (delete serverId (servers s1)) s1))
    by (apply wf_with_servers_delete; [reflexivity | assumption | assumption]).
  destruct wr; intros [= <- <-]; [apply wf_with_disk|]; exact Hd.
Qed.

Lemma wf_change_version_handler (serverId v : string) (fsr wr : WriteResult)
    (s : State) eff s' :
  wf s -> change_version_handler serverId v fsr wr s = Some (eff, s') -> wf s'.
Proof.
  intros Hwf%wf_accept. unfold change_version_handler.
  destruct (servers (accept s) !! serverId) as [server|]; [|now intros [= <- <-]].
  match goal with
  | |- context [mbind _ ?m] => destruct m as [[killed s1]|] eqn:Hk; simpl; [|discriminate]
  end.
  destruct (wf_kill_registered _ _ _ _ _ Hwf Hk) as (Hw1 & Hnone & Hsrv).
  assert (Hd : wf (with_servers (<[serverId := set_version v server]> (servers s1)) s1))
    by (apply wf_with_servers_insert; [reflexivity | assumption]).
  destruct fsr; [|now intros [= <- <-]].
  destruct wr; intros [= <- <-]; [apply wf_with_disk|]; exact Hd.
Qed.

Lemma wf_create_handler (serverId : string) (c : ServerConfig) (mk wr fw : WriteResult)
    (s : State) :
  wf s -> wf (create_handler serverId c mk wr fw s).2.
Proof.
  intros Hwf%wf_accept. unfold create_handler.
  destruct mk; [|assumption].
  assert (Hd : wf (with_servers (<[serverId := set_lastStarted None c]>
                                   (servers (accept s))) (accept s)))
    by (apply wf_with_servers_insert; [reflexivity | assumption]).
  destruct wr; [destruct fw|]; simpl; try apply wf_with_disk; exact Hd.
Qed.

Lemma wf_join_server (socket : nat) (serverId : string) (s : State) :
  wf s -> wf (join_server socket serverId s).2.
Proof.
  intros Hwf. unfold join_server.
  match goal with
  | |- context [running ?x serverId] =>
      assert (Hx : wf x) by (apply wf_with_rooms; assumption);
      destruct (running x serverId)
  end; exact Hx.
Qed.

(** Every turn of the event loop keeps the invariants. *)
Lemma wf_step (s : State) (e : Event) eff s' :
  wf s -> step s e = Some (eff, s') -> wf s'.
Proof.
  intros Hwf. destruct e; simpl.
  - intros [= <- <-]. apply wf_with_now; [lia | assumption].
  - intros [= H]. pose proof (wf_create_handler serverId serverConfig mk wr fw s Hwf) as Hw.
    now rewrite H in Hw.
  - intros [= H]. pose proof (wf_start_handler serverId sp wr s Hwf) as Hw.
    now rewrite H in Hw.
  - now apply wf_stop_handler.
  - now apply wf_restart_handler.
  - now apply wf_change_version_handler.
  - now apply wf_delete_handler.
  - unfold get_instance_handler. destruct (get_instance serverId s).
    intros [= <- <-]. now apply wf_accept.
  - now apply wf_run_task.
  - now apply wf_on_data.
  - now apply wf_on_exit.
  - intros [= H]. pose proof (wf_join_server socket serverId s Hwf) as Hw.
    now rewrite H in Hw.
  - destruct wr; [|discriminate]. intros [= <- <-]. now apply (wf_saveConfig Written).
Qed.

Lemma wf_run (es : list Event) (s : State) eff s' :
  wf s -> run s es = Some (eff, s') -> wf s'.
Proof.
  revert s eff. induction es as [|e es IH]; intros s eff Hwf; simpl.
  - now intros [= <- <-].
  - destruct (step s e) as [[eff1 s1]|] eqn:He; simpl; [|discriminate].
    destruct (run s1 es) as [[eff2 s2]|] eqn:Hr; simpl; [|discriminate].
    intros [= <- <-]. eapply IH; [|exact Hr]. eapply wf_step; eassumption.
Qed.

Lemma reachable_wf (s : State) : reachable s -> wf s.
Proof.
  induction 1 as [t0 cfg | s e eff s' _ IH Hstep]; [apply wf_boot|].
  eapply wf_step; eassumption.
Qed.

Lemma reachable_run (es : list Event) (s : State) eff s' :
  reachable s -> run s es = Some (eff, s') -> reachable s'.
Proof.
  revert s eff. induction es as [|e es IH]; intros s eff Hr; simpl.
  - now intros [= <- <-].
  - destruct (step s e) as [[eff1 s1]|] eqn:He; simpl; [|discriminate].
    destruct (run s1 es) as [[eff2 s2]|] eqn:Hrun; simpl; [|discriminate].
    intros [= <- <-]. eapply IH; [|exact Hrun]. econstructor; eassumption.
Qed.

(** Under the invariants a registered identifier leads to its object. *)
Lemma wf_running (s : State) (serverId : string) (ref : nat) :
  wf s -> activeServers s !! serverId = Some ref ->
  exists p, heap s !! ref = Some p /\ running s serverId = Some p /\ owner p = serverId.
Proof.
  intros [H1 _ _ _ _] Ha. destruct (H1 _ _ Ha) as (p & Hp & Ho).
  exists p. unfold running. rewrite Ha. auto.
Qed.

Lemma wf_running_None (s : State) (serverId : string) :
  wf s -> running s serverId = None -> activeServers s !! serverId = None.
Proof.
  intros Hwf Hr. destruct (activeServers s !! serverId) as [ref|] eqn:Ha; [|reflexivity].
  destruct (wf_running _ _ _ Hwf Ha) as (p & _ & Hp & _). congruence.
Qed.

End DaemonInvariants.

(* ===================================================================== *)
(** ** Start *)
(* ===================================================================== *)

Section StartFacts.

Import Daemon.

Lemma same_registry_accept (s : State) : same_registry s (accept s).
Proof. repeat split. Qed.

(** Past a lookup that gave an entry of [config.servers] or nothing, the
    start handler answers "Server already running" whenever a process
    is registered for the identifier and "Server not found" whenever
    the lookup gave nothing, in both cases leaving the heap of process
    objects, the registry and the configuration as they were; a process
    is created or registered only when neither applies, and then, the
    spawn succeeding, the new process is created and registered. *)
Lemma start_handler_guards (s : State) (serverId : string) (sp : SpawnResult)
    (wr : WriteResult) :
  running_configured s ->
  let req := nextReq s in
  let r := start_handler serverId sp wr s in
  (is_Some (activeServers s !! serverId) ->
   r.1 = [Respond req 400 (ErrorBody "Server already running")] /\
   same_registry s r.2) /\
  (servers s !! serverId = None ->
   r.1 = [Respond req 404 (ErrorBody "Server not found")] /\
   same_registry s r.2) /\
  (heap r.2 <> heap s \/ activeServers r.2 <> activeServers s ->
   is_Some (servers s !! serverId) /\ activeServers s !! serverId = None) /\
  (forall p, is_Some (servers s !! serverId) -> activeServers s !! serverId = None ->
             sp = Spawned p ->
   heap r.2 = heap s ++ [mkProc serverId p (now s) [] OnDataStart true true] /\
   activeServers r.2 = <[serverId := length (heap s)]> (activeServers s) /\
   running r.2 serverId = Some (mkProc serverId p (now s) [] OnDataStart true true)).
Proof.
  intros Hconf req r. subst req r. unfold start_handler.
  change (servers (accept s)) with (servers s).
  change (activeServers (accept s)) with (activeServers s).
  destruct (servers s !! serverId) as [server|] eqn:Hs.
  - destruct (activeServers s !! serverId) as [ref|] eqn:Ha.
    + simpl. split; [intros _; split; [reflexivity | apply same_registry_accept]|].
      split; [discriminate|]. split; [intros [Hne|Hne]; congruence|].
      intros p _ Hnone. discriminate.
    + destruct sp as [p|msg].
      * assert (Hreg : forall h (a : gmap string nat) x,
                  h = heap s ++ [x] -> a = <[serverId := length (heap s)]> (activeServers s) ->
                  match a !! serverId with Some ref => h !! ref | None => None end = Some x).
        { intros h a x -> ->. rewrite lookup_insert_eq. apply list_lookup_middle. reflexivity. }
        destruct wr; simpl; (split; [intros [? ?]; discriminate|]);
          (split; [discriminate|]); (split; [eauto|]);
          intros p' _ _ [= <-]; (split; [reflexivity|]); (split; [reflexivity|]);
          unfold running; simpl; now apply Hreg.
      * simpl. split; [intros [? ?]; discriminate|]. split; [discriminate|].
        split; [intros [H|H]; congruence|]. intros p _ _. discriminate.
  - simpl. split.
    + intros [ref Ha]. destruct (Hconf _ _ Ha) as [c Hc]. congruence.
    + split; [intros _; split; [reflexivity | apply same_registry_accept]|].
      split; [intros [H|H]; congruence|]. intros p [c Hc]. discriminate.
Qed.

Lemma start_handler_refuses (s : State) (serverId : string) (sp : SpawnResult)
    (wr : WriteResult) :
  is_Some (servers s !! serverId) -> is_Some (activeServers s !! serverId) ->
  start_handler serverId sp wr s
  = ([Respond (nextReq s) 400 (ErrorBody "Server already running")], accept s).
Proof.
  intros [server Hs] [ref Ha]. unfold start_handler.
  change (servers (accept s)) with (servers s).
  change (activeServers (accept s)) with (activeServers s).
  now rewrite Hs, Ha.
Qed.

Lemma start_handler_registers (s : State) (serverId : string) (p : Z)
    (wr : WriteResult) :
  is_Some (servers s !! serverId) -> activeServers s !! serverId = None ->
  let r := start_handler serverId (Spawned p) wr s in
  is_Some (servers r.2 !! serverId) /\
  activeServers r.2 !! serverId = Some (length (heap s)) /\
  nextReq r.2 = S (nextReq s).
Proof.
  intros [server Hs] Ha. simpl. unfold start_handler.
  change (servers (accept s)) with (servers s).
  change (activeServers (accept s)) with (activeServers s).
  rewrite Hs, Ha. destruct wr; simpl; rewrite !lookup_insert_eq; eauto.
Qed.

(** Two starts of one identifier, one turn after the other: the first
    registers, the second is refused and changes nothing. *)
Lemma start_twice (s : State) (serverId : string) (p p' : Z) (wr wr' : WriteResult) :
  is_Some (servers s !! serverId) -> activeServers s !! serverId = None ->
  let r1 := start_handler serverId (Spawned p) wr s in
  let r2 := start_handler serverId (Spawned p') wr' r1.2 in
  is_Some (activeServers r1.2 !! serverId) /\
  r2.1 = [Respond (S (nextReq s)) 400 (ErrorBody "Server already running")] /\
  same_registry r1.2 r2.2.
Proof.
  intros Hs Ha r1.
  destruct (start_handler_registers s serverId p wr Hs Ha) as (Hs1 & Ha1 & Hn1).
  fold r1 in Hs1, Ha1, Hn1. intros r2. subst r2.
  rewrite start_handler_refuses by eauto. simpl. rewrite Hn1.
  split; [eauto|]. split; [reflexivity | apply same_registry_accept].
Qed.

(** A start that answers success has set the last-started timestamp to
    the current time and written the configuration, timestamp included,
    to disk. *)
Lemma start_success_persists (s : State) (serverId : string) (sp : SpawnResult)
    (wr : WriteResult) (p : Z) :
  let r := start_handler serverId sp wr s in
  In (Respond (nextReq s) 200 (SuccessPid p)) r.1 ->
  (exists server, servers r.2 !! serverId = Some server /\
                  lastStarted server = Some (now s)) /\
  disk r.2 = servers r.2.
Proof.
  simpl. unfold start_handler.
  destruct (servers (accept s) !! serverId) as [server|];
    [|simpl; intros [H|[]]; discriminate].
  destruct (activeServers (accept s) !! serverId);
    [simpl; intros [H|[]]; discriminate|].
  destruct sp; [|simpl; intros [H|[]]; discriminate].
  destruct wr; [|simpl; intros [H|[]]; discriminate].
  simpl. intros _. split; [|reflexivity].
  eexists. rewrite lookup_insert_eq. split; reflexivity.
Qed.

End StartFacts.

(* ===================================================================== *)
(** ** Subscribing to a console *)
(* ===================================================================== *)

Section JoinFacts.

Import Daemon.

Lemma slice_last_suffix {A} (n : nat) (l : list A) : slice_last n l `suffix_of` l.
Proof. unfold slice_last. apply suffix_drop. Qed.

Lemma slice_last_length {A} (n : nat) (l : list A) :
  length (slice_last n l) = Nat.min n (length l).
Proof. unfold slice_last. rewrite length_drop. lia. Qed.

Lemma running_with_rooms (r : gmap string (gset nat)) (s : State) (serverId : string) :
  running (with_rooms r s) serverId = running s serverId.
Proof. reflexivity. Qed.

(** C7. A subscriber that joins an instance with a registered process is
    sent the last records of the buffer, at most 50 of them and all of
    them when there are fewer, in buffer order, each as a
    [console-output] message of type [log] carrying the chunk and the
    time of the record, and then exactly one message of type [system]
    saying the console is connected; a subscriber that joins an instance
    with no registered process is sent only the message of type [system]
    saying the server is not running. *)
Theorem join_server_replay (socket : nat) (serverId : string) (s : State) :
  (forall serverProcess, running s serverId = Some serverProcess ->
   exists recent,
     (join_server socket serverId s).1
     = map (fun log => SocketEmit socket
                         (ConsoleOutput (data log) (Some "log") (Some (time log))))
           recent
         ++ [SocketEmit socket
               (ConsoleOutput
                  ("✅ Connected to server console (Real-time)"
                   +:+ String (ascii_of_nat 10) EmptyString)
                  (Some "system") None)] /\
     recent `suffix_of` logs serverProcess /\
     length recent = Nat.min 50 (length (logs serverProcess))) /\
  (running s serverId = None ->
   (join_server socket serverId s).1
   = [SocketEmit socket
        (ConsoleOutput
           ("⚠️ Server is not running. Start it to see live logs."
            +:+ String (ascii_of_nat 10) EmptyString)
           (Some "system") None)]).
Proof.
  unfold join_server. rewrite running_with_rooms. split.
  - intros p ->. exists (slice_last 50 (logs p)).
    split; [reflexivity|]. split; [apply slice_last_suffix | apply slice_last_length].
  - intros ->. reflexivity.
Qed.

Lemma join_server_replay_witness :
  exists recent,
    (join_server 7 "A" Runs.chatty).1
    = map (fun log => SocketEmit 7
                        (ConsoleOutput (data log) (Some "log") (Some (time log))))
          recent
        ++ [SocketEmit 7
              (ConsoleOutput
                 ("✅ Connected to server console (Real-time)"
                  +:+ String (ascii_of_nat 10) EmptyString)
                 (Some "system") None)] /\
    recent `suffix_of` Runs.chatter_logs 60 /\
    length recent = 50%nat.
Proof.
  assert (Hp : running Runs.chatty "A"
               = Some (mkProc "A" 100 1000 (Runs.chatter_logs 60) OnDataStart true true))
    by (vm_compute; reflexivity).
  destruct (proj1 (join_server_replay 7 "A" Runs.chatty) _ Hp) as (recent & H1 & H2 & H3).
  exists recent. split; [exact H1|]. split; [exact H2|].
  rewrite H3. vm_compute. reflexivity.
Defined.

(** The replayed messages carry the chunk and the time of the record. *)
Lemma replay_fields (log : LogEntry) :
  replay log = ConsoleOutput (data log) (Some "log") (Some (time log)).
Proof. reflexivity. Qed.

End JoinFacts.

(* ===================================================================== *)
(** ** Output and exit of a process *)
(* ===================================================================== *)

Section PtyFacts.

Import Daemon.

Lemma tail_snoc {A} (l : list A) (x : A) : l <> [] -> tail (l ++ [x]) = tail l ++ [x].
Proof. destruct l; [congruence | reflexivity]. Qed.

(** In every reachable state a buffer fed by the start handler's closure
    holds at most 1000 records. *)
Lemma start_buffer_bounded (s : State) (ref : nat) (p : ServerProcess) :
  reachable s -> heap s !! ref = Some p -> onData p = OnDataStart ->
  (length (logs p) <= 1000)%nat.
Proof.
  intros Hr Hp Hd. destruct (reachable_wf s Hr) as [_ _ _ _ H5].
  rewrite Forall_lookup in H5. now apply (H5 ref p).
Qed.

(** A chunk arriving at a full buffer of the start handler's closure
    evicts the oldest record and is appended. *)
Lemma start_buffer_fifo (s : State) (ref : nat) (p : ServerProcess) (chunk : string) :
  heap s !! ref = Some p -> alive p = true -> onData p = OnDataStart ->
  length (logs p) = 1000%nat ->
  exists eff s',
    on_data ref chunk s = Some (eff, s') /\
    heap s' !! ref = Some (set_logs (tail (logs p) ++ [mkLog (now s) chunk]) p).
Proof.
  intros Hp Ha Hd Hlen. unfold on_data. rewrite Hp, Ha, Hd.
  assert (Hfull : (1000 <? length (logs p ++ [mkLog (now s) chunk]))%nat = true).
  { apply Nat.ltb_lt. rewrite length_app. simpl. lia. }
  rewrite Hfull. do 2 eexists. split; [reflexivity|]. simpl.
  rewrite tail_snoc by (intros E; rewrite E in Hlen; discriminate).
  apply list_lookup_insert_eq. now apply lookup_lt_Some in Hp.
Qed.

(** The exit of a process created by the start handler: its entry is
    deleted, one terminal event goes to the room of its instance, and the
    status of the instance, while it is configured, reads stopped. *)
Lemma start_exit_observed (s : State) (ref : nat) (p : ServerProcess)
    (exitCode : Z) (signal : option Z) :
  heap s !! ref = Some p -> alive p = true -> onExit p = true ->
  exists s',
    on_exit ref exitCode signal s
    = Some ([RoomEmit (room_of (owner p)) (ServerStopped exitCode signal)], s') /\
    activeServers s' !! owner p = None /\
    (is_Some (servers s !! owner p) ->
     get_instance (owner p) s' = (200, InstanceBody "stopped" None 0)).
Proof.
  intros Hp Ha Hx. unfold on_exit. rewrite Hp, Ha, Hx.
  eexists. split; [reflexivity|]. simpl.
  split; [apply lookup_delete_eq|].
  intros [server Hs]. unfold get_instance, running. simpl.
  now rewrite Hs, lookup_delete_eq.
Qed.

(** The closure of the restart handler only ever appends. *)
Lemma restart_buffer_grows (s : State) (ref : nat) (p : ServerProcess) (chunk : string) :
  heap s !! ref = Some p -> alive p = true -> onData p = OnDataRestart ->
  exists eff s',
    on_data ref chunk s = Some (eff, s') /\
    heap s' !! ref = Some (set_logs (logs p ++ [mkLog (now s) chunk]) p).
Proof.
  intros Hp Ha Hd. unfold on_data. rewrite Hp, Ha, Hd.
  do 2 eexists. split; [reflexivity|]. simpl.
  apply list_lookup_insert_eq. now apply lookup_lt_Some in Hp.
Qed.

(** The exit of a process to which no exit callback was given: nothing
    is published and the registry is as before. *)
Lemma exit_without_callback (s : State) (ref : nat) (p : ServerProcess)
    (exitCode : Z) (signal : option Z) :
  heap s !! ref = Some p -> alive p = true -> onExit p = false ->
  exists s',
    on_exit ref exitCode signal s = Some ([], s') /\
    activeServers s' = activeServers s /\ servers s' = servers s.
Proof.
  intros Hp Ha Hx. unfold on_exit. rewrite Hp, Ha, Hx.
  eexists. split; [reflexivity|]. split; reflexivity.
Qed.

(** C2, on the code. The closure that the restart handler gives to
    [onData] pushes without ever shifting: after a restart and 1001
    chunks of output the buffer of the registered process holds 1001
    records, while after a start and 1050 chunks it holds 1000. *)
Theorem restart_buffer_unbounded :
  (exists eff s p,
     run Scenario.booted (Scenario.restart_then_output 1001) = Some (eff, s) /\
     running s "A" = Some p /\ length (logs p) = 1001%nat) /\
  (exists eff s p,
     run Scenario.booted (Scenario.start_then_output 1050) = Some (eff, s) /\
     running s "A" = Some p /\ length (logs p) = 1000%nat).
Proof.
  split; do 3 eexists; (split; [vm_compute; reflexivity|]);
    split; vm_compute; reflexivity.
Qed.

(** C3, on the code. The restart handler gives no function to [onExit]:
    when the process it created exits with code 1 no terminal event is
    published, the entry stays, and the status still reads running;
    after a start the same exit publishes one terminal event, deletes
    the entry, and the status reads stopped. *)
Theorem restart_exit_unobserved :
  (exists eff s,
     run Scenario.booted Scenario.restart_then_exit = Some (eff, s) /\
     terminal_events "A" eff = [] /\
     activeServers s !! "A" = Some 0%nat /\
     responses 1 eff = [(200, InstanceBody "running" (Some 100) 500)]) /\
  (exists eff s,
     run Scenario.booted Scenario.start_then_exit = Some (eff, s) /\
     terminal_events "A" eff = [ServerStopped 1 None] /\
     activeServers s !! "A" = None /\
     responses 1 eff = [(200, InstanceBody "stopped" None 0)]).
Proof.
  split; do 2 eexists; (split; [vm_compute; reflexivity|]);
    repeat split; vm_compute; reflexivity.
Qed.

End PtyFacts.

(* ===================================================================== *)
(** ** Restart against start *)
(* ===================================================================== *)

Section RestartDefects.

Import Daemon.

(** C1, on the code. The restart handler registers without looking at
    the registry: when a start arrives during its settle delay, the start
    registers pid 200, the restart is not refused but spawns pid 300 and
    takes the entry over, and two processes of the instance are alive,
    one of them registered nowhere. *)
Theorem restart_overlapping_start :
  exists eff s,
    run Scenario.booted Scenario.overlap = Some (eff, s) /\
    responses 2 eff = [(200, SuccessPid 200)] /\
    responses 1 eff = [(200, SuccessPid 300)] /\
    map pid (live_processes s "A") = [200; 300] /\
    option_map pid (running s "A") = Some 300.
Proof.
  do 2 eexists. split; [vm_compute; reflexivity|].
  repeat split; vm_compute; reflexivity.
Qed.

(** C6, on the code. A restart that answers success leaves the
    last-started timestamp and the file on disk as they were; a start in
    its place sets the timestamp to the current time and writes the
    file. *)
Theorem restart_skips_lastStarted :
  (exists eff s,
     run Scenario.booted [Tick 500; PostRestart "A" (Spawned 100)] = Some (eff, s) /\
     responses 0 eff = [(200, SuccessPid 100)] /\
     lastStarted <$> servers s !! "A" = Some None /\
     disk s = disk Scenario.booted) /\
  (exists eff s,
     run Scenario.booted [Tick 500; PostStart "A" (Spawned 100) Written] = Some (eff, s) /\
     responses 0 eff = [(200, SuccessPid 100)] /\
     lastStarted <$> servers s !! "A" = Some (Some 1500) /\
     disk s = servers s).
Proof.
  split; do 2 eexists; (split; [vm_compute; reflexivity|]);
    repeat split; vm_compute; reflexivity.
Qed.

(** The restart handler's spawn never writes the configuration, in any
    state. *)
Lemma restart_spawn_keeps_config (req : nat) (serverId : string) (sp : SpawnResult)
    (s : State) :
  servers (restart_spawn req serverId sp s).2 = servers s /\
  disk (restart_spawn req serverId sp s).2 = disk s.
Proof.
  unfold restart_spawn. destruct (servers s !! serverId); [|auto].
  destruct sp; auto.
Qed.

End RestartDefects.

(* ===================================================================== *)
(** ** The file endpoints *)
(* ===================================================================== *)

Section FilesFacts.

Import Daemon.

Lemma insideb_spec (dir p : string) : Path.insideb dir p = true <-> Path.inside dir p.
Proof.
  unfold Path.insideb, Path.inside.
  rewrite orb_true_iff, String.eqb_eq, startsWith_spec. reflexivity.
Qed.

(** What lies inside the directory passes the prefix test of the delete
    handler. *)
Lemma inside_startsWith (dir p : string) :
  Path.inside dir p -> Str.startsWith p dir = true.
Proof.
  intros [-> | [r ->]]; apply startsWith_spec.
  - exists "". clear. induction dir as [|c d IH]; [reflexivity|].
    rewrite append_cons. now rewrite <- IH.
  - exists ("/" +:+ r). clear. induction dir as [|c d IH]; [reflexivity|].
    rewrite !append_cons. now rewrite IH.
Qed.

(** The delete handler refuses every path that fails its prefix test. *)
Lemma files_delete_denies (cwd : string) (servers : gmap string ServerConfig)
    (serverId filePath : string) (force : bool) (rm : WriteResult)
    (fs : gmap string string) (server : ServerConfig) :
  servers !! serverId = Some server ->
  Str.startsWith (Path.resolve cwd (Path.join (directory server) filePath))
                 (Path.resolve cwd (directory server)) = false ->
  Files.files_delete cwd servers serverId filePath force rm fs
  = ((403, ErrorBody "Access denied"), fs).
Proof. intros Hs Hp. unfold Files.files_delete. now rewrite Hs, Hp. Qed.

(** The write handler follows [..] out of the instance directory: the
    path below names a file outside [/srv/a], which the handler creates,
    and which the delete handler refuses. *)
Lemma files_write_escapes :
  let filePath := "../../etc/passwd" in
  In ".." (Path.segments filePath) /\
  Path.join "/srv/a" filePath = "/etc/passwd" /\
  ~ Path.inside "/srv/a" "/etc/passwd" /\
  (Files.files_write Scenario.config_A "A" filePath "x" Written Scenario.disk_files).1
  = (200, SuccessOnly) /\
  (Files.files_write Scenario.config_A "A" filePath "x" Written Scenario.disk_files).2
    !! "/etc/passwd" = Some "x" /\
  (Files.files_delete "/app" Scenario.config_A "A" filePath false Written
     Scenario.disk_files).1 = (403, ErrorBody "Access denied").
Proof.
  simpl. split; [now left|]. split; [vm_compute; reflexivity|].
  split; [rewrite <- insideb_spec; vm_compute; discriminate|].
  repeat split; vm_compute; reflexivity.
Qed.

(** C10, on the code. The containment test of the delete handler is a
    test on strings: [../ab/x] resolves to [/srv/ab/x], which is not
    inside [/srv/a] but begins with it; the handler does not answer
    access denied and removes the file. *)
Theorem files_delete_prefix_sibling :
  let serverDir := Path.resolve "/app" "/srv/a" in
  let requestedPath := Path.resolve "/app" (Path.join "/srv/a" "../ab/x") in
  serverDir = "/srv/a" /\ requestedPath = "/srv/ab/x" /\
  ~ Path.inside serverDir requestedPath /\
  Scenario.disk_files !! "/srv/ab/x" = Some "data" /\
  exists fs',
    Files.files_delete "/app" Scenario.config_A "A" "../ab/x" false Written
      Scenario.disk_files = ((200, SuccessOnly), fs') /\
    fs' !! "/srv/ab/x" = None.
Proof.
  simpl. split; [vm_compute; reflexivity|]. split; [vm_compute; reflexivity|].
  split; [rewrite <- insideb_spec; vm_compute; discriminate|].
  split; [vm_compute; reflexivity|].
  eexists. split; vm_compute; reflexivity.
Qed.

End FilesFacts.

(* ===================================================================== *)
(** ** The restart sequence *)
(* ===================================================================== *)

Section RestartFacts.

Import Daemon.

Ltac split_handler :=
  repeat match goal with
         | H : Some _ = Some _ |- _ => injection H as <- <-
         | H : None = Some _ |- _ => discriminate H
         | H : context [mbind _ ?m] |- _ => destruct m eqn:?; simpl in H
         | H : context [match ?x with _ => _ end] |- _ => destruct x eqn:?; simpl in H
         end.

Lemma restart_spawn_frame (req : nat) (serverId : string) (sp : SpawnResult) (s : State) :
  now (restart_spawn req serverId sp s).2 = now s /\
  nextReq (restart_spawn req serverId sp s).2 = nextReq s /\
  tasks (restart_spawn req serverId sp s).2 = tasks s.
Proof.
  unfold restart_spawn. destruct (servers s !! serverId); [|auto]. destruct sp; auto.
Qed.

Lemma step_frame (s : State) (e : Event) eff s' :
  step s e = Some (eff, s') ->
  now s <= now s' /\ (nextReq s <= nextReq s')%nat /\ queue_change s s'.
Proof.
  destruct e; simpl; intros H.
  - injection H as <- <-. simpl. split; [lia|]. split; [lia|]. now apply queue_same.
  - unfold create_handler in H. split_handler; simpl;
      (split; [lia|]); (split; [lia|]); now apply queue_same.
  - unfold start_handler in H. split_handler; simpl;
      (split; [lia|]); (split; [lia|]); now apply queue_same.
  - unfold stop_handler in H. split_handler; simpl;
      (split; [lia|]); (split; [lia|]);
      first [ now apply queue_same | now eapply queue_stop ].
  - unfold restart_handler in H.
    destruct (activeServers (accept s) !! serverId) as [ref|].
    + split_handler; simpl. split; [lia|]. split; [lia|]. now eapply queue_restart.
    + injection H as H.
      destruct (restart_spawn_frame (nextReq s) serverId sp (accept s)) as (H1 & H2 & H3).
      rewrite H in H1, H2, H3. simpl in *.
      split; [lia|]. split; [lia|]. now apply queue_same.
  - unfold change_version_handler in H. split_handler; simpl;
      (split; [lia|]); (split; [lia|]); now apply queue_same.
  - unfold delete_handler in H. split_handler; simpl;
      (split; [lia|]); (split; [lia|]); now apply queue_same.
  - unfold get_instance_handler in H. destruct (get_instance serverId s).
    injection H as <- <-. simpl. split; [lia|]. split; [lia|]. now apply queue_same.
  - unfold run_task in H.
    destruct (tasks s !! n) as [t|] eqn:Ht; simpl in H; [|discriminate].
    destruct t as [serverId | req serverId | req serverId due].
    + injection H as <- <-. simpl. split; [lia|]. split; [lia|].
      eapply queue_ran; [exact Ht | reflexivity].
    + injection H as <- <-. simpl. split; [lia|]. split; [lia|].
      eapply queue_killed; [exact Ht | reflexivity].
    + destruct (due <=? now s); [|discriminate]. injection H as H.
      destruct (restart_spawn_frame req serverId sp (with_tasks (delete n (tasks s)) s))
        as (H1 & H2 & H3).
      rewrite H in H1, H2, H3. simpl in *.
      split; [lia|]. split; [lia|]. eapply queue_ran; [exact Ht | exact H3].
  - unfold on_data in H. split_handler; simpl;
      (split; [lia|]); (split; [lia|]); now apply queue_same.
  - unfold on_exit in H. split_handler; simpl;
      (split; [lia|]); (split; [lia|]); now apply queue_same.
  - unfold join_server in H. split_handler; simpl;
      (split; [lia|]); (split; [lia|]); now apply queue_same.
  - destruct wr; [|discriminate]. injection H as <- <-. simpl.
    split; [lia|]. split; [lia|]. now apply queue_same.
Qed.

(** The clock never runs backwards. *)
Lemma run_now_mono (es : list Event) (s : State) eff s' :
  run s es = Some (eff, s') -> now s <= now s'.
Proof.
  revert s eff. induction es as [|e es IH]; intros s eff; simpl.
  - intros [= <- <-]. lia.
  - destruct (step s e) as [[eff1 s1]|] eqn:He; simpl; [|discriminate].
    destruct (run s1 es) as [[eff2 s2]|] eqn:Hr; simpl; [|discriminate].
    intros [= <- <-]. apply step_frame in He as (H & _). apply IH in Hr. lia.
Qed.

Lemma restart_pending_step (req : nat) (serverId : string) (t : Z)
    (s : State) (e : Event) eff s' :
  restart_pending req serverId t s -> step s e = Some (eff, s') ->
  restart_pending req serverId t s'.
Proof.
  intros (Ht & Hq & Hall) Hstep.
  destruct (step_frame _ _ _ _ Hstep) as (Hnow & Hreq & Hqueue).
  split; [lia|]. split; [lia|].
  destruct Hqueue as [-> | i -> | i -> | n t0 Hn -> | n req' i Hn ->].
  - assumption.
  - apply Forall_app. split; [assumption | now apply Forall_singleton].
  - apply Forall_app. split; [assumption|]. apply Forall_singleton. intros Heq. lia.
  - now apply Forall_delete.
  - apply Forall_app. split; [now apply Forall_delete|]. apply Forall_singleton.
    intros Heq. rewrite Forall_lookup in Hall. specialize (Hall _ _ Hn Heq).
    unfold settle_delay. split; [assumption | lia].
Qed.

Lemma restart_pending_run (req : nat) (serverId : string) (t : Z)
    (es : list Event) (s : State) eff s' :
  restart_pending req serverId t s -> run s es = Some (eff, s') ->
  restart_pending req serverId t s'.
Proof.
  revert s eff. induction es as [|e es IH]; intros s eff Hp; simpl.
  - now intros [= <- <-].
  - destruct (step s e) as [[eff1 s1]|] eqn:He; simpl; [|discriminate].
    destruct (run s1 es) as [[eff2 s2]|] eqn:Hr; simpl; [|discriminate].
    intros [= <- <-]. eapply IH; [|exact Hr]. eapply restart_pending_step; eassumption.
Qed.

(** The spawn of the restart handler on a configured instance. *)
Lemma restart_spawn_registers (req : nat) (serverId : string) (p : Z) (s : State) :
  is_Some (servers s !! serverId) ->
  (restart_spawn req serverId (Spawned p) s).1 = [Respond req 200 (SuccessPid p)] /\
  running (restart_spawn req serverId (Spawned p) s).2 serverId
  = Some (mkProc serverId p (now s) [] OnDataRestart false true).
Proof.
  intros [server Hs]. unfold restart_spawn. rewrite Hs. split; [reflexivity|].
  unfold running. simpl. rewrite lookup_insert_eq. apply list_lookup_middle. reflexivity.
Qed.

Lemma restart_spawn_no_kill (req : nat) (serverId : string) (sp : SpawnResult)
    (s : State) (p : Z) (sig : Signal) :
  ~ In (TreeKill p sig) (restart_spawn req serverId sp s).1.
Proof.
  unfold restart_spawn. destruct (servers s !! serverId); [destruct sp|];
    simpl; intros [H|[]]; discriminate.
Qed.

(** C5. Restart of an instance whose process is registered first sends
    SIGTERM to it and creates nothing; the callback of kill arms the
    settle timer of 2000 ms; only when that timer is due does the handler
    spawn, and the process it registers has a start timestamp strictly
    later than that of the process it replaced. Restart of an instance
    with no process registered sends no signal, queues no callback or
    timer, and spawns and registers in the same turn. *)
Theorem restart_sequence (s : State) (serverId : string) (sp : SpawnResult) :
  wf s ->
  (forall old, running s serverId = Some old ->
               restart_when_running s serverId old sp) /\
  (running s serverId = None -> restart_when_stopped s serverId sp).
Proof.
  intros Hwf. split.
  - intros old Hold. unfold restart_when_running.
    assert (Href : exists ref, activeServers s !! serverId = Some ref /\
                               heap s !! ref = Some old).
    { unfold running in Hold. destruct (activeServers s !! serverId) as [ref|]; [|discriminate].
      eauto. }
    destruct Href as (ref & Ha & Hp).
    exists (with_tasks (tasks s ++ [RestartKilled (nextReq s) serverId]) (accept s)).
    split.
    { simpl. unfold restart_handler.
      change (activeServers (accept s)) with (activeServers s). rewrite Ha.
      change (heap (accept s)) with (heap s). rewrite Hp. reflexivity. }
    do 4 (split; [reflexivity|]).
    assert (Hpend : restart_pending (nextReq s) serverId (startTime old)
                      (with_tasks (tasks s ++ [RestartKilled (nextReq s) serverId])
                                  (accept s))).
    { destruct Hwf as [_ _ H3 H4 _]. split; [|split]; simpl.
      - rewrite Forall_lookup in H3. now apply (H3 ref old).
      - lia.
      - apply Forall_app. split; [|now apply Forall_singleton].
        eapply Forall_impl; [exact H4|]. intros [i | q i | q i due]; simpl; try trivial;
          intros Hlt Heq; lia. }
    intros es eff s2 n sp' Hrun.
    pose proof (restart_pending_run _ _ _ _ _ _ _ Hpend Hrun) as (Ht & Hq & Hall).
    rewrite Forall_lookup in Hall. simpl. unfold run_task. split.
    + intros i Hn. rewrite Hn. simpl.
      pose proof (Hall _ _ Hn eq_refl) as ->. split; [reflexivity|].
      eexists. split; [reflexivity|]. split; reflexivity.
    + intros i due Hn. rewrite Hn. simpl.
      destruct (Hall _ _ Hn eq_refl) as [-> Hdue].
      split; [reflexivity|]. split; [assumption|]. split.
      * intros Hlt. apply Z.leb_gt in Hlt. now rewrite Hlt.
      * intros Hle. pose proof Hle as Hleb. apply Z.leb_le in Hleb. rewrite Hleb.
        destruct (restart_spawn (nextReq s) serverId sp'
                    (with_tasks (delete n (tasks s2)) s2)) as [eff' s3] eqn:Hsp.
        exists eff', s3. split; [reflexivity|].
        intros p -> Hconf.
        destruct (restart_spawn_registers (nextReq s) serverId p
                    (with_tasks (delete n (tasks s2)) s2) Hconf) as [He Hr].
        rewrite Hsp in He, Hr. simpl in He, Hr. split; [assumption|].
        eexists. split; [exact Hr|]. simpl. unfold settle_delay in Hdue.
        repeat split. lia.
  - intros Hnone. unfold restart_when_stopped.
    apply (wf_running_None _ _ Hwf) in Hnone.
    exists (restart_spawn (nextReq s) serverId sp (accept s)).1,
           (restart_spawn (nextReq s) serverId sp (accept s)).2.
    split.
    { simpl. unfold restart_handler.
      change (activeServers (accept s)) with (activeServers s). rewrite Hnone.
      now destruct (restart_spawn (nextReq s) serverId sp (accept s)). }
    split; [intros p sig; apply restart_spawn_no_kill|].
    destruct (restart_spawn_frame (nextReq s) serverId sp (accept s)) as (H1 & H2 & H3).
    split; [exact H3|]. split; [exact H1|].
    intros p -> Hconf.
    destruct (restart_spawn_registers (nextReq s) serverId p (accept s) Hconf) as [He Hr].
    split; [assumption|]. eexists. split; [exact Hr|]. repeat split.
Qed.

Lemma restart_sequence_witness :
  restart_when_running Scenario.started "A"
    (mkProc "A" 100 1000 [] OnDataStart true true) (Spawned 300).
Proof.
  apply (proj1 (restart_sequence Scenario.started "A" (Spawned 300)
                  (wf_start_handler "A" (Spawned 100) Written _
                     (wf_boot 1000 Scenario.config_A)))).
  vm_compute. reflexivity.
Defined.

(** The sequence on a concrete run: SIGTERM to pid 100, the terminal
    event of the old process, then, 2000 ms later, the answer with pid
    300, started at 3005 against 1000; one millisecond earlier the timer
    cannot run. *)
Example restart_running_run :
  (exists s,
     run Scenario.started Scenario.restart_running
     = Some ([TreeKill 100 SIGTERM;
              RoomEmit "server-A" (ServerStopped 0 (Some 15));
              Respond 1 200 (SuccessPid 300)], s) /\
     running s "A" = Some (mkProc "A" 300 3005 [] OnDataRestart false true)) /\
  run Scenario.started Scenario.restart_too_early = None.
Proof.
  split; [eexists; split|]; vm_compute; reflexivity.
Qed.

End RestartFacts.

(* ===================================================================== *)
(** ** The registry between turns: facts *)
(* ===================================================================== *)

Section RegistryFacts.

Import Daemon Registry.

Ltac open_handler H :=
  repeat match type of H with
         | Some _ = Some _ => injection H as <- <-
         | None = Some _ => discriminate H
         | context [mbind _ ?m] => destruct m eqn:?; simpl in H
         | context [match ?x with _ => _ end] => destruct x eqn:?; simpl in H
         end.

Lemma restart_spawn_registry (req : nat) (serverId : string) (sp : SpawnResult)
    (s : State) :
  registry_change s (restart_spawn req serverId sp s).2.
Proof.
  unfold restart_spawn. destruct (servers s !! serverId); [|now apply registry_same].
  destruct sp; [|now apply registry_same].
  eapply registry_registered; [ | | simpl; reflexivity | simpl; reflexivity ]; reflexivity.
Qed.

Lemma kill_registered_registry (sig : Signal) (serverId : string) (s : State) killed s1 :
  match activeServers s !! serverId with
  | Some ref =>
      p ← heap s !! ref;
      Some ([TreeKill (pid p) sig], with_active (delete serverId (activeServers s)) s)
  | None => Some ([], s)
  end = Some (killed, s1) ->
  heap s1 = heap s /\
  (activeServers s1 = activeServers s \/
   activeServers s1 = delete serverId (activeServers s)).
Proof.
  destruct (activeServers s !! serverId) as [ref|].
  - destruct (heap s !! ref); simpl; [|discriminate]. intros [= <- <-]. auto.
  - intros [= <- <-]. auto.
Qed.

(** Every turn changes the registry in one of the five ways. *)
Lemma step_registry (s : State) (e : Event) eff s' :
  step s e = Some (eff, s') -> registry_change s s'.
Proof.
  destruct e; simpl; intros H.
  - injection H as <- <-. now apply registry_same.
  - unfold create_handler in H. open_handler H; now apply registry_same.
  - unfold start_handler in H. open_handler H;
      first [ now apply registry_same
            | eapply registry_registered;
              [ | | simpl; reflexivity | simpl; reflexivity ]; reflexivity ].
  - unfold stop_handler in H. open_handler H; now apply registry_same.
  - unfold restart_handler in H.
    destruct (activeServers (accept s) !! serverId) as [ref|].
    + open_handler H. now apply registry_same.
    + injection H as H.
      pose proof (restart_spawn_registry (nextReq s) serverId sp (accept s)) as Hr.
      rewrite H in Hr. simpl in Hr. destruct Hr;
        [ now apply registry_same | eapply registry_deleted; eassumption
        | eapply registry_registered; eassumption
        | eapply registry_output; eassumption
        | eapply registry_exited; eassumption ].
  - unfold change_version_handler in H.
    destruct (servers (accept s) !! serverId); [|injection H as <- <-; now apply registry_same].
    match type of H with
    | context [mbind _ ?m] => destruct m as [[killed s1]|] eqn:Hk; simpl in H; [|discriminate]
    end.
    apply kill_registered_registry in Hk as [Hh [Ha|Ha]];
      destruct fsr, wr; injection H as <- <-;
      first [ apply registry_same; [exact Hh | exact Ha]
            | eapply registry_deleted; [exact Hh | exact Ha] ].
  - unfold delete_handler in H.
    destruct (servers (accept s) !! serverId); [|injection H as <- <-; now apply registry_same].
    match type of H with
    | context [mbind _ ?m] => destruct m as [[killed s1]|] eqn:Hk; simpl in H; [|discriminate]
    end.
    apply kill_registered_registry in Hk as [Hh [Ha|Ha]];
      destruct rm, wr; injection H as <- <-;
      first [ apply registry_same; [exact Hh | exact Ha]
            | eapply registry_deleted; [exact Hh | exact Ha] ].
  - unfold get_instance_handler in H. destruct (get_instance serverId s).
    injection H as <- <-. now apply registry_same.
  - unfold run_task in H.
    destruct (tasks s !! n) as [t|] eqn:Ht; simpl in H; [|discriminate].
    destruct t as [serverId | req serverId | req serverId due].
    + injection H as <- <-. now eapply registry_deleted.
    + injection H as <- <-. now eapply registry_deleted.
    + destruct (due <=? now s); [|discriminate]. injection H as H.
      pose proof (restart_spawn_registry req serverId sp
                    (with_tasks (delete n (tasks s)) s)) as Hr.
      rewrite H in Hr. simpl in Hr. destruct Hr;
        [ now apply registry_same | eapply registry_deleted; eassumption
        | eapply registry_registered; eassumption
        | eapply registry_output; eassumption
        | eapply registry_exited; eassumption ].
  - unfold on_data in H.
    destruct (heap s !! ref) as [p|] eqn:Hp; [|discriminate].
    destruct (alive p); [|discriminate].
    destruct (onData p); injection H as <- <-;
      eapply registry_output; [exact Hp | reflexivity | reflexivity
                              | exact Hp | reflexivity | reflexivity].
  - unfold on_exit in H.
    destruct (heap s !! ref) as [p|] eqn:Hp; [|discriminate].
    destruct (alive p); [|discriminate].
    destruct (onExit p) eqn:Hx; injection H as <- <-;
      (eapply registry_exited; [exact Hp | reflexivity | rewrite Hx; reflexivity]).
  - unfold join_server in H. open_handler H; now apply registry_same.
  - destruct wr; [|discriminate]. injection H as <- <-. now apply registry_same.
Qed.

Lemma start_alive_change (s s' : State) :
  wf s -> start_alive s -> registry_change s s' -> start_alive s'.
Proof.
  intros Hwf Hal Hch serverId ref p Ha Hp Hx.
  destruct Hch as [Hh Hact | i Hh Hact | i q Ho Hq Hh Hact | r q l Hq Hh Hact
                  | r q Hq Hh Hact]; rewrite Hh in Hp; rewrite Hact in Ha.
  - eauto.
  - apply lookup_delete_Some in Ha as [_ Ha]. eauto.
  - destruct (decide (i = serverId)) as [->|Hne].
    + rewrite lookup_insert_eq in Ha. injection Ha as <-.
      rewrite list_lookup_middle in Hp by reflexivity. congruence.
    + rewrite lookup_insert_ne in Ha by assumption.
      destruct (wf_ref s Hwf _ _ Ha) as (p0 & Hp0 & _).
      rewrite lookup_app_l in Hp by (now apply lookup_lt_Some in Hp0). eauto.
  - destruct (decide (r = ref)) as [->|Hne].
    + rewrite list_lookup_insert_eq in Hp by (now apply lookup_lt_Some in Hq).
      injection Hp as <-. simpl in *. eauto.
    + rewrite list_lookup_insert_ne in Hp by assumption. eauto.
  - destruct (decide (r = ref)) as [->|Hne].
    + rewrite list_lookup_insert_eq in Hp by (now apply lookup_lt_Some in Hq).
      injection Hp as <-. simpl in Hx. rewrite Hx in Ha.
      apply lookup_delete_Some in Ha as [Hne Ha].
      destruct (wf_ref s Hwf _ _ Ha) as (p0 & Hp0 & Ho). congruence.
    + rewrite list_lookup_insert_ne in Hp by assumption.
      destruct (onExit q); [apply lookup_delete_Some in Ha as [_ Ha]|]; eauto.
Qed.

Lemma reachable_started : reachable Scenario.started.
Proof.
  eapply (reachable_step Scenario.booted (PostStart "A" (Spawned 100) Written)).
  - apply reachable_boot.
  - reflexivity.
Qed.

(** X1. In every reachable state each identifier that has a process
    registered is a configured instance. *)
Theorem reachable_running_configured (s : State) :
  reachable s -> running_configured s.
Proof. intros Hr. apply wf_configured. now apply reachable_wf. Qed.

Lemma reachable_running_configured_witness :
  running_configured Scenario.started.
Proof. apply (reachable_running_configured Scenario.started reachable_started). Defined.

(** X2. In every reachable state a registered process that was created
    by the start handler has not exited: for such a process the status
    never reads running after its exit. *)
Theorem reachable_start_alive (s : State) : reachable s -> start_alive s.
Proof.
  induction 1 as [t0 cfg | s e eff s' Hr IH Hstep].
  - intros serverId ref p Ha. simpl in Ha. rewrite lookup_empty in Ha. discriminate.
  - apply (start_alive_change s s'); [now apply reachable_wf | exact IH |].
    eapply step_registry; eassumption.
Qed.

Lemma reachable_start_alive_witness : start_alive Scenario.started.
Proof. apply (reachable_start_alive Scenario.started reachable_started). Defined.

End RegistryFacts.

(* ===================================================================== *)
(** ** Stop, delete and the failures of start *)
(* ===================================================================== *)

Section LifecycleFacts.

Import Daemon Registry.

(** X3. Stop of an identifier with no entry answers "Server not running"
    and changes nothing. Stop of a registered process sends SIGTERM to
    its pid and answers success while the entry is still there: a start
    of the configured instance in the next turn is refused as already
    running. The entry goes in a later turn: when the callback of kill
    runs, or before that, when the process exits and the start handler
    had given it an exit callback, the callback of kill still waiting. *)
Theorem stop_is_asynchronous (s : State) (serverId : string) :
  (activeServers s !! serverId = None ->
   stop_handler serverId s
   = Some ([Respond (nextReq s) 400 (ErrorBody "Server not running")], accept s)) /\
  (forall p, running s serverId = Some p ->
   exists s1,
     stop_handler serverId s
     = Some ([TreeKill (pid p) SIGTERM; Respond (nextReq s) 200 SuccessOnly], s1) /\
     running s1 serverId = Some p /\
     tasks s1 = tasks s ++ [StopKilled serverId] /\
     (forall sp wr, is_Some (servers s !! serverId) ->
        (start_handler serverId sp wr s1).1
        = [Respond (S (nextReq s)) 400 (ErrorBody "Server already running")]) /\
     (forall sp, exists s2,
        run_task (length (tasks s)) sp s1 = Some ([], s2) /\
        activeServers s2 !! serverId = None /\ heap s2 = heap s) /\
     (forall ref exitCode signal,
        activeServers s !! serverId = Some ref -> owner p = serverId ->
        onExit p = true -> alive p = true ->
        exists s2,
          on_exit ref exitCode signal s1
          = Some ([RoomEmit (room_of serverId) (ServerStopped exitCode signal)], s2) /\
          activeServers s2 !! serverId = None /\
          tasks s2 = tasks s ++ [StopKilled serverId])).
Proof.
  split.
  - intros Ha. unfold stop_handler.
    change (activeServers (accept s)) with (activeServers s). now rewrite Ha.
  - intros p Hp. unfold running in Hp.
    destruct (activeServers s !! serverId) as [ref|] eqn:Ha; [|discriminate].
    exists (with_tasks (tasks s ++ [StopKilled serverId]) (accept s)).
    split; [|split; [|split; [|split; [|split]]]].
    + unfold stop_handler.
      change (activeServers (accept s)) with (activeServers s). rewrite Ha.
      change (heap (accept s)) with (heap s). now rewrite Hp.
    + unfold running. simpl. now rewrite Ha.
    + reflexivity.
    + intros sp wr Hs. rewrite start_handler_refuses; [reflexivity | exact Hs |].
      simpl. rewrite Ha. eauto.
    + intros sp. unfold run_task. simpl.
      rewrite list_lookup_middle by reflexivity. simpl.
      eexists. split; [reflexivity|]. split; [apply lookup_delete_eq | reflexivity].
    + intros ref' exitCode signal [= <-] Ho Hexit Halive. unfold on_exit. simpl.
      rewrite Hp, Halive, Hexit, Ho. simpl.
      eexists. split; [reflexivity|]. split; [apply lookup_delete_eq | reflexivity].
Qed.

Lemma stop_is_asynchronous_witness :
  exists s1,
    stop_handler "A" Scenario.started
    = Some ([TreeKill 100 SIGTERM; Respond 1 200 SuccessOnly], s1) /\
    running s1 "A" = Some (mkProc "A" 100 1000 [] OnDataStart true true) /\
    exists s2,
      on_exit 0 0 (Some 15) s1
      = Some ([RoomEmit (room_of "A") (ServerStopped 0 (Some 15))], s2) /\
      activeServers s2 !! "A" = None /\ tasks s2 = [StopKilled "A"].
Proof.
  destruct (proj2 (stop_is_asynchronous Scenario.started "A")
              (mkProc "A" 100 1000 [] OnDataStart true true))
    as (s1 & H1 & H2 & _ & _ & _ & H3).
  - vm_compute. reflexivity.
  - exists s1. split; [assumption|]. split; [assumption|].
    apply (H3 0%nat 0 (Some 15)); vm_compute; reflexivity.
Defined.

(** X5. The callbacks delete by identifier, not by process. When the
    entry of an instance refers to a live process, the exit of another
    process of that instance that was created by the start handler, and
    likewise the callback of an earlier stop, delete that entry: the live
    process stays in the heap, registered nowhere. *)
Theorem callbacks_delete_by_identifier (s : State) (serverId : string)
    (ref2 : nat) (p2 : ServerProcess) :
  activeServers s !! serverId = Some ref2 -> heap s !! ref2 = Some p2 ->
  alive p2 = true ->
  (forall ref1 p1 exitCode signal,
     ref1 <> ref2 -> heap s !! ref1 = Some p1 -> owner p1 = serverId ->
     alive p1 = true -> onExit p1 = true ->
     exists s',
       on_exit ref1 exitCode signal s
       = Some ([RoomEmit (room_of serverId) (ServerStopped exitCode signal)], s') /\
       activeServers s' !! serverId = None /\ heap s' !! ref2 = Some p2) /\
  (forall n sp,
     tasks s !! n = Some (StopKilled serverId) ->
     exists s',
       run_task n sp s = Some ([], s') /\
       activeServers s' !! serverId = None /\ heap s' !! ref2 = Some p2).
Proof.
  intros Ha Hp2 Hal. split.
  - intros ref1 p1 exitCode signal Hne Hp1 Ho Hal1 Hx.
    unfold on_exit. rewrite Hp1, Hal1, Hx, Ho.
    eexists. split; [reflexivity|]. simpl.
    split; [apply lookup_delete_eq|]. now rewrite list_lookup_insert_ne.
  - intros n sp Hn. unfold run_task. rewrite Hn. simpl.
    eexists. split; [reflexivity|]. simpl.
    split; [apply lookup_delete_eq | assumption].
Qed.

Lemma callbacks_delete_by_identifier_witness :
  exists s',
    on_exit 0 0 (Some 15) replaced
    = Some ([RoomEmit (room_of "A") (ServerStopped 0 (Some 15))], s') /\
    activeServers s' !! "A" = None /\
    heap s' !! 1%nat = Some (mkProc "A" 300 3000 [] OnDataRestart false true).
Proof.
  apply (proj1 (callbacks_delete_by_identifier replaced "A" 1
                  (mkProc "A" 300 3000 [] OnDataRestart false true)
                  ltac:(vm_compute; reflexivity) ltac:(vm_compute; reflexivity) eq_refl)
           0%nat (mkProc "A" 100 1000 [] OnDataStart true true) 0 (Some 15));
    first [ discriminate | vm_compute; reflexivity ].
Defined.

(** X6. The two ways a start of a configured, unregistered instance can
    fail. When the spawn throws, the answer is the error and nothing has
    changed. When the spawn succeeds and saving the configuration
    throws, the answer is the error too, yet the process is registered
    and running, the last-started timestamp is set in memory and not on
    disk, and the next start is refused as already running. *)
Theorem start_failure_modes (s : State) (serverId : string) (server : ServerConfig) :
  servers s !! serverId = Some server -> activeServers s !! serverId = None ->
  (forall msg wr,
     start_handler serverId (SpawnThrows msg) wr s
     = ([Respond (nextReq s) 500 (ErrorBody msg)], accept s)) /\
  (forall p msg,
     let r := start_handler serverId (Spawned p) (WriteThrows msg) s in
     r.1 = [Respond (nextReq s) 500 (ErrorBody msg)] /\
     running r.2 serverId = Some (mkProc serverId p (now s) [] OnDataStart true true) /\
     servers r.2 !! serverId = Some (set_lastStarted (Some (now s)) server) /\
     disk r.2 = disk s /\
     forall sp wr,
       (start_handler serverId sp wr r.2).1
       = [Respond (S (nextReq s)) 400 (ErrorBody "Server already running")]).
Proof.
  intros Hs Ha. split.
  - intros msg wr. unfold start_handler.
    change (servers (accept s)) with (servers s).
    change (activeServers (accept s)) with (activeServers s).
    now rewrite Hs, Ha.
  - intros p msg r.
    assert (Hr : r = ([Respond (nextReq s) 500 (ErrorBody msg)],
                      with_servers
                        (<[serverId := set_lastStarted (Some (now s)) server]> (servers s))
                        (with_active (<[serverId := length (heap s)]> (activeServers s))
                           (with_heap
                              (heap s ++ [mkProc serverId p (now s) [] OnDataStart true true])
                              (accept s))))).
    { subst r. unfold start_handler.
      change (servers (accept s)) with (servers s).
      change (activeServers (accept s)) with (activeServers s).
      now rewrite Hs, Ha. }
    rewrite Hr. simpl. split; [reflexivity|]. split; [|split; [|split]].
    + unfold running. simpl. rewrite lookup_insert_eq.
      apply list_lookup_middle. reflexivity.
    + apply lookup_insert_eq.
    + reflexivity.
    + intros sp wr. rewrite start_handler_refuses; [reflexivity | |];
        simpl; rewrite lookup_insert_eq; eauto.
Qed.

Lemma start_failure_modes_witness :
  start_handler "A" (SpawnThrows "spawn failed") Written Scenario.booted
  = ([Respond 0 500 (ErrorBody "spawn failed")], accept Scenario.booted).
Proof.
  apply (proj1 (start_failure_modes Scenario.booted "A"
                  (mkConfig "survival" "/srv/a" "1.20.1" None)
                  ltac:(vm_compute; reflexivity) ltac:(vm_compute; reflexivity))).
Defined.

End LifecycleFacts.

(* ===================================================================== *)
(** ** Counting, listening and reading the buffer: facts *)
(* ===================================================================== *)

Section ViewsFacts.

Import Daemon Views.

Lemma instances_lookup (s : State) (id : string) :
  instances s !! id = (fun _ => status_of s id) <$> servers s !! id.
Proof.
  unfold instances. rewrite map_lookup_imap.
  destruct (servers s !! id); reflexivity.
Qed.

Lemma status_of_running (s : State) (id : string) :
  status_of s id = "running" <-> is_Some (activeServers s !! id).
Proof.
  unfold status_of. case_bool_decide; split; intros; try done.
Qed.

Lemma status_of_stopped (s : State) (id : string) :
  status_of s id = "stopped" <-> activeServers s !! id = None.
Proof.
  unfold status_of. case_bool_decide as H; split; intros H'; try done.
  - rewrite H' in H. now destruct H.
  - now apply eq_None_not_Some.
Qed.

Lemma listed_running_dom (s : State) :
  running_configured s ->
  dom (filter (fun kv => kv.2 = "running") (instances s)) = dom (activeServers s).
Proof.
  intros Hconf. apply set_eq. intros id.
  rewrite !elem_of_dom. split.
  - intros [st Hst]. apply map_lookup_filter_Some in Hst as [Hl Hst]. simpl in Hst.
    rewrite instances_lookup in Hl.
    destruct (servers s !! id); simpl in Hl; [|discriminate].
    injection Hl as Hl. subst st. now apply status_of_running.
  - intros [ref Ha]. destruct (Hconf _ _ Ha) as [c Hc].
    exists "running". apply map_lookup_filter_Some. split; [|reflexivity].
    rewrite instances_lookup, Hc. simpl. f_equal.
    apply status_of_running. eauto.
Qed.

Lemma listed_stopped_dom (s : State) :
  dom (filter (fun kv => kv.2 = "stopped") (instances s))
  = dom (servers s) ∖ dom (activeServers s).
Proof.
  apply set_eq. intros id.
  rewrite elem_of_difference, !elem_of_dom. split.
  - intros [st Hst]. apply map_lookup_filter_Some in Hst as [Hl Hst]. simpl in Hst.
    rewrite instances_lookup in Hl.
    destruct (servers s !! id) eqn:Hs; simpl in Hl; [|discriminate].
    injection Hl as Hl. subst st. apply status_of_stopped in Hst.
    split; [eauto|]. rewrite Hst. now intros [? ?].
  - intros [[c Hc] Hn]. apply eq_None_not_Some in Hn.
    exists "stopped". apply map_lookup_filter_Some. split; [|reflexivity].
    rewrite instances_lookup, Hc. simpl. f_equal. now apply status_of_stopped.
Qed.

(** X7. In every reachable state the counts of the statistics agree
    with the listing: [running] is the number of instances listed as
    running, [stopped] the number listed as stopped, and neither is
    negative. *)
Theorem stats_agree_with_listing (s : State) :
  reachable s ->
  running_count (stats_servers s) = listed "running" s /\
  stopped (stats_servers s) = listed "stopped" s /\
  0 <= stopped (stats_servers s) /\
  total (stats_servers s) = listed "running" s + listed "stopped" s.
Proof.
  intros Hr. assert (Hconf : running_configured s)
    by (apply wf_configured; now apply reachable_wf).
  assert (Hsub : dom (activeServers s) ⊆ dom (servers s)).
  { intros id. rewrite !elem_of_dom. intros [ref Ha]. exact (Hconf _ _ Ha). }
  assert (H1 : listed "running" s = Z.of_nat (size (activeServers s))).
  { unfold listed. rewrite <- size_dom, listed_running_dom by assumption.
    now rewrite size_dom. }
  assert (H2 : listed "stopped" s
               = Z.of_nat (size (servers s)) - Z.of_nat (size (activeServers s))).
  { unfold listed. rewrite <- size_dom, listed_stopped_dom.
    rewrite size_difference by assumption. rewrite !size_dom.
    apply subseteq_size in Hsub. rewrite !size_dom in Hsub. lia. }
  unfold stats_servers. simpl. rewrite H1, H2.
  apply subseteq_size in Hsub. rewrite !size_dom in Hsub. lia.
Qed.

Lemma stats_agree_with_listing_witness :
  stopped (stats_servers Scenario.started) = listed "stopped" Scenario.started.
Proof.
  exact (proj1 (proj2 (stats_agree_with_listing Scenario.started reachable_started))).
Defined.

Lemma room_of_inj (a b : string) : room_of a = room_of b -> a = b.
Proof. unfold room_of. intros H. now simplify_eq. Qed.

Lemma members_join (socket k : nat) (serverId : string) (s : State) (room : string) :
  k ∈ members (join_server socket serverId s).2 room <->
  k ∈ members s room \/ (room = room_of serverId /\ k = socket).
Proof.
  assert (Hrooms : rooms (join_server socket serverId s).2
                   = <[room_of serverId := {[socket]} ∪ default ∅ (rooms s !! room_of serverId)]>
                       (rooms s)).
  { unfold join_server. now destruct (running _ serverId). }
  unfold members. rewrite Hrooms.
  destruct (decide (room_of serverId = room)) as [<-|Hne].
  - rewrite lookup_insert_eq. simpl. rewrite elem_of_union, elem_of_singleton.
    unfold members. intuition congruence.
  - rewrite lookup_insert_ne by assumption. split; [auto|].
    intros [H|[H _]]; [assumption | congruence].
Qed.

Lemma members_detach (socket k : nat) (serverId : string) (s : State) (room : string) :
  k ∈ members (detach_server socket serverId s) room <->
  k ∈ members s room /\ ~ (room = room_of serverId /\ k = socket).
Proof.
  unfold detach_server, members at 1. simpl.
  destruct (decide (room_of serverId = room)) as [<-|Hne].
  - rewrite lookup_insert_eq. simpl. rewrite elem_of_difference, elem_of_singleton.
    unfold members. intuition congruence.
  - rewrite lookup_insert_ne by assumption. fold (members s room). split.
    + intros H. split; [assumption|]. intros [E _]. congruence.
    + now intros [H _].
Qed.

Lemma on_data_effects (ref : nat) (chunk : string) (s : State) (p : ServerProcess)
    eff s' :
  heap s !! ref = Some p -> on_data ref chunk s = Some (eff, s') ->
  exists type, eff = [RoomEmit (room_of (owner p))
                        (ConsoleOutput chunk type (Some (now s)))] /\
               rooms s' = rooms s.
Proof.
  intros Hp. unfold on_data. rewrite Hp.
  destruct (alive p); [|discriminate].
  destruct (onData p); intros [= <- <-]; eexists; split; reflexivity.
Qed.

(** X8. Output goes to the subscribers of its instance and to nobody
    else. A chunk from a process of an instance is delivered, once, to
    every socket in the room of that instance and to no other socket; a
    socket is in that room after [join-server] for the instance, is not
    after [detach], and joining or leaving the room of another instance
    changes nothing about it. *)
Theorem output_reaches_subscribers (s : State) (ref : nat) (p : ServerProcess)
    (chunk : string) eff s' :
  heap s !! ref = Some p -> on_data ref chunk s = Some (eff, s') ->
  (forall socket,
     (socket ∈ members s (room_of (owner p)) ->
      exists type, delivered s socket eff
                   = [ConsoleOutput chunk type (Some (now s))]) /\
     (socket ∉ members s (room_of (owner p)) -> delivered s socket eff = [])) /\
  (forall socket,
     socket ∈ members (join_server socket (owner p) s).2 (room_of (owner p)) /\
     socket ∉ members (detach_server socket (owner p) s) (room_of (owner p))) /\
  (forall socket other,
     other <> owner p ->
     (socket ∈ members (join_server socket other s).2 (room_of (owner p)) <->
      socket ∈ members s (room_of (owner p))) /\
     (socket ∈ members (detach_server socket other s) (room_of (owner p)) <->
      socket ∈ members s (room_of (owner p)))).
Proof.
  intros Hp Hd. destruct (on_data_effects _ _ _ _ _ _ Hp Hd) as (type & -> & _).
  split; [|split].
  - intros socket. split.
    + intros Hin. exists type. unfold delivered. simpl.
      now rewrite bool_decide_eq_true_2.
    + intros Hout. unfold delivered. simpl. now rewrite bool_decide_eq_false_2.
  - intros socket. split.
    + apply members_join. auto.
    + rewrite members_detach. intros [_ H]. apply H. auto.
  - intros socket other Hne. split.
    + rewrite members_join. split; [|auto].
      intros [H|[H _]]; [assumption|]. apply room_of_inj in H. congruence.
    + rewrite members_detach. split; [now intros [H _]|].
      intros H. split; [assumption|]. intros [E _]. apply room_of_inj in E. congruence.
Qed.

Lemma output_reaches_subscribers_witness :
  exists eff s',
    on_data 0 "Done!" (join_server 7 "A" Scenario.started).2 = Some (eff, s') /\
    delivered (join_server 7 "A" Scenario.started).2 7 eff
    = [ConsoleOutput "Done!" (Some "log") (Some 1000)] /\
    delivered (join_server 7 "A" Scenario.started).2 8 eff = [].
Proof.
  destruct (on_data 0 "Done!" (join_server 7 "A" Scenario.started).2)
    as [[eff s']|] eqn:Hd; [|vm_compute in Hd; discriminate].
  exists eff, s'. split; [reflexivity|].
  pose proof (output_reaches_subscribers (join_server 7 "A" Scenario.started).2 0
                (mkProc "A" 100 1000 [] OnDataStart true true) "Done!" eff s'
                ltac:(vm_compute; reflexivity) Hd) as [H _].
  vm_compute in Hd. injection Hd as <- <-. split; vm_compute; reflexivity.
Defined.

Lemma js_slice_last {A} (n : nat) (l : list A) :
  (0 < n)%nat -> js_slice_from (Some (- Z.of_nat n)) l = slice_last n l.
Proof.
  intros Hn. unfold js_slice_from, slice_last.
  assert (H : (- Z.of_nat n <? 0) = true) by (apply Z.ltb_lt; lia).
  rewrite H. f_equal. lia.
Qed.

Lemma js_slice_zero {A} (l : list A) : js_slice_from (Some 0) l = l.
Proof.
  unfold js_slice_from. simpl.
  rewrite Z.min_l by lia. reflexivity.
Qed.

Lemma js_slice_suffix {A} (start : option Z) (l : list A) :
  js_slice_from start l `suffix_of` l.
Proof.
  unfold js_slice_from. destruct start as [k|]; [|reflexivity].
  destruct (k <? 0); apply suffix_drop.
Qed.

Lemma join_chunks_replay (socket : nat) (l : list LogEntry) :
  join_chunks (map data l)
  = join_chunks (omap (fun e => match e with
                               | SocketEmit _ (ConsoleOutput m (Some "log") _) => Some m
                               | _ => None
                               end)
                      (map (fun log => SocketEmit socket (replay log)) l)).
Proof.
  induction l as [|log l IH]; [reflexivity|]. simpl. now rewrite IH.
Qed.

(** X9. The logs endpoint on a registered process answers with records
    of the buffer in buffer order and with their number. For a tail of
    n > 0 they are the last n records (all of them when there are
    fewer); for a tail of 0, or one that does not parse, they are the
    whole buffer, not none of it; for a tail of -n the first n records
    are left out. With no process registered the answer is a fixed
    sentence and no count. *)
Theorem logs_tail (s : State) (serverId : string) :
  (forall p, running s serverId = Some p ->
   (forall tail, exists records,
      get_logs tail serverId s
      = mkLogsBody (join_chunks (map data records)) (Some (length records)) /\
      records `suffix_of` logs p) /\
   (forall n, (0 < n)%nat ->
      get_logs (Some (Z.of_nat n)) serverId s
      = mkLogsBody (join_chunks (map data (slice_last n (logs p))))
                   (Some (Nat.min n (length (logs p))))) /\
   get_logs (Some 0) serverId s
   = mkLogsBody (join_chunks (map data (logs p))) (Some (length (logs p))) /\
   get_logs None serverId s
   = mkLogsBody (join_chunks (map data (logs p))) (Some (length (logs p))) /\
   (forall n, (0 < n)%nat ->
      get_logs (Some (- Z.of_nat n)) serverId s
      = mkLogsBody (join_chunks (map data (drop n (logs p))))
                   (Some (length (logs p) - n)%nat))) /\
  (running s serverId = None ->
   forall tail, get_logs tail serverId s
                = mkLogsBody "Server is not running. Start it to see logs." None).
Proof.
  split.
  - intros p Hp. unfold get_logs. rewrite Hp. split; [|split; [|split; [|split]]].
    + intros tail. eexists. split; [reflexivity | apply js_slice_suffix].
    + intros n Hn. change (Z.opp <$> Some (Z.of_nat n)) with (Some (- Z.of_nat n)).
      rewrite js_slice_last by assumption.
      now rewrite slice_last_length.
    + change (Z.opp <$> Some 0) with (Some 0). now rewrite js_slice_zero.
    + reflexivity.
    + intros n Hn.
      change (Z.opp <$> Some (- Z.of_nat n)) with (Some (- - Z.of_nat n)).
      rewrite Z.opp_involutive. unfold js_slice_from.
      assert (H : (Z.of_nat n <? 0) = false) by (apply Z.ltb_ge; lia).
      rewrite H.
      assert (Hd : drop (Z.to_nat (Z.min (Z.of_nat n) (Z.of_nat (length (logs p)))))
                        (logs p) = drop n (logs p)).
      { destruct (Z.min_spec (Z.of_nat n) (Z.of_nat (length (logs p))))
          as [[Hlt ->]|[Hge ->]]; rewrite Nat2Z.id; [reflexivity|].
        rewrite !drop_ge by lia. reflexivity. }
      rewrite Hd. now rewrite length_drop.
  - intros Hp tail. unfold get_logs. now rewrite Hp.
Qed.

Lemma logs_tail_witness :
  get_logs (Some 0) "A" Runs.chatty
  = mkLogsBody (join_chunks (map data (Runs.chatter_logs 60))) (Some 60%nat) /\
  get_logs (Some 2) "A" Runs.chatty = mkLogsBody "5859" (Some 2%nat).
Proof.
  pose proof (proj1 (logs_tail Runs.chatty "A")
                (mkProc "A" 100 1000 (Runs.chatter_logs 60) OnDataStart true true)
                ltac:(vm_compute; reflexivity)) as (_ & Hlast & Hzero & _).
  split; [exact Hzero|]. exact (Hlast 2%nat ltac:(lia)).
Defined.

(** X10. The text that the logs endpoint returns for a tail of 50 is the
    concatenation of the chunks that [join-server] replays to a socket
    joining at that moment. *)
Theorem logs_tail_50_is_replay (s : State) (serverId : string) (socket : nat)
    (p : ServerProcess) :
  running s serverId = Some p ->
  logs_text (get_logs (Some 50) serverId s)
  = join_chunks (omap (fun e => match e with
                               | SocketEmit _ (ConsoleOutput m (Some "log") _) => Some m
                               | _ => None
                               end) (join_server socket serverId s).1).
Proof.
  intros Hp. unfold get_logs, join_server. rewrite running_with_rooms, Hp.
  change (Z.opp <$> Some 50) with (Some (- Z.of_nat 50)).
  rewrite js_slice_last by lia. cbn [logs_text fst].
  rewrite omap_app. cbn [omap live_message]. rewrite app_nil_r.
  apply join_chunks_replay.
Qed.

Lemma logs_tail_50_is_replay_witness :
  logs_text (get_logs (Some 50) "A" Runs.chatty)
  = join_chunks (omap (fun e => match e with
                               | SocketEmit _ (ConsoleOutput m (Some "log") _) => Some m
                               | _ => None
                               end) (join_server 7 "A" Runs.chatty).1) /\
  logs_text (get_logs (Some 50) "A" Runs.chatty)
  = join_chunks (map data (drop 10 (Runs.chatter_logs 60))).
Proof.
  pose proof (logs_tail_50_is_replay Runs.chatty "A" 7
                (mkProc "A" 100 1000 (Runs.chatter_logs 60) OnDataStart true true)
                ltac:(vm_compute; reflexivity)) as H.
  split; [exact H|]. rewrite H. vm_compute. reflexivity.
Defined.

End ViewsFacts.

(* ===================================================================== *)
(** ** Version listings: facts *)
(* ===================================================================== *)

Section VersionsFacts.

Import Versions.

Lemma last_rev {A} (l : list A) : last (rev l) = head l.
Proof.
  destruct l as [|x l]; [reflexivity|]. simpl. now rewrite last_snoc.
Qed.

Lemma head_rev {A} (l : list A) : head (rev l) = last l.
Proof.
  rewrite <- (rev_involutive l) at 2. now rewrite last_rev.
Qed.

(** X11. The builds endpoint answers, for every list of builds the API
    gives, with those builds in reverse and with [latest] equal to the
    first build the API listed, which is the last of the answered list
    (none for an empty list); when the API lists its builds in
    increasing order, [latest] is therefore the smallest of them. *)
Theorem paper_builds_latest (version : string) (builds : list Z) :
  paper_builds version (BuildsData builds)
  = BuildsListed version (rev builds) (head builds) /\
  head builds = last (rev builds) /\
  (StronglySorted Z.lt builds ->
   forall b l, head builds = Some l -> In b builds -> l <= b).
Proof.
  unfold paper_builds. rewrite last_rev. split; [reflexivity|]. split; [reflexivity|].
  intros Hs b l Hl Hin. destruct builds as [|x rest]; [discriminate|].
  injection Hl as <-. destruct Hin as [<-|Hin]; [lia|].
  apply StronglySorted_inv in Hs as [_ Hall].
  rewrite Forall_forall in Hall. specialize (Hall b).
  assert (x < b) by (apply Hall; now apply list_elem_of_In). lia.
Qed.

Lemma paper_builds_latest_witness :
  paper_builds "1.20.4" (BuildsData [490; 495; 499])
  = BuildsListed "1.20.4" [499; 495; 490] (Some 490) /\
  490 <= 499.
Proof.
  destruct (paper_builds_latest "1.20.4" [490; 495; 499]) as (H1 & _ & H3).
  split; [exact H1|].
  apply (H3 ltac:(repeat constructor) 499 490 eq_refl). simpl. auto.
Defined.

Lemma toLowerCase_idem (s : string) : toLowerCase (toLowerCase s) = toLowerCase s.
Proof.
  induction s as [|c s IH]; [reflexivity|]. simpl. rewrite IH. f_equal.
  unfold lower.
  destruct ((65 <=? nat_of_ascii c)%nat && (nat_of_ascii c <=? 90)%nat) eqn:Hc.
  - apply andb_true_iff in Hc as [H1 H2].
    apply Nat.leb_le in H1. apply Nat.leb_le in H2.
    rewrite nat_ascii_embedding by lia.
    assert (H3 : (nat_of_ascii c + 32 <=? 90)%nat = false) by (apply Nat.leb_gt; lia).
    rewrite H3, andb_false_r. reflexivity.
  - now rewrite Hc.
Qed.

Lemma ascii_only_toLowerCase (s : string) :
  ascii_only s = true -> ascii_only (toLowerCase s) = true.
Proof.
  induction s as [|c s IH]; [reflexivity|]. simpl.
  intros [Hc Hs]%andb_true_iff. rewrite (IH Hs), andb_true_r.
  unfold lower.
  destruct ((65 <=? nat_of_ascii c)%nat && (nat_of_ascii c <=? 90)%nat) eqn:Hl;
    [|exact Hc].
  apply andb_true_iff in Hl as [H1 H2].
  apply Nat.leb_le in H1. apply Nat.leb_le in H2.
  rewrite nat_ascii_embedding by lia. apply Nat.ltb_lt. lia.
Qed.

(** X12. The versions endpoint. It answers with the type in lower case
    and with [default] the first version of its list. The list is: for
    paper, purpur and velocity what the API of the type lists, in
    reverse, so that the default is the last the API lists; for vanilla
    at most 20 ids, each the id of a release of the manifest, in the
    order of the manifest; when the API of the type cannot be read,
    1.20.4, 1.20.1, 1.19.4, 1.18.2 for paper, purpur and vanilla and
    3.3.0, 3.2.0 for velocity; for spigot and for every type that is
    none of the six a fixed list of six versions; for bungee [latest]
    alone. A type written in ASCII is matched whatever its case. *)
Theorem versions_listing (lowercase : string -> string) (type : string) (apis : Apis) :
  let body := versions_handler lowercase type apis in
  v_type body = lowercase type /\
  v_default body = head (v_versions body) /\
  (lowercase type = "paper" ->
   (forall listed, paper apis = Fetched listed ->
      v_versions body = rev listed /\ v_default body = last listed) /\
   (paper apis = FetchThrows ->
      v_versions body = ["1.20.4"; "1.20.1"; "1.19.4"; "1.18.2"])) /\
  (lowercase type = "purpur" ->
   (forall keys, purpur apis = Fetched keys ->
      v_versions body = rev keys /\ v_default body = last keys) /\
   (purpur apis = FetchThrows ->
      v_versions body = ["1.20.4"; "1.20.1"; "1.19.4"; "1.18.2"])) /\
  (lowercase type = "velocity" ->
   (forall listed, velocity apis = Fetched listed ->
      v_versions body = rev listed /\ v_default body = last listed) /\
   (velocity apis = FetchThrows -> v_versions body = ["3.3.0"; "3.2.0"])) /\
  (lowercase type = "vanilla" ->
   (forall manifest, vanilla apis = Fetched manifest ->
      (length (v_versions body) <= 20)%nat /\
      v_versions body `sublist_of` map id manifest /\
      (forall v, In v (v_versions body) -> In (mkEntry v "release") manifest) /\
      ((length (filter (fun e => Versions.type e = "release") manifest) <= 20)%nat ->
       forall e, In e manifest -> Versions.type e = "release" ->
                 In (id e) (v_versions body))) /\
   (vanilla apis = FetchThrows ->
      v_versions body = ["1.20.4"; "1.20.1"; "1.19.4"; "1.18.2"])) /\
  (lowercase type = "bungee" -> v_versions body = ["latest"]) /\
  (lowercase type = "spigot" \/
   ~ In (lowercase type) ["paper"; "purpur"; "spigot"; "vanilla"; "bungee"; "velocity"] ->
   v_versions body = ["1.20.4"; "1.20.1"; "1.19.4"; "1.18.2"; "1.17.1"; "1.16.5"]) /\
  ((forall s, ascii_only s = true -> lowercase s = toLowerCase s) ->
   ascii_only type = true ->
   versions_handler lowercase (toLowerCase type) apis = body).
Proof.
  intros body. subst body. unfold versions_handler. cbn [v_type v_versions v_default].
  split; [reflexivity|]. split; [reflexivity|].
  split; [|split; [|split; [|split; [|split; [|split]]]]].
  - intros ->. cbn [String.eqb Ascii.eqb Bool.eqb]. unfold getPaperVersions. split.
    + intros listed ->. split; [reflexivity | apply head_rev].
    + intros ->. reflexivity.
  - intros ->. cbn. unfold getPurpurVersions. split.
    + intros keys ->. split; [reflexivity | apply head_rev].
    + intros ->. reflexivity.
  - intros ->. cbn. unfold getVelocityVersions. split.
    + intros listed ->. split; [reflexivity | apply head_rev].
    + intros ->. reflexivity.
  - intros ->. cbn. unfold getVanillaVersions. split.
    + intros manifest ->. split; [|split; [|split]].
      * rewrite length_take. lia.
      * etransitivity; [apply sublist_take|].
        change (map id ?l) with (id <$> l).
        apply fmap_sublist. apply sublist_filter.
      * intros v Hv. apply list_elem_of_In in Hv.
        apply subseteq_take in Hv.
        change (map id ?l) with (id <$> l) in Hv.
        apply list_elem_of_fmap in Hv as (e & -> & He).
        apply list_elem_of_filter in He as [Hrel He]. apply list_elem_of_In.
        destruct e as [i t]. simpl in *. now subst t.
      * intros Hfew e He Hrel. rewrite take_ge by (rewrite length_map; exact Hfew).
        apply in_map. apply list_elem_of_In, list_elem_of_filter.
        split; [exact Hrel | now apply list_elem_of_In].
    + intros ->. reflexivity.
  - intros ->. reflexivity.
  - intros [->|Hnot]; [reflexivity|].
    repeat (let E := fresh "E" in
            match goal with
            | |- context [String.eqb ?a ?b] =>
                destruct (String.eqb a b) eqn:E;
                [apply String.eqb_eq in E; exfalso; apply Hnot; rewrite E; simpl; tauto|]
            end).
    reflexivity.
  - intros Hl Ha.
    assert (E : lowercase (toLowerCase type) = lowercase type).
    { rewrite (Hl _ (ascii_only_toLowerCase _ Ha)), (Hl _ Ha). apply toLowerCase_idem. }
    now rewrite E.
Qed.

Lemma versions_listing_witness :
  versions_handler toLowerCase "vanilla"
    (mkApis FetchThrows FetchThrows
       (Fetched [mkEntry "24w14a" "snapshot"; mkEntry "1.20.4" "release"])
       FetchThrows)
  = versions_handler toLowerCase "Vanilla"
      (mkApis FetchThrows FetchThrows
         (Fetched [mkEntry "24w14a" "snapshot"; mkEntry "1.20.4" "release"])
         FetchThrows) /\
  In "1.20.4"
     (v_versions (versions_handler toLowerCase "Vanilla"
                    (mkApis FetchThrows FetchThrows
                       (Fetched [mkEntry "24w14a" "snapshot"; mkEntry "1.20.4" "release"])
                       FetchThrows))).
Proof.
  pose proof (versions_listing toLowerCase "Vanilla"
                (mkApis FetchThrows FetchThrows
                   (Fetched [mkEntry "24w14a" "snapshot"; mkEntry "1.20.4" "release"])
                   FetchThrows)) as (_ & _ & _ & _ & _ & Hv & _ & _ & Hcase).
  split.
  - apply Hcase; [intros s _; reflexivity | reflexivity].
  - destruct (Hv eq_refl) as [Hm _].
    destruct (Hm _ eq_refl) as (_ & _ & _ & Hall).
    apply (Hall ltac:(vm_compute; lia) (mkEntry "1.20.4" "release")); simpl; auto.
Defined.

End VersionsFacts.

(* ===================================================================== *)
(** ** The configuration of a new instance: facts *)
(* ===================================================================== *)

Section CreateFacts.

Import Create.

Lemma includes_spec (s sub : string) :
  includes s sub = true <-> exists a b, s = a +:+ sub +:+ b.
Proof.
  induction s as [|c s IH].
  - cbn [includes]. rewrite orb_false_r, startsWith_spec. split.
    + intros [r Hr]. now exists "", r.
    + intros (a & b & H). destruct a; [now exists b|].
      rewrite append_cons in H. discriminate.
  - cbn [includes]. rewrite orb_true_iff, startsWith_spec, IH. split.
    + intros [[r Hr] | (a & b & ->)]; [now exists "", r|].
      exists (String c a), b. now rewrite append_cons.
    + intros (a & b & H). destruct a as [|d a]; [left; now exists b|].
      rewrite append_cons in H. injection H as -> ->. right. eauto.
Qed.

Lemma split_on_nonempty (sep : ascii) (s : string) : split_on sep s <> [].
Proof.
  destruct s as [|c s]; simpl; [discriminate|].
  destruct (Ascii.eqb c sep); [discriminate|].
  destruct (split_on sep s); discriminate.
Qed.

Lemma split_on_free (sep : ascii) (s : string) :
  has_char sep s = false -> split_on sep s = [s].
Proof.
  induction s as [|c s IH]; simpl; [reflexivity|].
  intros H. apply orb_false_iff in H as [Hc Hs].
  rewrite Hc, (IH Hs). reflexivity.
Qed.

Lemma split_on_app (sep : ascii) (a b : string) :
  has_char sep a = false ->
  split_on sep (a +:+ String sep b) = a :: split_on sep b.
Proof.
  induction a as [|c a IH]; intros H.
  - rewrite append_nil. simpl. now rewrite Ascii.eqb_refl.
  - simpl in H. apply orb_false_iff in H as [Hc Ha].
    rewrite append_cons. simpl. rewrite Hc, (IH Ha). reflexivity.
Qed.

Lemma split_on_sep (sep : ascii) (a b : string) :
  has_char sep a = false ->
  split_on sep (a +:+ String sep EmptyString +:+ b) = a :: split_on sep b.
Proof. intros H. now apply split_on_app. Qed.

Lemma parse_env_snoc (env : list string) (envVar : string) :
  parse_env (Some (env ++ [envVar])) = add_env (parse_env (Some env)) envVar.
Proof. unfold parse_env. now rewrite fold_left_app. Qed.

Lemma add_env_parts (environment : gmap string EnvValue) (envVar key : string)
    (more : list string) :
  split_on "="%char envVar = key :: more ->
  key <> "" -> key <> "__proto__" ->
  add_env environment envVar
  = <[key := EnvStr (or_str (head more) "")]> environment.
Proof.
  intros Hs Hk Hp. apply String.eqb_neq in Hk. apply String.eqb_neq in Hp.
  unfold add_env. rewrite Hs.
  change ((key :: more) !! 0%nat) with (Some key).
  change (default "" (Some key)) with key.
  rewrite Hk, Hp. now destruct more.
Qed.

(** X13. How an entry of [env] is read. For a key that is not empty,
    not [__proto__] and has no [=] in it: the value of [key=v] is [v];
    the value of [key=v=rest] is [v] alone, what follows the second [=]
    being dropped; the value of [key] without [=] is the empty string;
    the entry overrides earlier entries of the same key. An entry that
    begins with [=] is ignored. *)
Theorem env_entry_parsing (env : list string) (key v rest : string) :
  key <> "" -> key <> "__proto__" ->
  has_char "="%char key = false -> has_char "="%char v = false ->
  parse_env (Some (env ++ [key +:+ "=" +:+ v])) !! key = Some (EnvStr v) /\
  parse_env (Some (env ++ [key +:+ "=" +:+ v +:+ "=" +:+ rest])) !! key = Some (EnvStr v) /\
  parse_env (Some (env ++ [key])) !! key = Some (EnvStr "") /\
  parse_env (Some (env ++ ["=" +:+ rest])) = parse_env (Some env).
Proof.
  intros Hk Hp Hfk Hfv.
  assert (Hor : or_str (Some v) "" = v).
  { unfold or_str. destruct (String.eqb v "") eqn:E; [|reflexivity].
    apply String.eqb_eq in E. now subst. }
  rewrite !parse_env_snoc.
  split; [|split; [|split]].
  - rewrite (add_env_parts _ _ key [v]);
      [|now rewrite split_on_sep, split_on_free | assumption | assumption].
    cbn [head]. rewrite Hor. apply lookup_insert_eq.
  - rewrite (add_env_parts _ _ key (v :: split_on "="%char rest));
      [|now rewrite !split_on_sep | assumption | assumption].
    cbn [head]. rewrite Hor. apply lookup_insert_eq.
  - rewrite (add_env_parts _ _ key []);
      [|now rewrite split_on_free | assumption | assumption].
    apply lookup_insert_eq.
  - unfold add_env. simpl. reflexivity.
Qed.

Lemma env_entry_parsing_witness :
  parse_env (Some ["JAVA_OPTS=-Dfile.encoding=UTF-8"]) !! "JAVA_OPTS"
  = Some (EnvStr "-Dfile.encoding").
Proof.
  apply (proj1 (proj2 (env_entry_parsing [] "JAVA_OPTS" "-Dfile.encoding" "UTF-8"
                         ltac:(discriminate) ltac:(discriminate) eq_refl eq_refl))).
Defined.

Lemma or_str_nonempty (a : option string) (b : string) : b <> "" -> or_str a b <> "".
Proof.
  intros Hb. unfold or_str. destruct a as [s|]; [|assumption].
  destruct (String.eqb s "") eqn:E; [assumption|]. now apply String.eqb_neq.
Qed.

Lemma or_num_nonzero (a : option Z) (b : Z) : b <> 0 -> or_num a b <> 0.
Proof.
  intros Hb. unfold or_num. destruct a as [n|]; [|assumption].
  destruct (Z.eqb n 0) eqn:E; [assumption|]. now apply Z.eqb_neq.
Qed.

Lemma default_port_nonzero (type : string) : default_port type <> 0.
Proof.
  unfold default_port.
  destruct (String.eqb type "bungee"); [discriminate|].
  destruct (String.eqb type "velocity"); discriminate.
Qed.

(** X14. The configuration built for a new instance, whatever the
    request. The environment entries VERSION, MEMORY and PORT are the
    version, the memory and the port of the configuration itself,
    whatever the request's [env] says about them, and every other entry
    is as parsed from [env]; version, type, name, image and build are
    never empty, port, memory and cpu never zero; the instance has
    never been started. When the request names no type, it is one of
    the six known kinds; when it names no port, the port is 25577 for
    type bungee, 25578 for velocity and 25565 for any other. *)
Theorem created_config_consistent (b : Body) (serverId dirname : string) (now : Z) :
  let c := build_config b serverId dirname now in
  c_environment c !! "VERSION" = Some (EnvStr (c_version c)) /\
  c_environment c !! "MEMORY" = Some (EnvNum (c_memory c)) /\
  c_environment c !! "PORT" = Some (EnvNum (c_port c)) /\
  (forall key, key <> "VERSION" -> key <> "MEMORY" -> key <> "PORT" ->
               c_environment c !! key = parse_env (b_env b) !! key) /\
  (c_version c <> "" /\ c_type c <> "" /\ c_name c <> "" /\ c_image c <> "" /\
   c_build c <> "") /\
  (c_port c <> 0 /\ c_memory c <> 0 /\ c_cpu c <> 0) /\
  c_lastStarted c = None /\ c_id c = serverId /\
  (or_str (b_serverType b) "" = "" ->
   In (c_type c) ["paper"; "spigot"; "purpur"; "bungee"; "velocity"; "vanilla"]) /\
  (or_num (b_port b) 0 = 0 -> c_port c = default_port (c_type c)).
Proof.
  simpl. split; [rewrite !lookup_insert_ne by discriminate; apply lookup_insert_eq|].
  split; [rewrite lookup_insert_ne by discriminate; apply lookup_insert_eq|].
  split; [apply lookup_insert_eq|].
  split; [intros key H1 H2 H3; now rewrite !lookup_insert_ne by congruence|].
  split.
  { split; [apply or_str_nonempty, or_str_nonempty; discriminate|].
    assert (Ht : actualServerType b <> "").
    { unfold actualServerType. apply or_str_nonempty.
      repeat match goal with |- context [if ?c then _ else _] => destruct c end;
        discriminate. }
    split; [exact Ht|].
    split; [|split; apply or_str_nonempty; discriminate].
    unfold or_str. destruct (b_name b) as [n|].
    - destruct (String.eqb n "") eqn:E; [|now apply String.eqb_neq].
      destruct (actualServerType b); [congruence | discriminate].
    - destruct (actualServerType b); [congruence | discriminate]. }
  split.
  { split; [apply or_num_nonzero, default_port_nonzero|].
    split; apply or_num_nonzero; discriminate. }
  split; [reflexivity|]. split; [reflexivity|]. split.
  - intros Hno. unfold actualServerType.
    assert (Heq : forall d, or_str (b_serverType b) d = d).
    { intros d. unfold or_str in *. destruct (b_serverType b) as [t|]; [|reflexivity].
      destruct (String.eqb t "") eqn:E; [reflexivity|].
      apply String.eqb_neq in E. contradiction. }
    rewrite Heq.
    repeat match goal with |- context [if ?c then _ else _] => destruct c end;
      simpl; tauto.
  - intros Hno. unfold or_num in *. destruct (b_port b) as [n|]; [|reflexivity].
    destruct (Z.eqb n 0) eqn:E; [reflexivity|].
    apply Z.eqb_neq in E. contradiction.
Qed.

Lemma created_config_consistent_witness :
  c_port (build_config
            (mkBody None (Some "itzg/bungeecord") None None None
                    (Some ["PORT=1"; "VERSION=9"]) None None None)
            "id-1" "/app/src" 1700000000000) = 25577.
Proof.
  rewrite (proj2 (proj2 (proj2 (proj2 (proj2 (proj2 (proj2 (proj2 (proj2
             (created_config_consistent
                (mkBody None (Some "itzg/bungeecord") None None None
                        (Some ["PORT=1"; "VERSION=9"]) None None None)
                "id-1" "/app/src" 1700000000000))))))))) eq_refl).
  vm_compute. reflexivity.
Defined.

End CreateFacts.

(* ===================================================================== *)
(** ** configure.js and the load of node.json: facts *)
(* ===================================================================== *)

Section ConfigureFacts.

Import Daemon Configure.

(** [indexOf] finds the first place where the argument stands. *)
Lemma indexOf_spec (args : list string) (x : string) :
  match indexOf args x with
  | Some i => args !! i = Some x /\ forall j, (j < i)%nat -> args !! j <> Some x
  | None => forall j, args !! j <> Some x
  end.
Proof.
  induction args as [|a rest IH]; simpl.
  - intros j. now rewrite lookup_nil.
  - destruct (String.eqb a x) eqn:E.
    + apply String.eqb_eq in E as ->. split; [reflexivity | intros j Hj; lia].
    + apply String.eqb_neq in E. destruct (indexOf rest x) as [i|]; simpl.
      * destruct IH as [Hi Hbefore]. split; [exact Hi|].
        intros [|j] Hj; simpl; [congruence | apply Hbefore; lia].
      * intros [|j]; simpl; [congruence | apply IH].
Qed.

Lemma truthy_spec (o : option string) :
  truthy o = true <-> exists s, o = Some s /\ s <> "".
Proof.
  destruct o as [s|]; simpl.
  - rewrite negb_true_iff, String.eqb_neq. split; [eauto|]. now intros (? & [= <-] & ?).
  - split; [discriminate | now intros (? & ? & _)].
Qed.

Lemma truthy_falsy (o : option string) : Auth.falsy o = negb (truthy o).
Proof. destruct o; simpl; [now rewrite negb_involutive | reflexivity]. Qed.

Lemma or_str_truthy (a : option string) (b : string) :
  truthy a = true -> Some (Create.or_str a b) = a.
Proof.
  intros H. apply truthy_spec in H as (s & -> & Hs). unfold Create.or_str.
  apply String.eqb_neq in Hs. now rewrite Hs.
Qed.

Lemma or_str_not_truthy (a : option string) (b : string) :
  truthy a = false -> Create.or_str a b = b.
Proof.
  destruct a as [s|]; simpl; [|reflexivity].
  intros H. apply negb_false_iff in H. now rewrite H.
Qed.

Lemma or_str_again (a : option string) (b b' : string) :
  b <> "" ->
  Create.or_str a (Create.or_str (Some (Create.or_str a b)) b') = Create.or_str a b.
Proof.
  intros Hb. destruct (truthy a) eqn:Ha.
  - pose proof (or_str_truthy a b Ha) as H1.
    pose proof (or_str_truthy a (Create.or_str (Some (Create.or_str a b)) b') Ha) as H2.
    congruence.
  - rewrite !(or_str_not_truthy a) by assumption.
    unfold Create.or_str. apply String.eqb_neq in Hb. now rewrite Hb.
Qed.


Lemma toHex_nonempty (bytes : list Byte.byte) : bytes <> [] -> toHex bytes <> "".
Proof. destruct bytes; [congruence | discriminate]. Qed.

Lemma configure_saved (args : list string) (existing : option NodeConfig)
    (uuid : string) (keyBytes : list Byte.byte) (now : Z) (c : NodeConfig) :
  configure args existing uuid keyBytes now = Saved c ->
  truthy (getArg args "panel") = true /\ truthy (getArg args "key") = true /\
  c = mkNode
        (if truthy (nodeId (default empty_document existing))
         then nodeId (default empty_document existing) else Some uuid)
        (if truthy (nodeKey (default empty_document existing))
         then nodeKey (default empty_document existing) else Some (toHex keyBytes))
        (getArg args "panel") (getArg args "key")
        (Some (Create.or_str (getArg args "name")
                 (Create.or_str (nodeName (default empty_document existing))
                    ("codesandbox-" +:+ Create.decimal now))))
        (Some (Create.or_str (getArg args "location")
                 (Create.or_str (location (default empty_document existing))
                    "CodeSandbox")))
        (Some 8080) true (Some now) (servers (default empty_document existing)).
Proof.
  unfold configure.
  destruct (truthy (getArg args "panel")); [|discriminate].
  destruct (truthy (getArg args "key")); [|discriminate].
  simpl. intros [= <-]. auto.
Qed.

(** X15. Running configure again. A run that saves keeps the node id,
    the node key and the instances of a document that has them; and a
    second run with the same arguments over the document it saved
    changes nothing in it but the time of configuration, whatever the
    random sources give the second time. *)
Theorem configure_is_stable (args : list string) (existing : option NodeConfig)
    (uuid : string) (keyBytes : list Byte.byte) (now : Z) (c : NodeConfig) :
  uuid <> "" -> keyBytes <> [] ->
  configure args existing uuid keyBytes now = Saved c ->
  (forall document, existing = Some document ->
     (truthy (nodeId document) = true -> nodeId c = nodeId document) /\
     (truthy (nodeKey document) = true -> nodeKey c = nodeKey document) /\
     servers c = servers document) /\
  (forall uuid' keyBytes' now',
     configure args (Some c) uuid' keyBytes' now' = Saved (written_at now' c)).
Proof.
  intros Hu Hk Hc. apply configure_saved in Hc as (Hp & Hq & ->). split.
  - intros document ->. simpl. split; [|split; [|reflexivity]]; now intros ->.
  - intros uuid' keyBytes' now'. unfold configure. rewrite Hp, Hq.
    cbn -[Create.or_str truthy Create.decimal String.append toHex].
    set (config := default empty_document existing).
    assert (Hid : truthy (if truthy (nodeId config) then nodeId config else Some uuid) = true).
    { destruct (truthy (nodeId config)) eqn:E; [exact E|].
      simpl. now apply negb_true_iff, String.eqb_neq. }
    assert (Hkey : truthy (if truthy (nodeKey config) then nodeKey config
                           else Some (toHex keyBytes)) = true).
    { destruct (truthy (nodeKey config)) eqn:E; [exact E|].
      simpl. now apply negb_true_iff, String.eqb_neq, toHex_nonempty. }
    rewrite Hid, Hkey. unfold written_at.
    cbn -[Create.or_str truthy Create.decimal String.append toHex].
    rewrite !or_str_again;
      first [ reflexivity
            | apply or_str_nonempty; first [ discriminate | rewrite append_cons; discriminate ] ].
Qed.

Lemma configure_is_stable_witness :
  configure ["--panel"; "http://localhost:3000"; "--key"; "k1"] None
            "3e0c" [Byte.x0a; Byte.xff] 5
  = Saved (mkNode (Some "3e0c") (Some "0aff") (Some "http://localhost:3000")
                  (Some "k1") (Some "codesandbox-5") (Some "CodeSandbox")
                  (Some 8080) true (Some 5) None) /\
  configure ["--panel"; "http://localhost:3000"; "--key"; "k1"]
            (Some (mkNode (Some "3e0c") (Some "0aff") (Some "http://localhost:3000")
                          (Some "k1") (Some "codesandbox-5") (Some "CodeSandbox")
                          (Some 8080) true (Some 5) None))
            "77aa" [Byte.x01] 9
  = Saved (mkNode (Some "3e0c") (Some "0aff") (Some "http://localhost:3000")
                  (Some "k1") (Some "codesandbox-5") (Some "CodeSandbox")
                  (Some 8080) true (Some 9) None).
Proof.
  assert (H : configure ["--panel"; "http://localhost:3000"; "--key"; "k1"] None
                "3e0c" [Byte.x0a; Byte.xff] 5
              = Saved (mkNode (Some "3e0c") (Some "0aff") (Some "http://localhost:3000")
                         (Some "k1") (Some "codesandbox-5") (Some "CodeSandbox")
                         (Some 8080) true (Some 5) None))
    by (vm_compute; reflexivity).
  split; [exact H|].
  exact (proj2 (configure_is_stable _ None "3e0c" [Byte.x0a; Byte.xff] 5 _
                  ltac:(discriminate) ltac:(discriminate) H) "77aa" [Byte.x01] 9).
Defined.

End ConfigureFacts.

(* ===================================================================== *)
(** ** Reading a file back: facts *)
(* ===================================================================== *)

Section FilesReadFacts.

Import Daemon Files FilesRead.

Lemma endsWith_spec (s suffix : string) :
  endsWith s suffix = true <-> exists a, s = a +:+ suffix.
Proof.
  induction s as [|c s IH]; cbn [endsWith].
  - rewrite orb_false_r, String.eqb_eq. split.
    + intros <-. now exists "".
    + intros [a Ha]. destruct a; [exact Ha | rewrite append_cons in Ha; discriminate].
  - rewrite orb_true_iff, String.eqb_eq, IH. split.
    + intros [<- | [a ->]]; [now exists "" | exists (String c a); now rewrite append_cons].
    + intros [a Ha]. destruct a as [|d a]; [left; exact Ha|].
      rewrite append_cons in Ha. injection Ha as -> ->. right. eauto.
Qed.

Lemma existsSync_written (fs : gmap string string) (p content : string) :
  existsSync (<[p := content]> fs) p = true.
Proof.
  unfold existsSync. rewrite bool_decide_eq_true_2; [reflexivity|].
  rewrite lookup_insert_eq. eauto.
Qed.



(** X19. What the write endpoint stored, the delete endpoint finds.
    After a successful write at [filePath], a delete at the same
    [filePath] never answers "File not found": it answers access
    denied, leaving the file, when the resolved path does not begin
    with the resolved instance directory; it refuses, leaving the file,
    when files lie below the path and [force] is off; otherwise it
    answers success, the file is gone, and no file outside the path has
    changed. *)
Theorem write_then_delete (cwd : string) (servers : gmap string ServerConfig)
    (serverId filePath content : string) (server : ServerConfig) (force : bool)
    (fs : gmap string string) :
  servers !! serverId = Some server ->
  let fullPath := Path.join (directory server) filePath in
  let fs1 := (files_write servers serverId filePath content Written fs).2 in
  let r := files_delete cwd servers serverId filePath force Written fs1 in
  fs1 !! fullPath = Some content /\
  ((Str.startsWith (Path.resolve cwd fullPath) (Path.resolve cwd (directory server)) = false /\
    r = ((403, ErrorBody "Access denied"), fs1)) \/
   (Str.startsWith (Path.resolve cwd fullPath) (Path.resolve cwd (directory server)) = true /\
    isDirectory fs1 fullPath = true /\ force = false /\
    r = ((400, ErrorBody "Directory is not empty"), fs1)) \/
   (Str.startsWith (Path.resolve cwd fullPath) (Path.resolve cwd (directory server)) = true /\
    r.1 = (200, SuccessOnly) /\ r.2 !! fullPath = None /\
    forall other, other <> fullPath -> below fullPath other = false ->
                  r.2 !! other = fs1 !! other)).
Proof.
  intros Hs fullPath fs1 r.
  assert (Hfs : fs1 = <[fullPath := content]> fs).
  { subst fs1 fullPath. unfold files_write. now rewrite Hs. }
  split; [rewrite Hfs; apply lookup_insert_eq|].
  subst r. unfold files_delete. rewrite Hs. fold fullPath.
  destruct (Str.startsWith (Path.resolve cwd fullPath)
              (Path.resolve cwd (directory server))) eqn:Hpre; [|left; auto].
  right. cbn [negb].
  assert (Hex : existsSync fs1 fullPath = true) by (rewrite Hfs; apply existsSync_written).
  rewrite Hex. cbn [negb].
  destruct (isDirectory fs1 fullPath) eqn:Hdir; destruct force; cbn [andb negb];
    first [ left; auto; fail | right ].
  all: split; [reflexivity|]; split; [reflexivity|]; cbn [snd]; split.
  all: try (apply map_lookup_filter_None; right; intros x _ [Hne _]; now apply Hne).
  all: intros other Hne Hb;
    destruct (fs1 !! other) as [x|] eqn:Hx;
    [ apply map_lookup_filter_Some; split; [assumption | split; assumption]
    | apply map_lookup_filter_None; left; assumption ].
Qed.

Lemma write_then_delete_witness :
  (files_delete "/app" Scenario.config_A "A" "notes.txt" false Written
     (files_write Scenario.config_A "A" "notes.txt" "x" Written Scenario.disk_files).2).1
  = (200, SuccessOnly).
Proof.
  destruct (write_then_delete "/app" Scenario.config_A "A" "notes.txt" "x"
              (mkConfig "survival" "/srv/a" "1.20.1" None) false Scenario.disk_files
              ltac:(vm_compute; reflexivity))
    as [_ [[H _]|[(_ & H & _)|(_ & H & _)]]].
  - vm_compute in H. discriminate.
  - vm_compute in H. discriminate.
  - exact H.
Defined.

End FilesReadFacts.

(* ===================================================================== *)
(** ** Restart and change of version: what is left behind *)
(* ===================================================================== *)

Section AftermathFacts.

Import Daemon.






End AftermathFacts.

(* ===================================================================== *)
(** ** What the containment test of the delete endpoint secures: facts *)
(* ===================================================================== *)

Section ConfineFacts.

Import Daemon Files Confine.

Lemma segments_split (s : string) : Path.segments s = Create.split_on Path.slash s.
Proof.
  induction s as [|c s IH]; [reflexivity|]. simpl. now rewrite IH.
Qed.

Lemma segments_slash_free (s : string) :
  Forall (fun seg => Create.has_char Path.slash seg = false) (Path.segments s).
Proof.
  induction s as [|c s IH]; simpl; [now repeat constructor|].
  destruct (Ascii.eqb c Path.slash) eqn:Hc; [now constructor|].
  destruct (Path.segments s) as [|seg rest].
  - constructor; [|constructor]. simpl. now rewrite Hc.
  - apply Forall_cons in IH as [H1 H2]. constructor; [|assumption].
    simpl. now rewrite Hc, H1.
Qed.

Lemma join_slash_cons (seg : string) (rest : list string) :
  rest <> [] -> Path.join_slash (seg :: rest) = seg +:+ "/" +:+ Path.join_slash rest.
Proof. destruct rest; [congruence | reflexivity]. Qed.

(** Splitting what was joined gives the segments back. *)
Lemma segments_join_slash (segs : list string) :
  Forall plain segs -> segs <> [] -> Path.segments (Path.join_slash segs) = segs.
Proof.
  induction segs as [|seg rest IH]; [congruence|]. intros Hall _.
  apply Forall_cons in Hall as [(_ & _ & _ & Hfree) Hrest].
  destruct rest as [|seg' rest'].
  - simpl. rewrite segments_split. now apply split_on_free.
  - rewrite join_slash_cons by discriminate.
    rewrite segments_split, split_on_sep by assumption.
    rewrite <- segments_split, IH by (assumption || discriminate). reflexivity.
Qed.

Lemma segments_trailing (s : string) :
  Path.segments (s +:+ "/") = Path.segments s ++ [""].
Proof.
  induction s as [|c s IH]; [reflexivity|].
  rewrite append_cons. simpl. rewrite IH.
  destruct (Ascii.eqb c Path.slash); [reflexivity|].
  pose proof (split_on_nonempty Path.slash s) as Hne. rewrite <- segments_split in Hne.
  destruct (Path.segments s); [congruence | reflexivity].
Qed.

(** Normalizing keeps plain segments as they are, after what was
    gathered before, and drops empty segments at the end. *)
Lemma normalize_plain (allow : bool) (segs acc : list string) (tail : list string) :
  Forall plain segs -> Forall (fun seg => seg = "") tail ->
  Path.normalize_segments allow (segs ++ tail) acc = rev acc ++ segs.
Proof.
  revert acc. induction segs as [|seg rest IH]; intros acc Hall Htail.
  - simpl. rewrite app_nil_r. induction tail as [|t tail IHt]; [reflexivity|].
    apply Forall_cons in Htail as [-> Htail]. simpl. now apply IHt.
  - apply Forall_cons in Hall as [(H1 & H2 & H3 & _) Hrest].
    apply String.eqb_neq in H1, H2, H3. simpl. rewrite H1, H2, H3. simpl.
    rewrite IH by assumption. simpl. now rewrite <- app_assoc.
Qed.

(** On an absolute path, what normalizing gathers is plain. *)
Lemma normalize_segments_plain (segs acc : list string) :
  Forall (fun seg => Create.has_char Path.slash seg = false) segs ->
  Forall plain acc ->
  Forall plain (Path.normalize_segments false segs acc).
Proof.
  revert acc. induction segs as [|seg rest IH]; intros acc Hfree Hacc; simpl.
  - now apply Forall_rev.
  - apply Forall_cons in Hfree as [Hseg Hrest].
    destruct (String.eqb seg "") eqn:E1; simpl; [now apply IH|].
    destruct (String.eqb seg ".") eqn:E2; simpl; [now apply IH|].
    destruct (String.eqb seg "..") eqn:E3.
    + destruct acc as [|last acc']; [apply IH; [assumption | constructor]|].
      pose proof Hacc as Hacc0.
      apply Forall_cons in Hacc as [Hlast Hacc'].
      destruct (String.eqb last ".."); apply IH; assumption.
    + apply IH; [assumption|]. constructor; [|assumption].
      apply String.eqb_neq in E1, E2, E3. repeat split; assumption.
Qed.

Lemma join_slash_empty (segs : list string) :
  Forall plain segs -> Path.join_slash segs = "" -> segs = [].
Proof.
  destruct segs as [|seg rest]; [reflexivity|]. intros Hall H.
  apply Forall_cons in Hall as [(Hne & _) _]. exfalso.
  destruct rest; simpl in H; [contradiction|].
  destruct seg; [contradiction | rewrite append_cons in H; discriminate].
Qed.

Lemma isAbsolute_spec (p : string) :
  Path.isAbsolute p = true <-> exists r, p = String Path.slash r.
Proof.
  unfold Path.isAbsolute. rewrite startsWith_spec. unfold Str.is_prefix.
  split; intros [r Hr]; exists r; exact Hr.
Qed.

(** Resolving the join of an absolute directory and a path gives the
    join back, without its final slash if it has one. *)
Lemma resolve_join (cwd dir filePath : string) :
  Path.isAbsolute dir = true ->
  Path.join dir filePath = Path.resolve cwd (Path.join dir filePath) \/
  Path.join dir filePath = Path.resolve cwd (Path.join dir filePath) +:+ "/".
Proof.
  intros Habs.
  assert (Hnorm : forall p, Path.isAbsolute p = true ->
            Path.normalize p = Path.resolve cwd (Path.normalize p) \/
            Path.normalize p = Path.resolve cwd (Path.normalize p) +:+ "/").
  { intros p Hp. unfold Path.normalize.
    destruct (String.eqb p "") eqn:Hempty.
    { apply String.eqb_eq in Hempty. subst p. discriminate. }
    rewrite Hp. cbn [negb].
    set (N := Path.normalize_segments false (Path.segments p) []).
    assert (HN : Forall plain N)
      by (apply normalize_segments_plain; [apply segments_slash_free | constructor]).
    assert (Hres : forall tail, Forall (fun seg => seg = "") tail ->
              Path.normalize_segments false ("" :: N ++ tail) [] = N).
    { intros tail Ht. simpl. now rewrite normalize_plain. }
    destruct (String.eqb (Path.join_slash N) "") eqn:Hbody.
    - left. reflexivity.
    - apply String.eqb_neq in Hbody.
      assert (HNne : N <> []) by (intros E; rewrite E in Hbody; now apply Hbody).
      destruct (Path.endsWithSlash p).
      + right. unfold Path.resolve.
        assert (Ha : Path.isAbsolute ("/" +:+ Path.join_slash N +:+ "/") = true)
          by (apply isAbsolute_spec; eexists; reflexivity).
        rewrite Ha.
        change ("/" +:+ Path.join_slash N +:+ "/")
          with (String Path.slash (Path.join_slash N +:+ "/")) at 2.
        cbn [Path.segments]. rewrite Ascii.eqb_refl.
        rewrite segments_trailing, segments_join_slash by assumption.
        rewrite (Hres [""]) by (repeat constructor). reflexivity.
      + left. unfold Path.resolve.
        assert (Ha : Path.isAbsolute ("/" +:+ Path.join_slash N) = true)
          by (apply isAbsolute_spec; eexists; reflexivity).
        rewrite Ha.
        change ("/" +:+ Path.join_slash N)
          with (String Path.slash (Path.join_slash N)) at 2.
        cbn [Path.segments]. rewrite Ascii.eqb_refl.
        rewrite segments_join_slash by assumption.
        pose proof (Hres [] ltac:(constructor)) as Hr. rewrite app_nil_r in Hr.
        rewrite Hr. reflexivity. }
  apply isAbsolute_spec in Habs as [r ->]. unfold Path.join.
  cbn [String.eqb].
  destruct (String.eqb filePath ""); apply Hnorm; apply isAbsolute_spec.
  - now exists r.
  - rewrite append_cons. eexists; reflexivity.
Qed.

Lemma is_prefix_refl (a : string) : Str.is_prefix a a.
Proof.
  exists "". induction a as [|x a IH]; [reflexivity|].
  rewrite append_cons. now rewrite <- IH.
Qed.

Lemma is_prefix_trans (a b c : string) :
  Str.is_prefix a b -> Str.is_prefix b c -> Str.is_prefix a c.
Proof.
  intros [r ->] [r' ->]. exists (r +:+ r').
  induction a as [|x a IH]; [reflexivity|]. rewrite !append_cons. now rewrite IH.
Qed.

End ConfineFacts.

(* ===================================================================== *)
(** ** Uptime: facts *)
(* ===================================================================== *)

Section StatusFacts.

Import Daemon Status.

Lemma running_inv (s : State) (serverId : string) (p : ServerProcess) :
  running s serverId = Some p ->
  exists ref, activeServers s !! serverId = Some ref /\ heap s !! ref = Some p.
Proof.
  unfold running. destruct (activeServers s !! serverId) as [ref|]; [|discriminate].
  intros H. now exists ref.
Qed.

End StatusFacts.

(* ===================================================================== *)
(** ** Commands: facts *)
(* ===================================================================== *)

Section CommandsFacts.

Import Daemon Views Commands.

(** X24. Where a command goes. The command endpoint and the
    [console-command] event write the same data, the command and a line
    feed, to the same process: the one registered for the instance,
    which is a process of that instance; with none registered neither
    writes. The event echoes the command to the room of the instance,
    so to every socket that joined it and to no other, the sender
    included only if it joined; the endpoint echoes nothing. With no
    process registered the endpoint answers "Server not running" and
    the event tells the sender alone. *)
Theorem command_routing (s : State) (socket : nat) (serverId command : string) :
  wf s ->
  let h := post_command serverId command Written s in
  let k := console_command socket serverId command s in
  h.1 = k.1 /\
  (forall ref data, k.1 = Some (ref, data) ->
     data = command +:+ LF /\
     exists p, running s serverId = Some p /\ heap s !! ref = Some p /\
               owner p = serverId /\ h.2 = CommandSent /\
               forall other,
                 delivered s other k.2
                 = if bool_decide (other ∈ members s (room_of serverId))
                   then [echo_message command] else []) /\
  (k.1 = None ->
     running s serverId = None /\
     h.2 = CommandRefused 400 "Server not running" /\
     forall other,
       delivered s other k.2
       = if bool_decide (other = socket) then [refused_message] else []).
Proof.
  intros Hwf h k. subst h k. unfold post_command, console_command.
  destruct (activeServers s !! serverId) as [ref|] eqn:Ha; simpl.
  - split; [reflexivity|]. split; [|discriminate].
    intros ref' data [= <- <-]. split; [reflexivity|].
    destruct (wf_running s serverId ref Hwf Ha) as (p & Hp & Hrun & Ho).
    exists p. repeat split; try assumption.
    intros other. unfold delivered. simpl.
    now destruct (bool_decide (other ∈ members s (room_of serverId))).
  - split; [reflexivity|]. split; [discriminate|].
    intros _. split; [unfold running; now rewrite Ha|]. split; [reflexivity|].
    intros other. unfold delivered. simpl.
    destruct (decide (socket = other)) as [->|Hne].
    + now rewrite !bool_decide_eq_true_2.
    + rewrite !bool_decide_eq_false_2 by congruence. reflexivity.
Qed.

Lemma command_routing_witness :
  (post_command "A" "say hi" Written Scenario.started).1
  = (console_command 7 "A" "say hi" Scenario.started).1.
Proof.
  exact (proj1 (command_routing Scenario.started 7 "A" "say hi"
                  (reachable_wf _ reachable_started))).
Defined.

End CommandsFacts.

(* ===================================================================== *)
(** ** The files of a new instance: facts *)
(* ===================================================================== *)

Section CreateFilesFacts.

Import Daemon Files Confine CreateFiles.

Lemma segments_app (a b : string) :
  Path.segments (a +:+ "/" +:+ b) = Path.segments a ++ Path.segments b.
Proof.
  induction a as [|c a IH]; [reflexivity|].
  rewrite append_cons. cbn [Path.segments]. rewrite IH.
  destruct (Ascii.eqb c Path.slash); [reflexivity|].
  pose proof (split_on_nonempty Path.slash a) as Hne. rewrite <- segments_split in Hne.
  destruct (Path.segments a); [congruence | reflexivity].
Qed.

Lemma normalize_segments_snoc (allow : bool) (segs acc : list string) (seg : string) :
  plain seg ->
  Path.normalize_segments allow (segs ++ [seg]) acc
  = Path.normalize_segments allow segs acc ++ [seg].
Proof.
  intros (H1 & H2 & H3 & _). apply String.eqb_neq in H1, H2, H3.
  revert acc. induction segs as [|x segs IH]; intros acc.
  - simpl. now rewrite H1, H2, H3.
  - simpl. destruct (String.eqb x "" || String.eqb x "."); [apply IH|].
    destruct (String.eqb x ".."); [|apply IH].
    destruct acc as [|last acc']; [apply IH|].
    destruct (String.eqb last ".."); apply IH.
Qed.

(** Joining a plain name to an absolute directory appends it to the
    normalized segments of the directory. *)
Lemma join_plain (dir name : string) :
  Path.isAbsolute dir = true -> plain name ->
  Path.join dir name
  = "/" +:+ Path.join_slash
              (Path.normalize_segments false (Path.segments dir) [] ++ [name]).
Proof.
  intros Habs Hname. pose proof Hname as (Hne & _ & _ & Hfree).
  apply isAbsolute_spec in Habs as [r ->]. unfold Path.join. cbn [String.eqb].
  apply String.eqb_neq in Hne. rewrite Hne. unfold Path.normalize.
  assert (Ha : Path.isAbsolute (String Path.slash r +:+ "/" +:+ name) = true)
    by (apply isAbsolute_spec; rewrite append_cons; eexists; reflexivity).
  rewrite Ha. cbn [negb]. rewrite append_cons at 1. cbn [String.eqb].
  rewrite segments_app, (segments_split name), split_on_free by assumption.
  rewrite normalize_segments_snoc by assumption.
  set (N := Path.normalize_segments false (Path.segments (String Path.slash r)) []).
  assert (HN : Forall plain (N ++ [name])).
  { apply Forall_app. split; [|now apply Forall_singleton].
    apply normalize_segments_plain; [apply segments_slash_free | constructor]. }
  destruct (String.eqb (Path.join_slash (N ++ [name])) "") eqn:Hbody.
  { apply String.eqb_eq, (join_slash_empty _ HN) in Hbody. now destruct N. }
  assert (Hend : Path.endsWithSlash (String Path.slash r +:+ "/" +:+ name) = false).
  { unfold Path.endsWithSlash.
    rewrite segments_app, (segments_split name), split_on_free by assumption.
    set (L := Path.segments (String Path.slash r)).
    rewrite rev_app_distr. change (rev [name]) with [name]. cbn [app].
    destruct (rev L); [reflexivity | exact Hne]. }
  rewrite Hend. reflexivity.
Qed.

Lemma join_plain_inj (dir a b : string) :
  Path.isAbsolute dir = true -> plain a -> plain b ->
  Path.join dir a = Path.join dir b -> a = b.
Proof.
  intros Habs Ha Hb. rewrite !join_plain by assumption.
  set (N := Path.normalize_segments false (Path.segments dir) []).
  assert (HN : Forall plain N)
    by (apply normalize_segments_plain; [apply segments_slash_free | constructor]).
  intros H. rewrite !append_cons, !append_nil in H. injection H as H.
  apply (f_equal Path.segments) in H.
  rewrite !segments_join_slash in H;
    try (apply Forall_app; split; [assumption | now apply Forall_singleton]);
    try (now destruct N).
  apply app_inj_tail in H. tauto.
Qed.

Lemma plain_names :
  plain "start.sh" /\ plain "server.properties" /\ plain "eula.txt".
Proof. repeat split; discriminate. Qed.

(** X25. The files of a new instance. For an absolute instance
    directory the create handler leaves three files at most: the
    startup script, at the very path that the start handler hands to
    bash for an instance with that directory and with the content that
    was generated, not overwritten by the files that follow; the eula;
    and [server.properties], beginning with the port of the
    configuration, exactly when the type is neither [bungee] nor
    [velocity]. No other path is written. *)
Theorem create_files_placed (fs : gmap string string) (serverDir content : string)
    (serverConfig : Create.ServerConfig) (server : ServerConfig) :
  Path.isAbsolute serverDir = true ->
  directory server = serverDir ->
  let fs' := write_files fs (create_writes serverDir content serverConfig) in
  fs' !! startScript server = Some content /\
  fs' !! Path.join serverDir "eula.txt" = Some eula /\
  fs' !! Path.join serverDir "server.properties"
  = (if game_server (Create.c_type serverConfig)
     then Some ("server-port=" +:+ Create.decimal (Create.c_port serverConfig) +:+ LF +:+
                "max-players=20" +:+ LF +:+ "view-distance=10" +:+ LF +:+
                "online-mode=false" +:+ LF +:+ "level-name=world" +:+ LF +:+
                "motd=" +:+ Create.c_name serverConfig +:+ LF +:+ "pvp=true" +:+ LF +:+
                "difficulty=normal" +:+ LF +:+ "gamemode=survival" +:+ LF +:+
                "enable-command-block=true" +:+ LF)
     else fs !! Path.join serverDir "server.properties") /\
  forall p, p <> startScript server -> p <> Path.join serverDir "eula.txt" ->
            p <> Path.join serverDir "server.properties" ->
            fs' !! p = fs !! p.
Proof.
  intros Habs Hdir fs'. subst fs'. unfold startScript. rewrite Hdir.
  destruct plain_names as (Hs & Hp & He).
  assert (Hse : Path.join serverDir "start.sh" <> Path.join serverDir "eula.txt")
    by (intros E; now apply join_plain_inj in E).
  assert (Hsp : Path.join serverDir "start.sh" <> Path.join serverDir "server.properties")
    by (intros E; now apply join_plain_inj in E).
  assert (Hpe : Path.join serverDir "server.properties" <> Path.join serverDir "eula.txt")
    by (intros E; now apply join_plain_inj in E).
  unfold create_writes, createServerConfigFiles, script_filename.
  destruct (game_server (Create.c_type serverConfig)); cbn [app write_files foldl fst snd].
  - repeat split.
    + rewrite !lookup_insert_ne by congruence. apply lookup_insert_eq.
    + apply lookup_insert_eq.
    + rewrite !lookup_insert_ne by congruence. apply lookup_insert_eq.
    + intros p H1 H2 H3. now rewrite !lookup_insert_ne by congruence.
  - repeat split.
    + rewrite !lookup_insert_ne by congruence. apply lookup_insert_eq.
    + apply lookup_insert_eq.
    + now rewrite !lookup_insert_ne by congruence.
    + intros p H1 H2 H3. now rewrite !lookup_insert_ne by congruence.
Qed.

Lemma create_files_placed_witness :
  write_files ∅ (create_writes "/srv/a" "#!/bin/bash"
                   (Create.mkServerConfig "A" "survival" "paper" 25565 1024 100 ∅
                      "/srv/a" 0 None "itzg/minecraft-server" "1.20.1" "latest"))
    !! startScript (mkConfig "survival" "/srv/a" "1.20.1" None)
  = Some "#!/bin/bash".
Proof.
  exact (proj1 (create_files_placed ∅ "/srv/a" "#!/bin/bash"
                  (Create.mkServerConfig "A" "survival" "paper" 25565 1024 100 ∅
                     "/srv/a" 0 None "itzg/minecraft-server" "1.20.1" "latest")
                  (mkConfig "survival" "/srv/a" "1.20.1" None) eq_refl eq_refl)).
Defined.

(** X26. Proxy or game server, by three tests that differ in case. The
    download branch of the startup script is chosen by the type in
    lower case; the configuration files and the default port go by the
    type as given. For the types [bungee] and [velocity] as written the
    three agree: the branch of a proxy, no [server.properties], port
    25577 or 25578. For a type that is one of them only up to case the
    branch is the proxy's, yet [server.properties] is written and the
    default port is 25565. *)
Theorem proxy_by_case (type : string) (serverDir : string)
    (serverConfig : Create.ServerConfig) :
  Create.c_type serverConfig = type ->
  proxy_script (script_kind type) = true ->
  (game_server type = false ->
     (Create.default_port type = 25577 \/ Create.default_port type = 25578) /\
     createServerConfigFiles serverDir serverConfig
     = [(Path.join serverDir "eula.txt", eula)]) /\
  (game_server type = true ->
     type <> Versions.toLowerCase type /\
     Create.default_port type = 25565 /\
     createServerConfigFiles serverDir serverConfig
     = [(Path.join serverDir "server.properties", properties serverConfig);
        (Path.join serverDir "eula.txt", eula)]).
Proof.
  intros Htype Hproxy. unfold createServerConfigFiles. rewrite Htype.
  unfold game_server, Create.default_port. split; intros Hg; rewrite ?Hg.
  - destruct (String.eqb type "bungee") eqn:Hb; [split; [now left | reflexivity]|].
    destruct (String.eqb type "velocity") eqn:Hv; [split; [now right | reflexivity]|].
    discriminate.
  - destruct (String.eqb type "bungee") eqn:Hb; [discriminate|].
    destruct (String.eqb type "velocity") eqn:Hv; [discriminate|].
    split; [|split; reflexivity].
    intros E. unfold script_kind in Hproxy. rewrite <- E in Hproxy.
    rewrite Hb, Hv in Hproxy.
    destruct (String.eqb type "paper"); [discriminate|].
    destruct (String.eqb type "purpur"); [discriminate|].
    destruct (String.eqb type "spigot"); discriminate.
Qed.

Lemma proxy_by_case_witness :
  "Bungee" <> Versions.toLowerCase "Bungee" /\
  Create.default_port "Bungee" = 25565 /\
  createServerConfigFiles "/srv/a"
    (Create.mkServerConfig "A" "hub" "Bungee" 25565 1024 100 ∅
       "/srv/a" 0 None "itzg/minecraft-server" "1.20.1" "latest")
  = [(Path.join "/srv/a" "server.properties",
      properties (Create.mkServerConfig "A" "hub" "Bungee" 25565 1024 100 ∅
                    "/srv/a" 0 None "itzg/minecraft-server" "1.20.1" "latest"));
     (Path.join "/srv/a" "eula.txt", eula)].
Proof.
  exact (proj2 (proxy_by_case "Bungee" "/srv/a"
                  (Create.mkServerConfig "A" "hub" "Bungee" 25565 1024 100 ∅
                     "/srv/a" 0 None "itzg/minecraft-server" "1.20.1" "latest")
                  eq_refl eq_refl) eq_refl).
Defined.

End CreateFilesFacts.

(* ===================================================================== *)
(** ** Forced delete: facts *)
(* ===================================================================== *)

Section DeleteForceFacts.

Import Daemon Files DeleteForce.

(** X27. The forced delete is the delete with [force] on. For every
    request the delete-force endpoint answers with the status of the
    delete endpoint called with [force: true] and leaves the same
    files. Where the delete endpoint with [force] off refuses a
    directory that is not empty, the forced delete answers success and
    leaves neither the path nor anything below it. *)
Theorem delete_force_as_delete (cwd : string) (servers : gmap string ServerConfig)
    (serverId filePath : string) (rm : WriteResult) (fs : gmap string string) :
  let forced := files_delete_force cwd servers serverId filePath rm fs in
  let plain_delete := files_delete cwd servers serverId filePath in
  forced.1.1 = (plain_delete true rm fs).1.1 /\
  forced.2 = (plain_delete true rm fs).2 /\
  ((plain_delete false Written fs).1 = (400, ErrorBody "Directory is not empty") ->
   forall server, servers !! serverId = Some server ->
     (files_delete_force cwd servers serverId filePath Written fs).1 = (200, SuccessOnly) /\
     forall file, (files_delete_force cwd servers serverId filePath Written fs).2 !! file
                  <> None ->
                  file <> Path.join (directory server) filePath /\
                  below (Path.join (directory server) filePath) file = false).
Proof.
  intros forced plain_delete. subst forced plain_delete.
  unfold files_delete_force, files_delete.
  destruct (servers !! serverId) as [server|] eqn:Hs;
    [|split; [reflexivity|]; split; [reflexivity | discriminate]].
  cbv zeta.
  destruct (Str.startsWith _ _); cbn [negb];
    [|split; [reflexivity|]; split; [reflexivity | discriminate]].
  destruct (existsSync fs _); cbn [negb];
    [|split; [reflexivity|]; split; [reflexivity | discriminate]].
  rewrite andb_false_r, andb_true_r.
  split; [now destruct rm|]. split; [now destruct rm|].
  destruct (isDirectory fs _); [|discriminate].
  intros _ server' [= <-]. split; [reflexivity|].
  intros file Hfile. cbn [snd] in Hfile.
  match type of Hfile with
  | ?m !! file <> None => destruct (m !! file) as [x|] eqn:Hx; [|congruence]
  end.
  apply map_lookup_filter_Some in Hx as [_ Hx]. exact Hx.
Qed.

Lemma delete_force_as_delete_witness :
  (files_delete_force "/app" Scenario.config_A "A" "start.sh" Written
     Scenario.disk_files).1.1
  = (files_delete "/app" Scenario.config_A "A" "start.sh" true Written
       Scenario.disk_files).1.1.
Proof.
  exact (proj1 (delete_force_as_delete "/app" Scenario.config_A "A" "start.sh" Written
                  Scenario.disk_files)).
Defined.

End DeleteForceFacts.

(* ===================================================================== *)
(** ** The daemon and the lookups in [config.servers]: facts *)
(* ===================================================================== *)

Section NodeFacts.

Import Daemon Node.

Lemma read_inv (n : Process) (serverId : string) :
  match read n serverId with
  | ReadThrows => has_servers n = false
  | ReadUndefined =>
      has_servers n = true /\ servers (daemon n) !! serverId = None /\
      inherited serverId = false
  | ReadOwn server =>
      has_servers n = true /\ servers (daemon n) !! serverId = Some server
  | ReadInherited =>
      has_servers n = true /\ servers (daemon n) !! serverId = None /\
      inherited serverId = true
  end.
Proof.
  unfold read. destruct (has_servers n); [|reflexivity].
  destruct (servers (daemon n) !! serverId); [auto|].
  destruct (inherited serverId); auto.
Qed.

Lemma reachable_accept (s : State) : Daemon.reachable s -> Daemon.reachable (accept s).
Proof.
  intros Hr.
  eapply (Daemon.reachable_step s (GetInstance "")
            (Daemon.get_instance_handler "" s).1); [exact Hr|].
  simpl. apply f_equal. unfold Daemon.get_instance_handler.
  destruct (Daemon.get_instance "" s). reflexivity.
Qed.

Lemma reachable_saveConfig (s : State) :
  Daemon.reachable s -> Daemon.reachable (saveConfig Written s).
Proof.
  intros Hr. now eapply (Daemon.reachable_step s (StatsTimer Written)).
Qed.

Lemma inv_boot (t0 : Z) (file : option Configure.NodeConfig) : inv (boot t0 file).
Proof.
  split; [apply Daemon.reachable_boot|].
  unfold boot. simpl. destruct (Configure.servers (Configure.load file)); [|reflexivity].
  intros H. apply bool_decide_eq_false in H. exfalso. apply H. eauto.
Qed.

Lemma inv_accept (n : Process) :
  inv n -> inv (mkProcess (has_servers n) (accept (daemon n))).
Proof. intros [Hr Hs]. split; [now apply reachable_accept | exact Hs]. Qed.

(** An inherited name has no process registered. *)
Lemma inherited_unregistered (n : Process) (serverId : string) :
  inv n -> read n serverId = ReadInherited ->
  activeServers (daemon n) !! serverId = None.
Proof.
  intros [Hr _] Hread. pose proof (read_inv n serverId) as H. rewrite Hread in H.
  destruct H as (_ & Hnone & _).
  destruct (activeServers (daemon n) !! serverId) as [ref|] eqn:Ha; [|reflexivity].
  destruct (wf_configured _ (reachable_wf _ Hr) serverId ref Ha) as [server Hs]. congruence.
Qed.

Lemma kill_entry_unregistered (sig : Signal) (serverId : string) (s : State) :
  activeServers s !! serverId = None -> kill_entry sig serverId s = Some ([], s).
Proof. intros Ha. unfold kill_entry. now rewrite Ha. Qed.

(** A turn of [Daemon] taken by the daemon with its [config]. *)
Lemma inv_lift (n : Process) (e : Event) (eff : list Effect) (s' : State) :
  inv n -> Daemon.step (daemon n) e = Some (eff, s') ->
  (has_servers n = false -> servers s' = servers (daemon n)) ->
  inv (mkProcess (has_servers n) s').
Proof.
  intros [Hr Hs] Hstep Hsame. split.
  - eapply Daemon.reachable_step; eassumption.
  - intros Hf. simpl in *. rewrite (Hsame Hf). auto.
Qed.

Lemma inv_step (n : Process) (e : Event) (thrown : string) eff n' :
  inv n -> step n e thrown = Some (eff, n') -> inv n'.
Proof.
  intros Hinv. pose proof Hinv as [Hr Hs].
  pose proof (fun id => read_inv n id) as Hread.
  destruct e; simpl.
  - (* Tick *)
    intros [= <- <-]. eapply (inv_lift n (Tick d)); [exact Hinv | reflexivity | reflexivity].
  - (* create *)
    intros [= <- <-]. unfold create. split; simpl.
    + eapply (Daemon.reachable_step _ (PostCreate serverId serverConfig mk wr fw));
        [exact Hr|]. simpl. apply f_equal. apply surjective_pairing.
    + destruct mk; [discriminate|]. exact Hs.
  - (* start *)
    intros [= H]. apply (f_equal snd) in H. cbn [snd] in H. subst n'.
    unfold start. specialize (Hread serverId).
    destruct (read n serverId).
    + now apply inv_accept.
    + eapply (inv_lift n (PostStart serverId sp wr)); [exact Hinv | |].
      * simpl. apply f_equal. apply surjective_pairing.
      * destruct Hread. congruence.
    + eapply (inv_lift n (PostStart serverId sp wr)); [exact Hinv | |].
      * simpl. apply f_equal. apply surjective_pairing.
      * destruct Hread. congruence.
    + destruct (activeServers (daemon n) !! serverId); now apply inv_accept.
  - (* stop *)
    destruct (stop_handler serverId (daemon n)) as [[eff1 s1]|] eqn:Hstop;
      simpl; [|discriminate].
    intros [= <- <-]. eapply (inv_lift n (PostStop serverId)); [exact Hinv | exact Hstop |].
    intros _. unfold stop_handler in Hstop.
    destruct (activeServers (accept (daemon n)) !! serverId).
    + destruct (heap (accept (daemon n)) !! n0); simpl in Hstop; [|discriminate].
      now injection Hstop as <- <-.
    + now injection Hstop as <- <-.
  - (* restart *)
    unfold restart. specialize (Hread serverId).
    assert (Hlift : forall eff1 s1,
              restart_handler serverId sp (daemon n) = Some (eff1, s1) ->
              (has_servers n = false -> servers s1 = servers (daemon n)) ->
              inv (mkProcess (has_servers n) s1)).
    { intros eff1 s1 H1 H2.
      eapply (inv_lift n (PostRestart serverId sp) eff1); [exact Hinv | exact H1 | exact H2]. }
    destruct (activeServers (daemon n) !! serverId) as [ref|] eqn:Ha.
    + destruct (restart_handler serverId sp (daemon n)) as [[eff1 s1]|] eqn:Hre;
        simpl; [|discriminate].
      intros [= <- <-]. apply (Hlift _ _ eq_refl). intros _.
      unfold restart_handler in Hre.
      change (activeServers (accept (daemon n))) with (activeServers (daemon n)) in Hre.
      rewrite Ha in Hre.
      destruct (heap (accept (daemon n)) !! ref); simpl in Hre; [|discriminate].
      now injection Hre as <- <-.
    + destruct (read n serverId).
      * intros [= <- <-]. now apply inv_accept.
      * destruct (restart_handler serverId sp (daemon n)) as [[eff1 s1]|] eqn:Hre;
          simpl; [|discriminate].
        intros [= <- <-]. apply (Hlift _ _ eq_refl). destruct Hread. congruence.
      * destruct (restart_handler serverId sp (daemon n)) as [[eff1 s1]|] eqn:Hre;
          simpl; [|discriminate].
        intros [= <- <-]. apply (Hlift _ _ eq_refl). destruct Hread. congruence.
      * intros [= <- <-]. now apply inv_accept.
  - (* change-version *)
    unfold change_version. specialize (Hread serverId).
    destruct (read n serverId) eqn:Hrd.
    + intros [= <- <-]. now apply inv_accept.
    + destruct (change_version_handler serverId newVersion fsr wr (daemon n))
        as [[eff1 s1]|] eqn:Hch; simpl; [|discriminate].
      intros [= <- <-].
      eapply (inv_lift n (PostChangeVersion serverId newVersion fsr wr));
        [exact Hinv | exact Hch | destruct Hread; congruence].
    + destruct (change_version_handler serverId newVersion fsr wr (daemon n))
        as [[eff1 s1]|] eqn:Hch; simpl; [|discriminate].
      intros [= <- <-].
      eapply (inv_lift n (PostChangeVersion serverId newVersion fsr wr));
        [exact Hinv | exact Hch | destruct Hread; congruence].
    + destruct (String.eqb serverId "__proto__"); [discriminate|].
      rewrite kill_entry_unregistered
        by (exact (inherited_unregistered n serverId Hinv Hrd)).
      simpl. intros [= <- <-]. split; [now apply reachable_accept | exact Hs].
  - (* delete *)
    unfold delete_instance. specialize (Hread serverId).
    destruct (read n serverId) eqn:Hrd.
    + intros [= <- <-]. now apply inv_accept.
    + destruct (delete_handler serverId rm wr (daemon n)) as [[eff1 s1]|] eqn:Hde;
        simpl; [|discriminate].
      intros [= <- <-].
      eapply (inv_lift n (DeleteInstance serverId rm wr));
        [exact Hinv | exact Hde | destruct Hread; congruence].
    + destruct (delete_handler serverId rm wr (daemon n)) as [[eff1 s1]|] eqn:Hde;
        simpl; [|discriminate].
      intros [= <- <-].
      eapply (inv_lift n (DeleteInstance serverId rm wr));
        [exact Hinv | exact Hde | destruct Hread; congruence].
    + rewrite kill_entry_unregistered
        by (exact (inherited_unregistered n serverId Hinv Hrd)).
      simpl. destruct wr; intros [= <- <-].
      * split; [|exact Hs].
        apply (reachable_saveConfig (accept (daemon n))). now apply reachable_accept.
      * split; [now apply reachable_accept | exact Hs].
  - (* get *)
    intros [= H]. apply (f_equal snd) in H. cbn [snd] in H. subst n'.
    unfold get_instance_handler.
    destruct (get_instance serverId thrown n). now apply inv_accept.
  - (* a waiting callback *)
    unfold run_task.
    assert (Hlift : forall eff1 s1,
              Daemon.run_task n0 sp (daemon n) = Some (eff1, s1) ->
              (has_servers n = false -> servers s1 = servers (daemon n)) ->
              inv (mkProcess (has_servers n) s1)).
    { intros eff1 s1 H1 H2.
      eapply (inv_lift n (RunTask n0 sp) eff1); [exact Hinv | exact H1 | exact H2]. }
    destruct (tasks (daemon n) !! n0) as [t|] eqn:Ht.
    + destruct t as [sid|req sid|req sid due].
      * destruct (Daemon.run_task n0 sp (daemon n)) as [[eff1 s1]|] eqn:Hrun;
          simpl; [|discriminate].
        intros [= <- <-]. apply (Hlift _ _ eq_refl). intros _.
        unfold Daemon.run_task in Hrun. rewrite Ht in Hrun. simpl in Hrun.
        now injection Hrun as <- <-.
      * destruct (Daemon.run_task n0 sp (daemon n)) as [[eff1 s1]|] eqn:Hrun;
          simpl; [|discriminate].
        intros [= <- <-]. apply (Hlift _ _ eq_refl). intros _.
        unfold Daemon.run_task in Hrun. rewrite Ht in Hrun. simpl in Hrun.
        now injection Hrun as <- <-.
      * specialize (Hread sid).
        assert (Hthrows : (due <=? now (daemon n)) = true ->
                  inv (mkProcess (has_servers n)
                         (with_tasks (delete n0 (tasks (daemon n))) (daemon n)))).
        { intros Hdue.
          assert (Hrun : exists eff1,
                    Daemon.step (daemon n) (RunTask n0 (SpawnThrows thrown))
                    = Some (eff1, with_tasks (delete n0 (tasks (daemon n))) (daemon n))).
          { simpl. unfold Daemon.run_task. rewrite Ht. simpl. rewrite Hdue.
            unfold restart_spawn. simpl.
            destruct (servers (daemon n) !! sid); eexists; reflexivity. }
          destruct Hrun as [eff1 Hrun].
          eapply (inv_lift n (RunTask n0 (SpawnThrows thrown)) eff1);
            [exact Hinv | exact Hrun | reflexivity]. }
        destruct (read n sid).
        -- destruct (due <=? now (daemon n)); [|discriminate].
           intros [= <- <-]. now apply Hthrows.
        -- destruct (Daemon.run_task n0 sp (daemon n)) as [[eff1 s1]|] eqn:Hrun;
             simpl; [|discriminate].
           intros [= <- <-]. apply (Hlift _ _ eq_refl). destruct Hread. congruence.
        -- destruct (Daemon.run_task n0 sp (daemon n)) as [[eff1 s1]|] eqn:Hrun;
             simpl; [|discriminate].
           intros [= <- <-]. apply (Hlift _ _ eq_refl). destruct Hread. congruence.
        -- destruct (due <=? now (daemon n)); [|discriminate].
           intros [= <- <-]. now apply Hthrows.
    + unfold Daemon.run_task. rewrite Ht. discriminate.
  - (* output *)
    destruct (on_data ref chunk (daemon n)) as [[eff1 s1]|] eqn:Hd; simpl; [|discriminate].
    intros [= <- <-]. eapply (inv_lift n (PtyData ref chunk)); [exact Hinv | exact Hd |].
    intros _. unfold on_data in Hd.
    destruct (heap (daemon n) !! ref) as [p|]; [|discriminate].
    destruct (alive p); [|discriminate].
    destruct (onData p); now injection Hd as <- <-.
  - (* exit *)
    destruct (on_exit ref exitCode signal (daemon n)) as [[eff1 s1]|] eqn:Hd;
      simpl; [|discriminate].
    intros [= <- <-].
    eapply (inv_lift n (PtyExit ref exitCode signal)); [exact Hinv | exact Hd |].
    intros _. unfold on_exit in Hd.
    destruct (heap (daemon n) !! ref) as [p|]; [|discriminate].
    destruct (alive p); [|discriminate].
    destruct (onExit p); now injection Hd as <- <-.
  - (* join *)
    intros [= <- <-].
    eapply (inv_lift n (JoinServer socket serverId));
      [exact Hinv | simpl; apply f_equal; apply surjective_pairing |].
    intros _. unfold join_server.
    match goal with |- context [running ?x serverId] => destruct (running x serverId) end;
      reflexivity.
  - (* statistics timer *)
    destruct wr; simpl; [|discriminate].
    intros [= <- <-]. eapply (inv_lift n (StatsTimer Written)); [exact Hinv | | ]; reflexivity.
Qed.

Lemma reachable_inv (n : Process) : reachable n -> inv n.
Proof.
  induction 1 as [t0 file | n e thrown eff n' _ IH Hstep]; [apply inv_boot|].
  eapply inv_step; eassumption.
Qed.

Lemma node_reachable_run (es : list Event) (thrown : string) (n : Process) eff n' :
  reachable n -> run n es thrown = Some (eff, n') -> reachable n'.
Proof.
  revert n eff. induction es as [|e es IH]; intros n eff Hr; simpl.
  - now intros [= <- <-].
  - destruct (step n e thrown) as [[eff1 n1]|] eqn:He; simpl; [|discriminate].
    destruct (run n1 es thrown) as [[eff2 n2]|] eqn:Hrun; simpl; [|discriminate].
    intros [= <- <-]. eapply IH; [|exact Hrun]. econstructor; eassumption.
Qed.

Lemma reachable_wf_daemon (n : Process) : reachable n -> wf (daemon n).
Proof. intros Hr. apply reachable_wf. now apply reachable_inv. Qed.

Lemma reachable_up_five_seconds : reachable up_five_seconds.
Proof.
  eapply (node_reachable_run [PostStart "A" (Spawned 100) Written; Tick 5000] "" configured);
    [apply reachable_boot|].
  vm_compute. reflexivity.
Qed.

Lemma inherited_spec (name : string) :
  inherited name = true <-> In name Object_prototype.
Proof.
  unfold inherited. rewrite existsb_exists. split.
  - intros (x & Hx & E). apply String.eqb_eq in E. now subst.
  - intros H. exists name. split; [exact H | apply String.eqb_refl].
Qed.

(** Past a lookup that gives an entry or nothing, the start handler is
    the one of [Daemon]. *)
Lemma start_plain (n : Process) (serverId : string) (sp : SpawnResult)
    (wr : WriteResult) (thrown : string) :
  has_servers n = true ->
  inherited serverId = false \/ is_Some (servers (daemon n) !! serverId) ->
  start serverId sp wr thrown n = lift n (start_handler serverId sp wr (daemon n)).
Proof.
  intros Hh Hplain. unfold start, read. rewrite Hh.
  destruct (servers (daemon n) !! serverId) as [server|]; [reflexivity|].
  destruct Hplain as [->|[? ?]]; [reflexivity | discriminate].
Qed.

(** C4. Start misses "Server not found" for identifiers that have no
    configuration. On the node that [configure.js] sets up, whose
    document has no [servers], the start of every identifier is
    answered 500 with the TypeError of the lookup; on a node with the
    one instance [A], the start of [constructor], which has no
    configuration, passes the test of the lookup and is answered 500
    with the TypeError of [path.join], where the start of [B], as
    unconfigured, is answered 404. In none of these turns is anything
    created or registered. *)
Theorem start_not_found_missed :
  Configure.configure ["--panel"; "http://localhost:3000"; "--key"; "k1"] None
                      "3e0c" [Byte.x0a; Byte.xff] 5
  = Configure.Saved fresh_document /\
  (forall serverId sp wr thrown,
     servers (daemon fresh) !! serverId = None /\
     start serverId sp wr thrown fresh
     = ([Respond 0 500 (ErrorBody thrown)], mkProcess false (accept (daemon fresh)))) /\
  (forall sp wr thrown,
     servers (daemon configured) !! "constructor" = None /\
     start "constructor" sp wr thrown configured
     = ([Respond 0 500 (ErrorBody thrown)], mkProcess true (accept (daemon configured)))) /\
  (forall sp wr thrown,
     servers (daemon configured) !! "B" = None /\
     start "B" sp wr thrown configured
     = ([Respond 0 404 (ErrorBody "Server not found")],
        mkProcess true (accept (daemon configured)))).
Proof.
  split; [vm_compute; reflexivity|]. split; [|split].
  - intros serverId sp wr thrown. split; [apply lookup_empty | reflexivity].
  - intros sp wr thrown. split; vm_compute; reflexivity.
  - intros sp wr thrown. split; vm_compute; reflexivity.
Qed.

End NodeFacts.

(* ===================================================================== *)
(** ** Requests for identifiers of every kind *)
(* ===================================================================== *)

Section LookupFacts.

Import Daemon Node.

(** X17. A freshly configured node has no [servers] field. On the
    document that configure writes when there was none before, the
    start handler, and the restart handler too, answers 500 with the
    TypeError of reading [config.servers[id]], not 404, for every
    identifier. With no
    node.json at all, and again once an instance has been created, the
    start of an identifier that has no configuration answers 404
    "Server not found", unless the identifier is the name of a property
    of [Object.prototype]: then it answers 500. *)
Theorem fresh_node_start (args : list string) (uuid : string)
    (keyBytes : list Byte.byte) (now : Z) (c : Configure.NodeConfig) :
  Configure.configure args None uuid keyBytes now = Configure.Saved c ->
  forall t0 serverId sp wr thrown,
    start serverId sp wr thrown (boot t0 (Some c))
    = ([Respond 0 500 (ErrorBody thrown)],
       mkProcess false (accept (Daemon.boot t0 ∅))) /\
    restart serverId sp thrown (boot t0 (Some c))
    = Some ([Respond 0 500 (ErrorBody thrown)],
            mkProcess false (accept (Daemon.boot t0 ∅))) /\
    (start serverId sp wr thrown (boot t0 None)).1
    = (if inherited serverId then [Respond 0 500 (ErrorBody thrown)]
       else [Respond 0 404 (ErrorBody "Server not found")]) /\
    forall other serverConfig fw,
      other <> serverId ->
      let n1 := (create other serverConfig Written Written fw (boot t0 (Some c))).2 in
      read n1 other = ReadOwn (set_lastStarted None serverConfig) /\
      (start serverId sp wr thrown n1).1
      = (if inherited serverId then [Respond 1 500 (ErrorBody thrown)]
         else [Respond 1 404 (ErrorBody "Server not found")]).
Proof.
  intros Hc. apply configure_saved in Hc as (_ & _ & Hc).
  assert (Hboot : forall t0, boot t0 (Some c) = mkProcess false (Daemon.boot t0 ∅)).
  { intros t0. unfold boot. simpl. rewrite Hc. reflexivity. }
  intros t0 serverId sp wr thrown. rewrite !Hboot. clear Hc Hboot.
  split; [reflexivity|]. split; [reflexivity|]. split.
  - unfold start, read, boot. simpl. rewrite lookup_empty.
    now destruct (inherited serverId).
  - intros other serverConfig fw Hne n1. subst n1.
    assert (Hn1 : (create other serverConfig Written Written fw
                     (mkProcess false (Daemon.boot t0 ∅))).2
                  = mkProcess true
                      (mkState t0 {[ other := set_lastStarted None serverConfig ]}
                               {[ other := set_lastStarted None serverConfig ]}
                               [] ∅ [] ∅ 1)).
    { unfold create, create_handler. now destruct fw. }
    rewrite Hn1. split.
    + unfold read. simpl. now rewrite lookup_singleton_eq.
    + unfold start, read. simpl. rewrite lookup_singleton_ne by assumption.
      destruct (inherited serverId); [reflexivity|].
      unfold lift, start_handler. simpl.
      now rewrite lookup_singleton_ne by assumption.
Qed.

Lemma fresh_node_start_witness :
  start "A" (Spawned 1) Written "Cannot read properties of undefined (reading 'A')" fresh
  = ([Respond 0 500 (ErrorBody "Cannot read properties of undefined (reading 'A')")],
     mkProcess false (accept (Daemon.boot 1000 ∅))).
Proof.
  exact (proj1 (fresh_node_start ["--panel"; "http://localhost:3000"; "--key"; "k1"]
                  "3e0c" [Byte.x0a; Byte.xff] 5 fresh_document
                  ltac:(vm_compute; reflexivity)
                  1000 "A" (Spawned 1) Written
                  "Cannot read properties of undefined (reading 'A')")).
Defined.

(** X4. Delete, by what the lookup of the identifier gives. Without
    [config.servers] the answer is 500 with the TypeError; for an
    identifier that is no property of the object it is 404 "Server not
    found"; in both nothing changes. For the name of a property of
    [Object.prototype] the handler passes the test, removes nothing,
    saves the configuration and answers success, or the error of the
    save. For a configured instance it sends SIGKILL to the registered
    process, if there is one, and deletes its entry at once; when the
    directory is removed the configuration entry goes too, and is
    written to disk when the save succeeds; when removing the directory
    fails the answer is the error and the instance stays configured,
    its process already killed and unregistered. No other instance is
    touched. *)
Theorem delete_instance_outcomes (n : Process) (serverId : string) (rm wr : WriteResult)
    (thrown : string) :
  wf (daemon n) ->
  let req := nextReq (daemon n) in
  (read n serverId = ReadThrows ->
   delete_instance serverId rm wr thrown n
   = Some ([Respond req 500 (ErrorBody thrown)],
           mkProcess (has_servers n) (accept (daemon n)))) /\
  (read n serverId = ReadUndefined ->
   delete_instance serverId rm wr thrown n
   = Some ([Respond req 404 (ErrorBody "Server not found")],
           mkProcess (has_servers n) (accept (daemon n)))) /\
  (read n serverId = ReadInherited ->
   delete_instance serverId rm wr thrown n
   = Some (match wr with
           | Written =>
               ([Respond req 200 SuccessOnly],
                mkProcess (has_servers n)
                  (with_disk (servers (daemon n)) (accept (daemon n))))
           | WriteThrows msg =>
               ([Respond req 500 (ErrorBody msg)],
                mkProcess (has_servers n) (accept (daemon n)))
           end)) /\
  (forall server, read n serverId = ReadOwn server ->
   exists eff s',
     delete_instance serverId rm wr thrown n = Some (eff, mkProcess (has_servers n) s') /\
     activeServers s' !! serverId = None /\
     (forall p, running (daemon n) serverId = Some p ->
                head eff = Some (TreeKill (pid p) SIGKILL)) /\
     (running (daemon n) serverId = None -> forall p sig, ~ In (TreeKill p sig) eff) /\
     (rm = Written ->
      servers s' !! serverId = None /\
      (wr = Written ->
       disk s' = servers s' /\ last eff = Some (Respond req 200 SuccessOnly))) /\
     (forall msg, rm = WriteThrows msg ->
      servers s' = servers (daemon n) /\
      last eff = Some (Respond req 500 (ErrorBody msg))) /\
     (forall other, other <> serverId ->
      servers s' !! other = servers (daemon n) !! other /\
      activeServers s' !! other = activeServers (daemon n) !! other)).
Proof.
  intros Hwf req. subst req. pose proof (read_inv n serverId) as Hread.
  unfold delete_instance.
  split; [intros ->; reflexivity|]. split; [|split].
  - intros Hrd. rewrite Hrd in *. destruct Hread as (_ & Hs & _).
    unfold delete_handler. change (servers (accept (daemon n))) with (servers (daemon n)).
    now rewrite Hs.
  - intros Hrd. rewrite Hrd in *. destruct Hread as (_ & Hs & _).
    assert (Ha : activeServers (daemon n) !! serverId = None).
    { destruct (activeServers (daemon n) !! serverId) as [ref|] eqn:Ha; [|reflexivity].
      destruct (wf_configured _ Hwf serverId ref Ha) as [server Hsome]. congruence. }
    rewrite kill_entry_unregistered by exact Ha. now destruct wr.
  - intros server Hrd. rewrite Hrd in *. destruct Hread as (_ & Hs).
    set (s := daemon n) in *.
    unfold delete_handler.
    change (servers (accept s)) with (servers s). rewrite Hs.
    change (activeServers (accept s)) with (activeServers s).
    change (heap (accept s)) with (heap s).
    destruct (activeServers s !! serverId) as [ref|] eqn:Ha.
    + destruct (wf_running _ _ _ Hwf Ha) as (p & Hp & Hrun & _).
      rewrite Hp. simpl.
      destruct rm as [|msg]; [destruct wr as [|msg]|]; do 2 eexists;
        (split; [reflexivity|]); simpl;
        (split; [apply lookup_delete_eq|]);
        (split; [intros q Hq; rewrite Hrun in Hq; now injection Hq as <-|]);
        (split; [intros Hq; congruence|]).
      * split; [intros _; split; [apply lookup_delete_eq | auto]|].
        split; [discriminate|].
        intros other Hne. now rewrite !lookup_delete_ne.
      * split; [intros _; split; [apply lookup_delete_eq | discriminate]|].
        split; [discriminate|].
        intros other Hne. now rewrite !lookup_delete_ne.
      * split; [discriminate|].
        split; [intros m [= <-]; auto|].
        intros other Hne. now rewrite lookup_delete_ne.
    + assert (Hnone : running s serverId = None) by (unfold running; now rewrite Ha).
      simpl.
      destruct rm as [|msg]; [destruct wr as [|msg]|]; do 2 eexists;
        (split; [reflexivity|]); simpl;
        (split; [exact Ha|]);
        (split; [intros q Hq; congruence|]);
        (split; [intros _ q sig [H|[]]; discriminate|]).
      * split; [intros _; split; [apply lookup_delete_eq | auto]|].
        split; [discriminate|].
        intros other Hne. now rewrite lookup_delete_ne.
      * split; [intros _; split; [apply lookup_delete_eq | discriminate]|].
        split; [discriminate|].
        intros other Hne. now rewrite lookup_delete_ne.
      * split; [discriminate|].
        split; [intros m [= <-]; auto|].
        intros other Hne. auto.
Qed.

Lemma delete_instance_outcomes_witness :
  delete_instance "toString" Written Written "" configured
  = Some ([Respond 0 200 SuccessOnly],
          mkProcess true (with_disk Scenario.config_A (accept Scenario.booted))) /\
  delete_instance "B" Written Written "" configured
  = Some ([Respond 0 404 (ErrorBody "Server not found")],
          mkProcess true (accept Scenario.booted)).
Proof.
  pose proof (delete_instance_outcomes configured "toString" Written Written ""
                (wf_boot 1000 Scenario.config_A)) as (_ & _ & H1 & _).
  pose proof (delete_instance_outcomes configured "B" Written Written ""
                (wf_boot 1000 Scenario.config_A)) as (_ & H2 & _).
  split; [exact (H1 eq_refl) | exact (H2 eq_refl)].
Defined.

(** X21. A change of version stops the instance and does not start it
    again. On a configured instance the handler sends SIGTERM to the
    registered process, if any, and deletes its entry in the same turn;
    afterwards no process is registered, the configuration carries the
    new version, also when writing the script or saving fails and the
    answer is an error, and the disk carries it when both succeed. For
    an identifier that is no property of [config.servers] the answer is
    404 and nothing changes; without [config.servers], and for the name
    of a function of [Object.prototype], it is 500 with the TypeError,
    and nothing of the daemon's state changes. *)
Theorem change_version_stops (n : Process) (serverId newVersion : string)
    (fsr wr : WriteResult) (thrown : string) :
  wf (daemon n) ->
  let s := daemon n in
  (forall server, read n serverId = ReadOwn server ->
   exists eff s',
     change_version serverId newVersion fsr wr thrown n
     = Some (eff, mkProcess (has_servers n) s') /\
     activeServers s' !! serverId = None /\
     heap s' = heap s /\ tasks s' = tasks s /\
     servers s' !! serverId = Some (set_version newVersion server) /\
     (forall p, running s serverId = Some p ->
                head eff = Some (TreeKill (pid p) SIGTERM)) /\
     (fsr = Written -> wr = Written ->
      disk s' = servers s' /\ last eff = Some (Respond (nextReq s) 200 SuccessOnly)) /\
     (forall msg, fsr = WriteThrows msg \/ (fsr = Written /\ wr = WriteThrows msg) ->
      disk s' = disk s /\ last eff = Some (Respond (nextReq s) 500 (ErrorBody msg)))) /\
  (read n serverId = ReadUndefined ->
   change_version serverId newVersion fsr wr thrown n
   = Some ([Respond (nextReq s) 404 (ErrorBody "Server not found")],
           mkProcess (has_servers n) (accept s))) /\
  (read n serverId = ReadThrows \/
   (read n serverId = ReadInherited /\ serverId <> "__proto__") ->
   change_version serverId newVersion fsr wr thrown n
   = Some ([Respond (nextReq s) 500 (ErrorBody thrown)],
           mkProcess (has_servers n) (accept s))).
Proof.
  intros Hwf s0. subst s0. pose proof (read_inv n serverId) as Hread.
  unfold change_version. set (s := daemon n) in *. split; [|split].
  - intros server Hrd. rewrite Hrd in *. destruct Hread as (_ & Hs).
    unfold change_version_handler.
    change (servers (accept s)) with (servers s). rewrite Hs.
    change (activeServers (accept s)) with (activeServers s).
    change (heap (accept s)) with (heap s).
    destruct (activeServers s !! serverId) as [ref|] eqn:Ha.
    + destruct (wf_running _ _ _ Hwf Ha) as (p & Hp & Hrun & _).
      rewrite Hp. cbn [mbind option_bind].
      destruct fsr as [|m1]; [destruct wr as [|m2]|]; do 2 eexists;
        (split; [reflexivity|]); cbn;
        (split; [apply lookup_delete_eq|]);
        (split; [reflexivity|]); (split; [reflexivity|]);
        (split; [apply lookup_insert_eq|]);
        (split; [intros q Hq; rewrite Hrun in Hq; now injection Hq as <-|]);
        (split; [first [ now auto | intros; discriminate ]|]);
        intros msg [H|[H1 H2]]; try discriminate;
        first [ injection H as <- | injection H2 as <- ]; auto.
    + cbn [mbind option_bind].
      destruct fsr as [|m1]; [destruct wr as [|m2]|]; do 2 eexists;
        (split; [reflexivity|]); cbn;
        (split; [exact Ha|]);
        (split; [reflexivity|]); (split; [reflexivity|]);
        (split; [apply lookup_insert_eq|]);
        (split; [intros q Hq; unfold running in Hq; rewrite Ha in Hq; discriminate|]);
        (split; [first [ now auto | intros; discriminate ]|]);
        intros msg [H|[H1 H2]]; try discriminate;
        first [ injection H as <- | injection H2 as <- ]; auto.
  - intros Hrd. rewrite Hrd in *. destruct Hread as (_ & Hs & _).
    unfold change_version_handler. change (servers (accept s)) with (servers s).
    now rewrite Hs.
  - intros [Hrd|[Hrd Hne]]; rewrite Hrd in *; [reflexivity|].
    destruct Hread as (_ & Hs & _).
    apply String.eqb_neq in Hne. rewrite Hne.
    assert (Ha : activeServers s !! serverId = None).
    { destruct (activeServers s !! serverId) as [ref|] eqn:Ha; [|reflexivity].
      destruct (wf_configured _ Hwf serverId ref Ha) as [server Hsome]. congruence. }
    now rewrite kill_entry_unregistered by exact Ha.
Qed.

Lemma change_version_stops_witness :
  exists eff s',
    change_version "A" "1.21" Written Written "" (mkProcess true Scenario.started)
    = Some (eff, mkProcess true s') /\
    activeServers s' !! "A" = None /\
    head eff = Some (TreeKill 100 SIGTERM).
Proof.
  destruct (proj1 (change_version_stops (mkProcess true Scenario.started) "A" "1.21"
                     Written Written "" (reachable_wf _ reachable_started))
              (set_lastStarted (Some 1000) (mkConfig "survival" "/srv/a" "1.20.1" None))
              ltac:(vm_compute; reflexivity))
    as (eff & s' & H1 & H2 & _ & _ & _ & H3 & _).
  exists eff, s'. split; [assumption|]. split; [assumption|].
  apply (H3 (mkProc "A" 100 1000 [] OnDataStart true true)). vm_compute. reflexivity.
Defined.

(** X23. The uptime of an instance, on a clock that does not run
    backwards. In every state the daemon reaches, whatever document it
    was loaded over, the uptime that the statistics of an instance
    report is not negative, and the status endpoint reports the
    instance as running with that same uptime.
    When the statistics carry no uptime, the status endpoint says
    stopped with uptime 0 and no pid, or does not know the instance,
    or, without [config.servers], throws, the answer being the 500 of
    Express. While only the clock moves the uptime moves with it, and
    right after a successful start it is 0. *)
Theorem uptime_never_negative (n : Process) (serverId : string) :
  reachable n ->
  (forall up, Status.uptime_ms (Status.instance_stats serverId (daemon n)) = Some up ->
     0 <= up /\
     forall thrown, exists p,
       get_instance serverId thrown n = (200, InstanceBody "running" (Some p) up)) /\
  (Status.uptime_ms (Status.instance_stats serverId (daemon n)) = None ->
   forall thrown,
     match read n serverId with
     | ReadThrows => get_instance serverId thrown n = (500, Unhandled thrown)
     | ReadUndefined => get_instance serverId thrown n = (404, ErrorBody "Server not found")
     | _ => get_instance serverId thrown n = (200, InstanceBody "stopped" None 0)
     end) /\
  (forall d thrown eff n', step n (Tick d) thrown = Some (eff, n') ->
     Status.uptime_ms (Status.instance_stats serverId (daemon n'))
     = (fun up => up + Z.of_N d)
         <$> Status.uptime_ms (Status.instance_stats serverId (daemon n))) /\
  (forall p wr thrown server,
     read n serverId = ReadOwn server -> activeServers (daemon n) !! serverId = None ->
     Status.uptime_ms
       (Status.instance_stats serverId (daemon (start serverId (Spawned p) wr thrown n).2))
     = Some 0).
Proof.
  intros Hr. pose proof (reachable_wf_daemon n Hr) as Hwf.
  pose proof (read_inv n serverId) as Hread.
  set (s := daemon n) in *. split; [|split; [|split]].
  - intros up Hup. unfold Status.instance_stats in Hup.
    destruct (running s serverId) as [p|] eqn:Hrun; [|discriminate].
    injection Hup as <-. pose proof Hrun as Hrun'.
    apply running_inv in Hrun as (ref & Ha & Hp). split.
    + pose proof (wf_started s Hwf) as Hst. rewrite Forall_lookup in Hst.
      specialize (Hst ref p Hp). simpl in Hst. lia.
    + intros thrown. exists (pid p).
      destruct (wf_configured _ Hwf serverId ref Ha) as [server Hs].
      unfold get_instance, read. fold s.
      destruct (has_servers n) eqn:Hh.
      * rewrite Hs. unfold Daemon.get_instance. now rewrite Hs, Hrun'.
      * exfalso. destruct (reachable_inv n Hr) as [_ Hempty].
        fold s in Hempty. rewrite (Hempty Hh), lookup_empty in Hs. discriminate.
  - intros Hnone thrown. unfold Status.instance_stats in Hnone.
    destruct (running s serverId) as [p|] eqn:Hrun; [discriminate|].
    unfold get_instance. fold s.
    destruct (read n serverId); try reflexivity.
    + destruct Hread as (_ & Hs & _). unfold Daemon.get_instance. now rewrite Hs.
    + destruct Hread as (_ & Hs). unfold Daemon.get_instance. now rewrite Hs, Hrun.
    + now rewrite Hrun.
  - intros d thrown eff n' [= <- <-]. unfold Status.instance_stats. simpl. fold s.
    change (running (with_now (now s + Z.of_N d) s) serverId) with (running s serverId).
    destruct (running s serverId); simpl; [|reflexivity]. f_equal. lia.
  - intros p wr thrown server Hrd Ha. unfold start. rewrite Hrd in *.
    destruct Hread as (_ & Hs). unfold lift, start_handler. fold s.
    change (servers (accept s)) with (servers s).
    change (activeServers (accept s)) with (activeServers s).
    fold s in Ha. rewrite Hs, Ha. unfold Status.instance_stats, running.
    destruct wr; simpl; rewrite lookup_insert_eq;
      rewrite lookup_app_r by reflexivity; rewrite Nat.sub_diag; simpl;
      f_equal; lia.
Qed.

Lemma uptime_never_negative_witness :
  0 <= 5000 /\
  forall thrown, exists p,
    get_instance "A" thrown up_five_seconds
    = (200, InstanceBody "running" (Some p) 5000).
Proof.
  exact (proj1 (uptime_never_negative up_five_seconds "A" reachable_up_five_seconds)
           5000 ltac:(vm_compute; reflexivity)).
Defined.

End LookupFacts.

(* ===================================================================== *)
(** ** node.json, whatever it holds: facts *)
(* ===================================================================== *)

Section DocumentsFacts.

Import Configure Documents.



End DocumentsFacts.

(* ===================================================================== *)
(** ** The delete endpoint over files and directories: facts *)
(* ===================================================================== *)

Section TreeFacts.

Import Daemon Confine Tree.

Lemma strip_snoc (s : string) : strip (s +:+ "/") = s.
Proof.
  induction s as [|c s IH]; [reflexivity|].
  rewrite append_cons. cbn [strip]. rewrite IH.
  destruct s; reflexivity.
Qed.

Lemma strip_keeps (s : string) : ends_slash s = false -> strip s = s.
Proof.
  induction s as [|c s IH]; [reflexivity|]. cbn [strip ends_slash].
  destruct s as [|c' s'].
  - intros ->. reflexivity.
  - intros H. now rewrite (IH H).
Qed.

Lemma ends_slash_app (a b : string) :
  b <> "" -> ends_slash (a +:+ b) = ends_slash b.
Proof.
  intros Hb. induction a as [|c a IH]; [reflexivity|].
  rewrite append_cons. cbn [ends_slash]. rewrite IH.
  destruct (a +:+ b) eqn:E; [|reflexivity].
  destruct a; [rewrite append_nil in E; contradiction | rewrite append_cons in E; discriminate].
Qed.

Lemma ends_slash_free (seg : string) :
  Create.has_char Path.slash seg = false -> ends_slash seg = false.
Proof.
  induction seg as [|c seg IH]; [reflexivity|]. cbn [Create.has_char ends_slash].
  intros [Hc Hs]%orb_false_iff. destruct seg; [exact Hc | now apply IH].
Qed.

Lemma join_slash_nonempty (segs : list string) :
  Forall plain segs -> segs <> [] -> Path.join_slash segs <> "".
Proof. intros Hall Hne E. now apply Hne, join_slash_empty. Qed.

Lemma ends_slash_join (segs : list string) :
  Forall plain segs -> ends_slash (Path.join_slash segs) = false.
Proof.
  induction segs as [|seg rest IH]; [reflexivity|]. intros Hall.
  apply Forall_cons in Hall as [(_ & _ & _ & Hfree) Hrest].
  destruct rest as [|seg' rest'].
  - simpl. now apply ends_slash_free.
  - rewrite join_slash_cons by discriminate.
    assert (Hne : Path.join_slash (seg' :: rest') <> "")
      by (apply join_slash_nonempty; [assumption | discriminate]).
    rewrite ends_slash_app.
    + rewrite ends_slash_app by assumption. now apply IH.
    + destruct (Path.join_slash (seg' :: rest')); [contradiction | discriminate].
Qed.

(** The join of an absolute directory and a path is a normalized
    absolute path, with a final slash or without, and resolving it
    gives it without that slash. *)
Lemma join_shape (cwd dir filePath : string) :
  Path.isAbsolute dir = true ->
  exists segs,
    Forall plain segs /\
    Path.resolve cwd (Path.join dir filePath) = "/" +:+ Path.join_slash segs /\
    (Path.join dir filePath = "/" +:+ Path.join_slash segs \/
     (segs <> [] /\ Path.join dir filePath = "/" +:+ Path.join_slash segs +:+ "/")).
Proof.
  intros Habs.
  assert (Hnorm : forall p, Path.isAbsolute p = true ->
            exists segs,
              Forall plain segs /\
              Path.resolve cwd (Path.normalize p) = "/" +:+ Path.join_slash segs /\
              (Path.normalize p = "/" +:+ Path.join_slash segs \/
               (segs <> [] /\ Path.normalize p = "/" +:+ Path.join_slash segs +:+ "/"))).
  { intros p Hp. unfold Path.normalize.
    destruct (String.eqb p "") eqn:Hempty.
    { apply String.eqb_eq in Hempty. subst p. discriminate. }
    rewrite Hp. cbn [negb].
    set (N := Path.normalize_segments false (Path.segments p) []).
    assert (HN : Forall plain N)
      by (apply normalize_segments_plain; [apply segments_slash_free | constructor]).
    assert (Hres : forall tail, Forall (fun seg => seg = "") tail ->
              Path.normalize_segments false ("" :: N ++ tail) [] = N).
    { intros tail Ht. simpl. now rewrite normalize_plain. }
    exists N. split; [exact HN|].
    destruct (String.eqb (Path.join_slash N) "") eqn:Hbody.
    - apply String.eqb_eq in Hbody. pose proof (join_slash_empty N HN Hbody) as ->.
      split; [reflexivity | now left].
    - apply String.eqb_neq in Hbody.
      assert (HNne : N <> []) by (intros E; rewrite E in Hbody; now apply Hbody).
      destruct (Path.endsWithSlash p).
      + split; [|right; split; [assumption | reflexivity]].
        unfold Path.resolve.
        assert (Ha : Path.isAbsolute ("/" +:+ Path.join_slash N +:+ "/") = true)
          by (apply isAbsolute_spec; eexists; reflexivity).
        rewrite Ha.
        change ("/" +:+ Path.join_slash N +:+ "/")
          with (String Path.slash (Path.join_slash N +:+ "/")).
        cbn [Path.segments]. rewrite Ascii.eqb_refl.
        rewrite segments_trailing, segments_join_slash by assumption.
        rewrite (Hres [""]) by (repeat constructor). reflexivity.
      + split; [|now left].
        unfold Path.resolve.
        assert (Ha : Path.isAbsolute ("/" +:+ Path.join_slash N) = true)
          by (apply isAbsolute_spec; eexists; reflexivity).
        rewrite Ha.
        change ("/" +:+ Path.join_slash N)
          with (String Path.slash (Path.join_slash N)).
        cbn [Path.segments]. rewrite Ascii.eqb_refl.
        rewrite segments_join_slash by assumption.
        pose proof (Hres [] ltac:(constructor)) as Hr. rewrite app_nil_r in Hr.
        rewrite Hr. reflexivity. }
  apply isAbsolute_spec in Habs as [r ->]. unfold Path.join.
  cbn [String.eqb].
  destruct (String.eqb filePath ""); apply Hnorm; apply isAbsolute_spec.
  - now exists r.
  - rewrite append_cons. eexists; reflexivity.
Qed.

(** The entry that the joined path names is the resolved path. *)
Lemma entry_path_join (cwd dir filePath : string) :
  Path.isAbsolute dir = true ->
  entry_path (Path.join dir filePath) = Path.resolve cwd (Path.join dir filePath).
Proof.
  intros Habs.
  destruct (join_shape cwd dir filePath Habs) as (segs & Hplain & -> & [->|[Hne ->]]).
  - unfold entry_path. destruct (String.eqb _ "/") eqn:E; [now apply String.eqb_eq in E|].
    destruct segs as [|seg rest]; [discriminate|].
    change ("/" +:+ Path.join_slash (seg :: rest))
      with (String Path.slash (Path.join_slash (seg :: rest))).
    pose proof (join_slash_nonempty (seg :: rest) Hplain ltac:(discriminate)) as Hbody.
    pose proof (ends_slash_join (seg :: rest) Hplain) as Hend.
    destruct (Path.join_slash (seg :: rest)) as [|c body] eqn:Hj; [contradiction|].
    change (strip (String Path.slash (String c body)))
      with (String Path.slash (strip (String c body))).
    now rewrite (strip_keeps _ Hend).
  - unfold entry_path.
    change ("/" +:+ Path.join_slash segs +:+ "/")
      with (("/" +:+ Path.join_slash segs) +:+ "/").
    rewrite strip_snoc.
    destruct (String.eqb _ "/") eqn:E; [|reflexivity].
    apply String.eqb_eq in E. exfalso.
    pose proof (join_slash_nonempty segs Hplain Hne) as Hbody.
    change (("/" +:+ Path.join_slash segs) +:+ "/")
      with (String Path.slash (Path.join_slash segs +:+ "/")) in E.
    injection E as E. destruct (Path.join_slash segs); [contradiction | discriminate].
Qed.

Lemma under_prefix (q k : string) : under q k = true -> Str.is_prefix q k.
Proof.
  unfold under. intros [H|H]%orb_true_iff.
  - apply String.eqb_eq in H as ->. apply is_prefix_refl.
  - apply startsWith_spec in H. destruct (String.eqb q "/") eqn:E.
    + apply String.eqb_eq in E as ->. exact H.
    + eapply is_prefix_trans; [|exact H]. now exists "/".
Qed.

(** What is gone from a file system was there and was named. *)
Lemma touched_without (gone : string -> bool) (fs : Fs) (k : string) :
  touched fs (without gone fs) k ->
  gone k = true /\ (is_Some (files fs !! k) \/ k ∈ dirs fs) /\
  files (without gone fs) !! k = None /\ k ∉ dirs (without gone fs).
Proof.
  unfold touched, without. cbn [files dirs]. intros Ht.
  destruct (gone k) eqn:Hg.
  - split; [reflexivity|].
    assert (Hf : filter (fun kv : string * string => gone kv.1 = false) (files fs) !! k = None).
    { apply map_lookup_filter_None. right. intros x _. simpl. congruence. }
    assert (Hd : k ∉ filter (fun k => gone k = false) (dirs fs)).
    { intros [H _]%elem_of_filter. congruence. }
    split; [|split; assumption].
    destruct Ht as [Ht|Ht].
    + left. rewrite Hf in Ht. destruct (files fs !! k); [eauto | congruence].
    + right. destruct (decide (k ∈ dirs fs)) as [Hin|Hout]; [exact Hin|].
      exfalso. apply Ht. split; [contradiction|]. intros H. contradiction.
  - exfalso. destruct Ht as [Ht|Ht]; apply Ht.
    + destruct (files fs !! k) as [x|] eqn:Hx.
      * symmetry. apply map_lookup_filter_Some. split; [exact Hx | exact Hg].
      * symmetry. apply map_lookup_filter_None. now left.
    + rewrite elem_of_filter. tauto.
Qed.

(** X22. What the containment test of the delete endpoint secures, over
    files and directories, whole and emptied, the path ending in a
    slash or not. For an instance whose directory is an absolute path
    and for every path asked for, every file and every directory that a
    delete removes, whether it goes through or throws with part of a
    tree already removed, was there before and has a path of which the
    resolved instance directory is a prefix as a string; and a delete
    that answers 403, 404 or 400 removes nothing. *)
Theorem delete_confined (cwd : string) (servers : gmap string ServerConfig)
    (serverId filePath : string) (force : bool) (rm : Removal)
    (fs : Fs) (server : ServerConfig) :
  servers !! serverId = Some server ->
  Path.isAbsolute (directory server) = true ->
  let r := files_delete cwd servers serverId filePath force rm fs in
  (forall k, touched fs r.2 k ->
     (is_Some (files fs !! k) \/ k ∈ dirs fs) /\
     files r.2 !! k = None /\ (k ∉ dirs r.2) /\
     Str.is_prefix (Path.resolve cwd (directory server)) k) /\
  (r.1.1 <> 200 -> r.1.1 <> 500 -> r.2 = fs).
Proof.
  intros Hs Habs r. subst r. unfold files_delete. rewrite Hs.
  rewrite (entry_path_join cwd _ filePath Habs).
  set (fullPath := Path.join (directory server) filePath).
  set (serverDir := Path.resolve cwd (directory server)).
  set (q := Path.resolve cwd fullPath).
  assert (Hsame : forall k, touched fs fs k -> False).
  { intros k [H|H]; [congruence | tauto]. }
  destruct (Str.startsWith q serverDir) eqn:Hpre; cbn [negb];
    [|split; [intros k Hk; now apply Hsame in Hk | reflexivity]].
  apply startsWith_spec in Hpre.
  assert (Hgone : forall gone,
            (forall k, gone k = true -> under q k = true) ->
            forall k, touched fs (without gone fs) k ->
              (is_Some (files fs !! k) \/ k ∈ dirs fs) /\
              files (without gone fs) !! k = None /\ (k ∉ dirs (without gone fs)) /\
              Str.is_prefix serverDir k).
  { intros gone Hunder k Hk.
    apply touched_without in Hk as (Hg & Hwas & Hf & Hd).
    split; [exact Hwas|]. split; [exact Hf|]. split; [exact Hd|].
    eapply is_prefix_trans; [exact Hpre|]. apply under_prefix. now apply Hunder. }
  destruct (stat fs fullPath).
  - destruct rm as [|msg gone]; cbn [fst snd].
    + split; [|congruence]. apply Hgone. intros k Hk.
      apply String.eqb_eq in Hk as <-. unfold under. now rewrite String.eqb_refl.
    + split; [intros k Hk; now apply Hsame in Hk | reflexivity].
  - destruct (has_items fs q && negb force);
      [split; [intros k Hk; now apply Hsame in Hk | reflexivity]|].
    destruct rm as [|msg gone]; cbn [fst snd].
    + split; [|congruence]. apply Hgone. auto.
    + split; [|congruence]. apply Hgone. intros k Hk.
      now apply andb_true_iff in Hk as [Hk _].
  - split; [intros k Hk; now apply Hsame in Hk | reflexivity].
Qed.

Lemma delete_confined_witness :
  (files_delete "/app" Scenario.config_A "A" "plugins/" false Removed with_empty_dir).1
  = (200, SuccessOnly) /\
  touched with_empty_dir
    (files_delete "/app" Scenario.config_A "A" "plugins/" false Removed with_empty_dir).2
    "/srv/a/plugins" /\
  Str.is_prefix (Path.resolve "/app" "/srv/a") "/srv/a/plugins".
Proof.
  assert (Ht : touched with_empty_dir
                 (files_delete "/app" Scenario.config_A "A" "plugins/" false Removed
                    with_empty_dir).2 "/srv/a/plugins").
  { right. vm_compute. intros [H _]. specialize (H ltac:(vm_compute; reflexivity)).
    vm_compute in H. discriminate. }
  split; [vm_compute; reflexivity|]. split; [exact Ht|].
  exact (proj2 (proj2 (proj2 (proj1 (delete_confined "/app" Scenario.config_A "A" "plugins/"
                                false Removed with_empty_dir
                                (mkConfig "survival" "/srv/a" "1.20.1" None)
                                ltac:(vm_compute; reflexivity) eq_refl)
                          "/srv/a/plugins" Ht)))).
Defined.

End TreeFacts.
